(** * Access-control graph and administrator lifecycle: a shallow embedding

    The development follows the TypeScript sources of the service:
    - [entity/admin-user.entity.ts] and [team-management.service.ts]
      (administrator accounts, suspend / reactivate, translation of the
      failures of the account-provisioning collaborator);
    - [schema/roles_and_policy/*.schema.ts] (Permission, Policy, Role and
      UserRole documents with their schema methods and statics);
    - [rbac/services/*.service.ts] (the services built on those schemas).

    Conventions.  A [Date] is its number of milliseconds ([Z]); every
    operation that evaluates [new Date()] takes the current instant [now] as
    an argument.  A table or collection is the list of its rows in storage
    order; [findOne] yields the first row matching the filter.  A rejected
    promise or a thrown exception is [Throw e]; logging calls are left out
    (they have no effect on the stores or on the results).  The validators of
    a schema are modelled where the code saves a document of it that is new
    or has a validated path assigned (Permission, Policy, UserRole); the
    [timestamps] members that Mongoose maintains are left out. *)

From Stdlib Require Import List String Ascii ZArith Bool.
From Stdlib Require Import Permutation Sorted Lia.
Import ListNotations.
Open Scope string_scope.
Open Scope Z_scope.
Open Scope list_scope.

Set Implicit Arguments.

(** ** JavaScript values and exceptions *)

(** The [message] member of a response body: a string or a list of strings. *)
Inductive JsMessage : Type :=
| MsgString (s : string)
| MsgArray (l : list string).

(** The exceptions the modelled code raises: the NestJS HTTP exceptions, the
    plain [Error] of the schema methods, and the failures of the runtime and
    of the persistence layer. *)
Inductive Exn : Type :=
| ConflictException (m : JsMessage)
| InternalServerErrorException (m : JsMessage)
| BadRequestException (m : JsMessage)
| NotFoundException (m : JsMessage)
| ForbiddenException (m : JsMessage)
| Error (m : string)
| TypeError (m : string)
| BSONError (m : string)
| CastError (path : string)
| ValidationError (path : string)
| DuplicateKeyError (index : string).

Inductive Result (A : Type) : Type :=
| Ok (a : A)
| Throw (e : Exn).
Arguments Throw {A} e.

Definition bind {A B : Type} (c : Result A) (k : A -> Result B) : Result B :=
  match c with
  | Ok a => k a
  | Throw e => Throw e
  end.

Notation "x <- c ;; k" := (bind c (fun x => k))
  (at level 61, c at next level, right associativity).
Notation "' p <- c ;; k" := (bind c (fun x => let p := x in k))
  (at level 61, p pattern, c at next level, right associativity).

(** [try { c } catch (e) { h e }] *)
Definition try_catch {A : Type} (c : Result A) (h : Exn -> Result A) : Result A :=
  match c with
  | Ok a => Ok a
  | Throw e => h e
  end.

(** Truthiness of an optional string ([undefined] and [''] are falsy). *)
Definition truthy (s : option string) : bool :=
  match s with
  | Some s => negb (String.eqb s "")
  | None => false
  end.

(** [a || b] on an optional string. *)
Definition str_or (s : option string) (dflt : string) : string :=
  match s with
  | Some s => if String.eqb s "" then dflt else s
  | None => dflt
  end.

(** [a || b] on an optional message: arrays are truthy, [''] is not. *)
Definition msg_or (m : option JsMessage) (dflt : string) : JsMessage :=
  match m with
  | Some (MsgString s) => if String.eqb s "" then MsgString dflt else MsgString s
  | Some (MsgArray l) => MsgArray l
  | None => MsgString dflt
  end.

(** [Array.prototype.join] *)
Definition join (sep : string) (l : list string) : string := String.concat sep l.

(** ASCII part of [String.prototype.toLowerCase] and [String.prototype.trim]. *)
Definition lower_ascii (c : ascii) : ascii :=
  let n := nat_of_ascii c in
  if (Nat.leb 65 n && Nat.leb n 90)%bool then ascii_of_nat (n + 32) else c.

Fixpoint toLowerCase (s : string) : string :=
  match s with
  | EmptyString => EmptyString
  | String c r => String (lower_ascii c) (toLowerCase r)
  end.

Definition is_space (c : ascii) : bool :=
  let n := nat_of_ascii c in
  ((Nat.leb 9 n && Nat.leb n 13) || Nat.eqb n 32)%bool.

Fixpoint trimStart (s : string) : string :=
  match s with
  | EmptyString => EmptyString
  | String c r => if is_space c then trimStart r else s
  end.

Fixpoint trimEnd (s : string) : string :=
  match s with
  | EmptyString => EmptyString
  | String c r =>
      match trimEnd r with
      | EmptyString => if is_space c then EmptyString else String c EmptyString
      | r' => String c r'
      end
  end.

Definition trim (s : string) : string := trimEnd (trimStart s).

(** [String.prototype.split] with a one-character separator. *)
Fixpoint split_on (sep : ascii) (s : string) : list string :=
  match s with
  | EmptyString => [EmptyString]
  | String c r =>
      if Ascii.eqb c sep then EmptyString :: split_on sep r
      else match split_on sep r with
           | x :: l => String c x :: l
           | [] => [String c EmptyString]
           end
  end.

(** [String.prototype.substring(start, end)]: each index is clamped to the
    string, and the two are swapped when the first is the larger. *)
Definition substring (s : string) (start end_ : Z) : string :=
  let n := Z.of_nat (String.length s) in
  let a := Z.max 0 (Z.min start n) in
  let b := Z.max 0 (Z.min end_ n) in
  String.substring (Z.to_nat (Z.min a b)) (Z.to_nat (Z.max a b - Z.min a b)) s.

(** ** [Types.ObjectId] and Mongoose helpers *)

(** An ObjectId is kept as its 24-digit lower-case hexadecimal form. *)
Definition ObjectId : Type := string.

Definition is_hex (c : ascii) : bool :=
  let n := nat_of_ascii c in
  ((Nat.leb 48 n && Nat.leb n 57) || (Nat.leb 97 n && Nat.leb n 102)
   || (Nat.leb 65 n && Nat.leb n 70))%bool.

Definition ObjectId_isValid (s : string) : bool :=
  (Nat.eqb (String.length s) 24 && forallb is_hex (list_ascii_of_string s))%bool.

(** The error of [new Types.ObjectId(s)] for a string that is not made of 24
    hexadecimal digits. *)
Definition invalid_ObjectId : Exn :=
  BSONError
    "input must be a 24 character hex string, 12 byte Uint8Array, or an integer".

(** [new Types.ObjectId(s)] on a string. *)
Definition new_ObjectId (s : string) : Result ObjectId :=
  if ObjectId_isValid s then Ok (toLowerCase s) else Throw invalid_ObjectId.

(** Casting of a string found in a query filter at an ObjectId path. *)
Definition cast_ObjectId (path : string) (s : string) : Result ObjectId :=
  if ObjectId_isValid s then Ok (toLowerCase s) else Throw (CastError path).

(** A value at a path of type [Mixed], in a stored document or in a query
    filter.  Mongoose casts nothing at such a path, and MongoDB matches a
    value of a filter with a stored value of the same BSON type only: a
    string never equals an ObjectId, whatever its digits. *)
Inductive Mixed : Type :=
| MixedObjectId (o : ObjectId)
| MixedString (s : string).

Definition Mixed_eqb (a b : Mixed) : bool :=
  match a, b with
  | MixedObjectId x, MixedObjectId y => String.eqb x y
  | MixedString x, MixedString y => String.eqb x y
  | _, _ => false
  end.

Definition isNone {A : Type} (o : option A) : bool :=
  match o with None => true | Some _ => false end.

(** What [populate] leaves at a reference path: the path is either left as
    stored (ids) or replaced by the referenced documents. *)
Inductive Populated (A : Type) : Type :=
| NotPopulated
| PopulatedWith (docs : A).
Arguments NotPopulated {A}.

(** [Record<string, any>] with the values the code stores in it; a key keeps
    its place when overwritten by an object spread. *)
Inductive MetaValue : Type :=
| MetaString (s : string)
| MetaDate (t : Z)
| MetaObjectId (o : ObjectId).

Definition Metadata : Type := list (string * MetaValue).

Fixpoint meta_get (k : string) (m : Metadata) : option MetaValue :=
  match m with
  | [] => None
  | (k', v) :: r => if String.eqb k' k then Some v else meta_get k r
  end.

Fixpoint meta_set (k : string) (v : MetaValue) (m : Metadata) : Metadata :=
  match m with
  | [] => [(k, v)]
  | (k', v') :: r =>
      if String.eqb k' k then (k', v) :: r else (k', v') :: meta_set k v r
  end.

(** Stable insertion sort, for the [sort(...)] of a query: [before y x] says
    that [y] must come before [x]. *)
Section Sort.
Variable A : Type.
Variable before : A -> A -> bool.

Fixpoint insert_sorted (x : A) (l : list A) : list A :=
  match l with
  | [] => [x]
  | y :: r => if before y x then y :: insert_sorted x r else x :: l
  end.

Fixpoint sort_by (l : list A) : list A :=
  match l with
  | [] => []
  | x :: r => insert_sorted x (sort_by r)
  end.
End Sort.

(** Rows and documents are kept under a key ([_id], or the primary key of a
    table): lookup by key, and the write of a row under its key.  A store
    holds one row per key; [write] rewrites what is stored under the key of
    the row, and appends the row when the key is new. *)
Section Collection.
Variable D : Type.
Variable key : D -> string.

Definition findById (coll : list D) (i : string) : option D :=
  find (fun d => String.eqb (key d) i) coll.

Definition write (coll : list D) (d : D) : list D :=
  if existsb (fun r => String.eqb (key r) (key d)) coll
  then map (fun r => if String.eqb (key r) (key d) then d else r) coll
  else coll ++ [d].
End Collection.

(** ** [entity/admin-user.entity.ts] *)

Module AdminUserEntity.

Inductive AdminUserType : Type := SUPER_ADMIN | ADMIN.
Inductive AdminUserStatus : Type := ACTIVE | INACTIVE | SUSPENDED.

Definition type_eqb (a b : AdminUserType) : bool :=
  match a, b with
  | SUPER_ADMIN, SUPER_ADMIN | ADMIN, ADMIN => true
  | _, _ => false
  end.

Definition status_eqb (a b : AdminUserStatus) : bool :=
  match a, b with
  | ACTIVE, ACTIVE | INACTIVE, INACTIVE | SUSPENDED, SUSPENDED => true
  | _, _ => false
  end.

Record AdminUser : Type := mkAdminUser {
  id : string;
  email : string;
  name : option string;
  userSub : option string;
  adminUserType : AdminUserType;
  adminUserStatus : AdminUserStatus;
  createdAt : Z;
  updatedAt : Z
}.

Definition with_status (s : AdminUserStatus) (u : AdminUser) : AdminUser :=
  mkAdminUser (id u) (email u) (name u) (userSub u) (adminUserType u) s
              (createdAt u) (updatedAt u).

Definition with_updatedAt (t : Z) (u : AdminUser) : AdminUser :=
  mkAdminUser (id u) (email u) (name u) (userSub u) (adminUserType u)
              (adminUserStatus u) (createdAt u) t.

(** The [admin_users] table. *)
Definition Repository : Type := list AdminUser.

(** [findOne({ where: { id } })] *)
Definition findOne_id (repo : Repository) (i : string) : option AdminUser :=
  findById id repo i.

(** [findOne({ where: { email } })] *)
Definition findOne_email (repo : Repository) (e : string) : option AdminUser :=
  find (fun u => String.eqb (email u) e) repo.

(** [save(entity)]: the row with the entity's primary key is rewritten (the
    [UpdateDateColumn] takes the current instant); an entity with a new key
    is inserted. *)
Definition save (now : Z) (repo : Repository) (u : AdminUser)
  : Repository * AdminUser :=
  let u' := with_updatedAt now u in
  (write id repo u', u').

Definition option_string_eqb (a b : option string) : bool :=
  match a, b with
  | Some x, Some y => String.eqb x y
  | None, None => true
  | _, _ => false
  end.

(** The columns an application writes, compared value by value. *)
Definition same_columns (a b : AdminUser) : bool :=
  (String.eqb (email a) (email b) && option_string_eqb (name a) (name b)
   && option_string_eqb (userSub a) (userSub b)
   && type_eqb (adminUserType a) (adminUserType b)
   && status_eqb (adminUserStatus a) (adminUserStatus b))%bool.

(** The unique index on [email]. *)
Definition email_taken (repo : Repository) (u : AdminUser) : bool :=
  existsb (fun r =>
    (negb (String.eqb (id r) (id u)) && String.eqb (email r) (email u))%bool)
    repo.

(** [save(entity)] of an entity that was loaded as [stored] and then assigned
    to: when no column differs no statement is issued and the row keeps its
    [updatedAt]; otherwise the row is rewritten as by [save], unless the
    unique index rejects its email. *)
Definition save_loaded (now : Z) (repo : Repository) (stored u : AdminUser)
  : Result (Repository * AdminUser) :=
  if same_columns stored u then Ok (repo, u)
  else if email_taken repo u
  then Throw (Error "duplicate key value violates unique constraint")
  else Ok (save now repo u).

End AdminUserEntity.

(** ** [schema/roles_and_policy/permissions.schema.ts] *)

Module PermissionSchema.

Record Permission : Type := mkPermission {
  _id : ObjectId;
  permissionIdentifier : option string;
  name : string;
  description : option string;
  resource : string;
  action : string;
  isActive : bool;
  deletedAt : option Z;
  metadata : Metadata
}.

Definition Collection : Type := list Permission.

(** The argument of [PermissionService.create]. *)
Record CreateData : Type := mkCreateData {
  c_resource : string;
  c_action : string;
  c_name : string;
  c_description : option string;
  c_permissionIdentifier : option string;
  c_isActive : option bool
}.

(** [new this.permissionModel(data)]: the setters of the schema
    ([trim], [lowercase]) and its defaults. *)
Definition construct (newId : ObjectId) (data : CreateData) : Permission :=
  {| _id := newId;
     permissionIdentifier :=
       option_map (fun s => toLowerCase (trim s)) (c_permissionIdentifier data);
     name := trim (c_name data);
     description := option_map trim (c_description data);
     resource := toLowerCase (trim (c_resource data));
     action := toLowerCase (trim (c_action data));
     isActive := match c_isActive data with Some b => b | None => true end;
     deletedAt := None;
     metadata := [] |}.

(** [/^[a-z_]+:[a-z_]+$/] *)
Definition is_lower_or_underscore (c : ascii) : bool :=
  let n := nat_of_ascii c in
  ((Nat.leb 97 n && Nat.leb n 122) || Nat.eqb n 95)%bool.

Fixpoint split_colon (s : string) : option (string * string) :=
  match s with
  | EmptyString => None
  | String c r =>
      if Ascii.eqb c ":" then Some (EmptyString, r)
      else match split_colon r with
           | Some (a, b) => Some (String c a, b)
           | None => None
           end
  end.

Definition all_lower_or_underscore (s : string) : bool :=
  (negb (String.eqb s "")
   && forallb is_lower_or_underscore (list_ascii_of_string s))%bool.

Definition match_identifier (s : string) : bool :=
  match split_colon s with
  | Some (a, b) => (all_lower_or_underscore a && all_lower_or_underscore b)%bool
  | None => false
  end.

Definition actions : list string :=
  ["create"; "read"; "update"; "delete"; "list"; "manage"].

(** The validators of the schema, run by [save] before the hooks. *)
Definition validate (d : Permission) : Result unit :=
  if (match permissionIdentifier d with
      | Some s => (negb (String.eqb s "") && negb (match_identifier s))%bool
      | None => false
      end)
  then Throw (ValidationError "permissionIdentifier")
  else if (String.eqb (name d) "" || Nat.ltb (String.length (name d)) 3
           || Nat.ltb 100 (String.length (name d)))%bool
  then Throw (ValidationError "name")
  else if (match description d with
           | Some s => Nat.ltb 500 (String.length s)
           | None => false
           end)
  then Throw (ValidationError "description")
  else if String.eqb (resource d) ""
  then Throw (ValidationError "resource")
  else if (String.eqb (action d) ""
           || negb (existsb (String.eqb (action d)) actions))%bool
  then Throw (ValidationError "action")
  else Ok tt.

(** [PermissionSchema.pre('save', ...)] *)
Definition pre_save (d : Permission) : Permission :=
  if (negb (truthy (permissionIdentifier d))
      && negb (String.eqb (resource d) "")
      && negb (String.eqb (action d) ""))%bool
  then mkPermission (_id d) (Some (resource d ++ ":" ++ action d)%string)
         (name d) (description d) (resource d) (action d) (isActive d)
         (deletedAt d) (metadata d)
  else d.

(** The unique index on [permissionIdentifier]. *)
Definition identifier_taken (coll : Collection) (d : Permission) : bool :=
  existsb (fun r =>
    (negb (String.eqb (_id r) (_id d))
     && match permissionIdentifier r, permissionIdentifier d with
        | Some a, Some b => String.eqb a b
        | None, None => true
        | _, _ => false
        end)%bool) coll.

(** [doc.save()] of a new or loaded document. *)
Definition save (coll : Collection) (d : Permission)
  : Result (Collection * Permission) :=
  _ <- validate d ;;
  let d' := pre_save d in
  if identifier_taken coll d'
  then Throw (DuplicateKeyError "permissionIdentifier_1")
  else Ok (write _id coll d', d').

Definition with_deleted (t : option Z) (a : bool) (d : Permission) : Permission :=
  mkPermission (_id d) (permissionIdentifier d) (name d) (description d)
               (resource d) (action d) a t (metadata d).

(** [PermissionSchema.methods.softDelete] *)
Definition softDelete (now : Z) (coll : Collection) (self : Permission)
  : Result (Collection * Permission) :=
  save coll (with_deleted (Some now) false self).

(** [PermissionSchema.methods.restore] *)
Definition restore (coll : Collection) (self : Permission)
  : Result (Collection * Permission) :=
  save coll (with_deleted None true self).

End PermissionSchema.

(** ** [rbac/services/permission.service.ts] *)

Module PermissionService.
Import PermissionSchema.

(** [create(data)] *)
Definition create (newId : ObjectId) (coll : Collection) (data : CreateData)
  : Result (Collection * Permission) :=
  save coll (construct newId data).

(** The [Partial<Permission>] of [update]. *)
Record UpdateData : Type := mkUpdateData {
  u_permissionIdentifier : option string;
  u_name : option string;
  u_description : option string;
  u_resource : option string;
  u_action : option string;
  u_isActive : option bool
}.

Definition or_else {A : Type} (o : option A) (d : A) : A :=
  match o with Some a => a | None => d end.

(** The [$set] of the supplied members, through the setters of the schema;
    neither the validators nor the [save] hooks run on this path. *)
Definition apply_update (data : UpdateData) (d : Permission) : Permission :=
  {| _id := _id d;
     permissionIdentifier :=
       match u_permissionIdentifier data with
       | Some s => Some (toLowerCase (trim s))
       | None => permissionIdentifier d
       end;
     name := or_else (option_map trim (u_name data)) (name d);
     description :=
       match u_description data with
       | Some s => Some (trim s)
       | None => description d
       end;
     resource :=
       or_else (option_map (fun s => toLowerCase (trim s)) (u_resource data))
               (resource d);
     action :=
       or_else (option_map (fun s => toLowerCase (trim s)) (u_action data))
               (action d);
     isActive := or_else (u_isActive data) (isActive d);
     deletedAt := deletedAt d;
     metadata := metadata d |}.

(** [update(id, data)]: [findByIdAndUpdate(id, data, { new: true })] *)
Definition update (coll : Collection) (id : string) (data : UpdateData)
  : Result (Collection * option Permission) :=
  oid <- cast_ObjectId "_id" id ;;
  match findById _id coll oid with
  | None => Ok (coll, None)
  | Some d =>
      let d' := apply_update data d in
      if identifier_taken coll d'
      then Throw (DuplicateKeyError "permissionIdentifier_1")
      else Ok (write _id coll d', Some d')
  end.

(** [findById(id)] *)
Definition findById (coll : Collection) (id : string)
  : Result (option Permission) :=
  oid <- cast_ObjectId "_id" id ;;
  Ok (findById _id coll oid).

End PermissionService.

(** ** [schema/roles_and_policy/policy.schema.ts] *)

Module PolicySchema.

Record Policy : Type := mkPolicy {
  _id : ObjectId;
  policyIdentifier : string;
  name : string;
  description : option string;
  permissions : list ObjectId;
  priority : Z;
  isActive : bool;
  isSystem : bool;
  deletedAt : option Z;
  category : string;
  metadata : Metadata
}.

Definition Collection : Type := list Policy.

Definition with_deleted (t : option Z) (a : bool) (d : Policy) : Policy :=
  mkPolicy (_id d) (policyIdentifier d) (name d) (description d)
           (permissions d) (priority d) a (isSystem d) t (category d)
           (metadata d).

Definition with_permissions (l : list ObjectId) (d : Policy) : Policy :=
  mkPolicy (_id d) (policyIdentifier d) (name d) (description d) l
           (priority d) (isActive d) (isSystem d) (deletedAt d) (category d)
           (metadata d).

(** [doc.save()] of a loaded document. *)
Definition save (coll : Collection) (d : Policy) : Collection * Policy :=
  (write _id coll d, d).

(** [PolicySchema.methods.softDelete] *)
Definition softDelete (now : Z) (coll : Collection) (self : Policy)
  : Result (Collection * Policy) :=
  if isSystem self then Throw (Error "Cannot delete system policies")
  else Ok (save coll (with_deleted (Some now) false self)).

(** [PolicySchema.methods.restore] *)
Definition restore (coll : Collection) (self : Policy) : Collection * Policy :=
  save coll (with_deleted None true self).

(** [permissions.includes(permissionId)]: the array of a document compares
    ObjectIds by value. *)
Definition includes (l : list ObjectId) (i : ObjectId) : bool :=
  existsb (fun x => String.eqb x i) l.

(** [PolicySchema.methods.addPermission] *)
Definition addPermission (coll : Collection) (self : Policy)
  (permissionId : ObjectId) : Collection * Policy :=
  let self' :=
    if negb (includes (permissions self) permissionId)
    then with_permissions (permissions self ++ [permissionId]) self
    else self in
  save coll self'.

(** [PolicySchema.methods.removePermission] *)
Definition removePermission (coll : Collection) (self : Policy)
  (permissionId : ObjectId) : Collection * Policy :=
  save coll
    (with_permissions
       (filter (fun i => negb (String.eqb i permissionId)) (permissions self))
       self).

(** A policy as a query returns it: the document and what [populate] put
    at [permissions]. *)
Record PolicyView : Type := mkPolicyView {
  doc : Policy;
  permissions_populated : Populated (list PermissionSchema.Permission)
}.

Definition unpopulated (d : Policy) : PolicyView := mkPolicyView d NotPopulated.

(** [populate('permissions')]: ids without a document are dropped. *)
Definition populate_permissions (perms : PermissionSchema.Collection)
  (d : Policy) : PolicyView :=
  mkPolicyView d
    (PopulatedWith
       (flat_map (fun i =>
          match findById PermissionSchema._id perms i with
          | Some p => [p]
          | None => []
          end) (permissions d))).

(** [/^[a-z0-9-_]+$/] *)
Definition is_identifier_char (c : ascii) : bool :=
  let n := nat_of_ascii c in
  ((Nat.leb 97 n && Nat.leb n 122) || (Nat.leb 48 n && Nat.leb n 57)
   || Nat.eqb n 45 || Nat.eqb n 95)%bool.

Definition match_identifier (s : string) : bool :=
  (negb (String.eqb s "")
   && forallb is_identifier_char (list_ascii_of_string s))%bool.

Definition categories : list string := ["user"; "admin"; "moderator"; "custom"].

(** The validators of the schema, run by [save] on a new document. *)
Definition validate (d : Policy) : Result unit :=
  if (String.eqb (policyIdentifier d) ""
      || negb (match_identifier (policyIdentifier d)))%bool
  then Throw (ValidationError "policyIdentifier")
  else if (String.eqb (name d) "" || Nat.ltb (String.length (name d)) 3
           || Nat.ltb 100 (String.length (name d)))%bool
  then Throw (ValidationError "name")
  else if (match description d with
           | Some s => Nat.ltb 1000 (String.length s)
           | None => false
           end)
  then Throw (ValidationError "description")
  else if ((priority d <? 0) || (100 <? priority d))%bool
  then Throw (ValidationError "priority")
  else if negb (existsb (String.eqb (category d)) categories)
  then Throw (ValidationError "category")
  else Ok tt.

(** The unique index on [policyIdentifier]. *)
Definition identifier_taken (coll : Collection) (d : Policy) : bool :=
  existsb (fun r =>
    (negb (String.eqb (_id r) (_id d))
     && String.eqb (policyIdentifier r) (policyIdentifier d))%bool) coll.

(** [doc.save()] of a new document. *)
Definition save_new (coll : Collection) (d : Policy)
  : Result (Collection * Policy) :=
  _ <- validate d ;;
  if identifier_taken coll d
  then Throw (DuplicateKeyError "policyIdentifier_1")
  else Ok (write _id coll d, d).

End PolicySchema.

(** ** [schema/roles_and_policy/roles.schema.ts] *)

Module RoleSchema.

Record Role : Type := mkRole {
  _id : ObjectId;
  roleIdentifier : string;
  name : string;
  description : option string;
  policies : list ObjectId;
  level : Z;
  isActive : bool;
  isSystem : bool;
  isDefault : bool;
  deletedAt : option Z;
  metadata : Metadata
}.

Definition Collection : Type := list Role.

Definition with_deleted (t : option Z) (a : bool) (d : Role) : Role :=
  mkRole (_id d) (roleIdentifier d) (name d) (description d) (policies d)
         (level d) a (isSystem d) (isDefault d) t (metadata d).

Definition with_policies (l : list ObjectId) (d : Role) : Role :=
  mkRole (_id d) (roleIdentifier d) (name d) (description d) l (level d)
         (isActive d) (isSystem d) (isDefault d) (deletedAt d) (metadata d).

(** [doc.save()] of a loaded document. *)
Definition save (coll : Collection) (d : Role) : Collection * Role :=
  (write _id coll d, d).

(** [RoleSchema.methods.softDelete] *)
Definition softDelete (now : Z) (coll : Collection) (self : Role)
  : Result (Collection * Role) :=
  if isSystem self then Throw (Error "Cannot delete system roles")
  else if isDefault self then Throw (Error "Cannot delete default role")
  else Ok (save coll (with_deleted (Some now) false self)).

(** [RoleSchema.methods.restore] *)
Definition restore (coll : Collection) (self : Role) : Collection * Role :=
  save coll (with_deleted None true self).

(** [RoleSchema.methods.addPolicy] *)
Definition addPolicy (coll : Collection) (self : Role) (policyId : ObjectId)
  : Collection * Role :=
  let self' :=
    if negb (PolicySchema.includes (policies self) policyId)
    then with_policies (policies self ++ [policyId]) self
    else self in
  save coll self'.

(** [RoleSchema.methods.removePolicy] *)
Definition removePolicy (coll : Collection) (self : Role) (policyId : ObjectId)
  : Collection * Role :=
  save coll
    (with_policies
       (filter (fun i => negb (String.eqb i policyId)) (policies self)) self).

(** [RoleSchema.statics.getDefaultRole] *)
Definition getDefaultRole (coll : Collection) : option Role :=
  find (fun r => (isDefault r && isActive r && isNone (deletedAt r))%bool) coll.

(** A role as a query returns it. *)
Record RoleView : Type := mkRoleView {
  doc : Role;
  policies_populated : Populated (list PolicySchema.PolicyView)
}.

Definition unpopulated (d : Role) : RoleView := mkRoleView d NotPopulated.

(** [populate({ path: 'policies', populate: { path: 'permissions' } })] *)
Definition populate_policies (perms : PermissionSchema.Collection)
  (pols : PolicySchema.Collection) (d : Role) : RoleView :=
  mkRoleView d
    (PopulatedWith
       (flat_map (fun i =>
          match findById PolicySchema._id pols i with
          | Some p => [PolicySchema.populate_permissions perms p]
          | None => []
          end) (policies d))).

End RoleSchema.

(** ** [rbac/services/policy.service.ts] and [role.service.ts] *)

Module PolicyService.
Import PolicySchema.

(** [findAll()] *)
Definition findAll (perms : PermissionSchema.Collection) (coll : Collection)
  : list PolicyView :=
  map (populate_permissions perms)
      (sort_by (fun a b => priority b <? priority a)
               (filter (fun d => isNone (deletedAt d)) coll)).

(** [softDelete(id)] *)
Definition softDelete (now : Z) (coll : Collection) (id : string)
  : Result (Collection * option Policy) :=
  oid <- cast_ObjectId "_id" id ;;
  match findById _id coll oid with
  | Some policy =>
      ' (coll', p) <- PolicySchema.softDelete now coll policy ;;
      Ok (coll', Some p)
  | None => Ok (coll, None)
  end.

(** [addPermission(policyId, permissionId)] *)
Definition addPermission (coll : Collection) (policyId permissionId : string)
  : Result (Collection * option Policy) :=
  oid <- cast_ObjectId "_id" policyId ;;
  match findById _id coll oid with
  | Some policy =>
      pid <- new_ObjectId permissionId ;;
      let (coll', p) := PolicySchema.addPermission coll policy pid in
      Ok (coll', Some p)
  | None => Ok (coll, None)
  end.

(** [removePermission(policyId, permissionId)] *)
Definition removePermission (coll : Collection) (policyId permissionId : string)
  : Result (Collection * option Policy) :=
  oid <- cast_ObjectId "_id" policyId ;;
  match findById _id coll oid with
  | Some policy =>
      pid <- new_ObjectId permissionId ;;
      let (coll', p) := PolicySchema.removePermission coll policy pid in
      Ok (coll', Some p)
  | None => Ok (coll, None)
  end.

(** The argument of [update]: [Partial<Policy>] with [permissions] as
    strings.  Any member of the schema may be given, [isSystem], the
    identifier and [deletedAt] (a date or [null]) included; a member left
    out is [None].  The [_id], which the store does not let a [$set]
    change, is not among them. *)
Record UpdateData : Type := mkUpdateData {
  u_policyIdentifier : option string;
  u_name : option string;
  u_description : option string;
  u_permissions : option (list string);
  u_priority : option Z;
  u_isActive : option bool;
  u_isSystem : option bool;
  u_deletedAt : option (option Z);
  u_category : option string;
  u_metadata : option Metadata
}.

(** [data.permissions.map((id) => new Types.ObjectId(id))] *)
Fixpoint map_ObjectId (l : list string) : Result (list ObjectId) :=
  match l with
  | [] => Ok []
  | s :: r =>
      o <- new_ObjectId s ;;
      os <- map_ObjectId r ;;
      Ok (o :: os)
  end.

(** [if (data.permissions) updateData.permissions = data.permissions.map(...)] *)
Definition permissionIds (data : UpdateData) : Result (option (list ObjectId)) :=
  match u_permissions data with
  | Some l => l' <- map_ObjectId l ;; Ok (Some l')
  | None => Ok None
  end.

(** The [$set] of the supplied members, through the setters of the schema;
    neither the validators nor the [save] hooks run on this path. *)
Definition apply_update (permissions : option (list ObjectId))
  (data : UpdateData) (d : Policy) : Policy :=
  {| _id := _id d;
     policyIdentifier :=
       match u_policyIdentifier data with
       | Some s => toLowerCase (trim s)
       | None => policyIdentifier d
       end;
     name := match u_name data with Some s => trim s | None => name d end;
     description :=
       match u_description data with
       | Some s => Some (trim s)
       | None => description d
       end;
     PolicySchema.permissions :=
       match permissions with
       | Some l => l
       | None => PolicySchema.permissions d
       end;
     priority := match u_priority data with Some n => n | None => priority d end;
     isActive :=
       match u_isActive data with Some b => b | None => isActive d end;
     isSystem :=
       match u_isSystem data with Some b => b | None => isSystem d end;
     deletedAt :=
       match u_deletedAt data with Some t => t | None => deletedAt d end;
     category :=
       match u_category data with Some s => trim s | None => category d end;
     metadata :=
       match u_metadata data with Some m => m | None => metadata d end |}.

(** [update(id, data)]: the ids of [data.permissions] are converted before
    [findByIdAndUpdate(id, updateData, { new: true })] is issued.  The
    unique index on [policyIdentifier] refuses an identifier that the
    update changes to the one of another policy. *)
Definition update (perms : PermissionSchema.Collection) (coll : Collection)
  (id : string) (data : UpdateData)
  : Result (Collection * option PolicyView) :=
  permissions <- permissionIds data ;;
  oid <- cast_ObjectId "_id" id ;;
  match findById _id coll oid with
  | None => Ok (coll, None)
  | Some d =>
      let d' := apply_update permissions data d in
      if (negb (String.eqb (policyIdentifier d') (policyIdentifier d))
          && identifier_taken coll d')%bool
      then Throw (DuplicateKeyError "policyIdentifier_1")
      else Ok (write _id coll d', Some (populate_permissions perms d'))
  end.

(** The argument of [create], with the [isActive] that the controller
    admits; [priority] is a whole number. *)
Record CreateData : Type := mkCreateData {
  c_policyIdentifier : string;
  c_name : string;
  c_description : option string;
  c_permissions : option (list string);
  c_priority : option Z;
  c_category : option string;
  c_isActive : option bool
}.

(** [new this.policyModel({ ...data, permissions: permissionIds || [] })]:
    the setters and the defaults of the schema. *)
Definition construct (newId : ObjectId) (permissionIds : list ObjectId)
  (data : CreateData) : Policy :=
  {| _id := newId;
     policyIdentifier := toLowerCase (trim (c_policyIdentifier data));
     name := trim (c_name data);
     description := option_map trim (c_description data);
     PolicySchema.permissions := permissionIds;
     priority := match c_priority data with Some n => n | None => 0 end;
     isActive := match c_isActive data with Some b => b | None => true end;
     isSystem := false;
     deletedAt := None;
     category :=
       match c_category data with Some s => trim s | None => "custom" end;
     metadata := [] |}.

(** [create(data)]; [newId] is the [_id] the new document receives. *)
Definition create (newId : ObjectId) (coll : Collection) (data : CreateData)
  : Result (Collection * Policy) :=
  permissionIds <- match c_permissions data with
                   | Some l => map_ObjectId l
                   | None => Ok []
                   end ;;
  save_new coll (construct newId permissionIds data).

End PolicyService.

Module RoleService.
Import RoleSchema.

(** [findAll()] *)
Definition findAll (perms : PermissionSchema.Collection)
  (pols : PolicySchema.Collection) (coll : Collection) : list RoleView :=
  map (populate_policies perms pols)
      (sort_by (fun a b => level b <? level a)
               (filter (fun d => isNone (deletedAt d)) coll)).

(** [softDelete(id)] *)
Definition softDelete (now : Z) (coll : Collection) (id : string)
  : Result (Collection * option Role) :=
  oid <- cast_ObjectId "_id" id ;;
  match findById _id coll oid with
  | Some role =>
      ' (coll', r) <- RoleSchema.softDelete now coll role ;;
      Ok (coll', Some r)
  | None => Ok (coll, None)
  end.

(** [addPolicy(roleId, policyId)] *)
Definition addPolicy (coll : Collection) (roleId policyId : string)
  : Result (Collection * option Role) :=
  oid <- cast_ObjectId "_id" roleId ;;
  match findById _id coll oid with
  | Some role =>
      pid <- new_ObjectId policyId ;;
      let (coll', r) := RoleSchema.addPolicy coll role pid in
      Ok (coll', Some r)
  | None => Ok (coll, None)
  end.

(** [removePolicy(roleId, policyId)] *)
Definition removePolicy (coll : Collection) (roleId policyId : string)
  : Result (Collection * option Role) :=
  oid <- cast_ObjectId "_id" roleId ;;
  match findById _id coll oid with
  | Some role =>
      pid <- new_ObjectId policyId ;;
      let (coll', r) := RoleSchema.removePolicy coll role pid in
      Ok (coll', Some r)
  | None => Ok (coll, None)
  end.

(** The members of [Partial<Role>] that the controller passes to [update]. *)
Record UpdateData : Type := mkUpdateData {
  u_name : option string;
  u_description : option string;
  u_isActive : option bool
}.

(** The [$set] of the supplied members, through the setters of the schema;
    neither the validators nor the [save] hooks run on this path. *)
Definition apply_update (data : UpdateData) (d : Role) : Role :=
  {| _id := _id d;
     roleIdentifier := roleIdentifier d;
     name := match u_name data with Some s => trim s | None => name d end;
     description :=
       match u_description data with
       | Some s => Some (trim s)
       | None => description d
       end;
     policies := policies d;
     level := level d;
     isActive :=
       match u_isActive data with Some b => b | None => isActive d end;
     isSystem := isSystem d;
     isDefault := isDefault d;
     deletedAt := deletedAt d;
     metadata := metadata d |}.

(** [update(id, data)]: [findByIdAndUpdate(id, data, { new: true })] *)
Definition update (perms : PermissionSchema.Collection)
  (pols : PolicySchema.Collection) (coll : Collection) (id : string)
  (data : UpdateData) : Result (Collection * option RoleView) :=
  oid <- cast_ObjectId "_id" id ;;
  match findById _id coll oid with
  | None => Ok (coll, None)
  | Some d =>
      let d' := apply_update data d in
      Ok (write _id coll d', Some (populate_policies perms pols d'))
  end.

End RoleService.

(** ** [rbac/rbac.controller.ts] *)

Module RbacController.

(** [UpdateRoleDto]; the schema of a role has no [label] and no [icon]. *)
Record UpdateRoleDto : Type := mkUpdateRoleDto {
  label : option string;
  description : option string;
  icon : option string;
  isActive : option bool
}.

(** [updateRole(roleId, updateRoleDto)]: a [label] that is not empty is
    passed as the name; a member that the schema does not have is not
    stored. *)
Definition updateRole (perms : PermissionSchema.Collection)
  (pols : PolicySchema.Collection) (coll : RoleSchema.Collection)
  (roleId : string) (updateRoleDto : UpdateRoleDto)
  : Result (RoleSchema.Collection * option RoleSchema.RoleView) :=
  let updateData :=
    RoleService.mkUpdateData
      (if truthy (label updateRoleDto) then label updateRoleDto else None)
      (description updateRoleDto) (isActive updateRoleDto) in
  RoleService.update perms pols coll roleId updateData.

End RbacController.

(** ** [schema/roles_and_policy/user_roles.schema.ts] *)

Module UserRoleSchema.

(** [roleId] is declared with [type: Types.ObjectId], the class of the bson
    library and not [Schema.Types.ObjectId]: the schema factory reads a class
    as the definition of a nested document, finds no property in this one,
    and the path takes any value as it is ([Mixed]).  The documents of the
    collection hold an ObjectId there, as the class declares and as every
    writer of the code stores it.

    [expiresAt] is not among the declared properties of the schema class:
    it is the member of a stored document that the filters of the statics
    read.  No write of the code reaches it, since a strict schema drops a
    member it does not declare. *)
Record UserRole : Type := mkUserRole {
  _id : ObjectId;
  userId : string;
  roleId : ObjectId;
  isActive : bool;
  assignedBy : option string;
  assignedAt : Z;
  reason : option string;
  deletedAt : option Z;
  metadata : Metadata;
  expiresAt : option Z
}.

Definition Collection : Type := list UserRole.

Definition with_deleted (t : option Z) (a : bool) (d : UserRole) : UserRole :=
  mkUserRole (_id d) (userId d) (roleId d) a (assignedBy d) (assignedAt d)
             (reason d) t (metadata d) (expiresAt d).

Definition with_metadata (m : Metadata) (d : UserRole) : UserRole :=
  mkUserRole (_id d) (userId d) (roleId d) (isActive d) (assignedBy d)
             (assignedAt d) (reason d) (deletedAt d) m (expiresAt d).

(** The unique index on [(userId, roleId)], partial on [deletedAt = null]. *)
Definition breaks_unique_index (coll : Collection) (d : UserRole) : bool :=
  (isNone (deletedAt d)
   && existsb (fun r =>
        (negb (String.eqb (_id r) (_id d))
         && String.eqb (userId r) (userId d)
         && String.eqb (roleId r) (roleId d)
         && isNone (deletedAt r))%bool) coll)%bool.

(** The write that [doc.save()] ends with.  The validators of the schema
    run before it; the documents of a collection satisfy them, as every
    document that the code saves does, so for a loaded document only a path
    that was assigned can fail, and this is the whole of [save] when no such
    path has a validator. *)
Definition save (coll : Collection) (d : UserRole)
  : Result (Collection * UserRole) :=
  if breaks_unique_index coll d
  then Throw (DuplicateKeyError "userId_1_roleId_1")
  else Ok (write _id coll d, d).

(** The validators of the schema: [userId] is required, which an empty
    string does not satisfy, and [reason] holds at most 500 characters.
    [roleId] is required as well and is given in every document built
    here. *)
Definition validate_userId (d : UserRole) : Result unit :=
  if String.eqb (userId d) "" then Throw (ValidationError "userId") else Ok tt.

Definition validate_reason (d : UserRole) : Result unit :=
  match reason d with
  | Some s =>
      if Nat.ltb 500 (String.length s) then Throw (ValidationError "reason")
      else Ok tt
  | None => Ok tt
  end.

(** [doc.save()] of a new document: every path is validated first. *)
Definition save_new (coll : Collection) (d : UserRole)
  : Result (Collection * UserRole) :=
  _ <- validate_userId d ;;
  _ <- validate_reason d ;;
  save coll d.

(** [doc.save()] of a loaded document to which [reason] was assigned, the
    one assigned path with a validator. *)
Definition save_reassigned (coll : Collection) (d : UserRole)
  : Result (Collection * UserRole) :=
  _ <- validate_reason d ;;
  save coll d.

(** [UserRoleSchema.methods.revoke]; its two [new Date()] are the one
    instant [now]. *)
Definition revoke (now : Z) (coll : Collection) (self : UserRole)
  (revokedBy : option ObjectId) : Result (Collection * UserRole) :=
  let self1 := with_deleted (Some now) false self in
  let self2 :=
    match revokedBy with
    | Some by_ =>
        with_metadata
          (meta_set "revokedAt" (MetaDate now)
             (meta_set "revokedBy" (MetaObjectId by_) (metadata self1)))
          self1
    | None => self1
    end in
  save coll self2.

(** [UserRoleSchema.methods.restore] *)
Definition restore (coll : Collection) (self : UserRole)
  : Result (Collection * UserRole) :=
  save coll (with_deleted None true self).

(** The arguments that the services pass to a method of a document. *)
Inductive Arg : Type :=
| ArgUndefined
| ArgObjectId (o : ObjectId)
| ArgNumber (n : Z).

Definition Method : Type :=
  Z -> Collection -> UserRole -> list Arg -> Result (Collection * UserRole).

(** The methods of the schema, as [UserRoleSchema.methods] holds them: a
    call [(doc as any).m(args)] looks [m] up by name, and raises a
    [TypeError] when the schema has no such method. *)
Definition methods : list (string * Method) :=
  [ ("revoke",
     fun now coll self args =>
       revoke now coll self
         match args with ArgObjectId o :: _ => Some o | _ => None end);
    ("restore", fun _ coll self _ => restore coll self) ].

Fixpoint lookup_method (m : string) (l : list (string * Method))
  : option Method :=
  match l with
  | [] => None
  | (n, f) :: r => if String.eqb n m then Some f else lookup_method m r
  end.

Definition call (now : Z) (coll : Collection) (self : UserRole) (m : string)
  (args : list Arg) : Result (Collection * UserRole) :=
  match lookup_method m methods with
  | Some f => f now coll self args
  | None => Throw (TypeError ("userRole." ++ m ++ " is not a function")%string)
  end.

(** The filter [{ isActive: true, deletedAt: null,
    $or: [{ expiresAt: null }, { expiresAt: { $gt: new Date() } }] }]. *)
Definition effective (now : Z) (d : UserRole) : bool :=
  (isActive d && isNone (deletedAt d)
   && match expiresAt d with
      | None => true
      | Some t => now <? t
      end)%bool.

(** An assignment as a query returns it. *)
Record UserRoleView : Type := mkUserRoleView {
  doc : UserRole;
  roleId_populated : Populated (option RoleSchema.RoleView)
}.

(** [populate('roleId')]: the role document with its own references left
    as stored, or [null] when no role has that id. *)
Definition populate_roleId (roles : RoleSchema.Collection) (d : UserRole)
  : UserRoleView :=
  mkUserRoleView d
    (PopulatedWith
       (option_map RoleSchema.unpopulated
          (findById RoleSchema._id roles (roleId d)))).

(** [UserRoleSchema.statics.getActiveUserRoles] *)
Definition getActiveUserRoles (now : Z) (roles : RoleSchema.Collection)
  (coll : Collection) (uid : string) : list UserRoleView :=
  map (populate_roleId roles)
      (filter (fun d => (String.eqb (userId d) uid && effective now d)%bool)
              coll).

(** [UserRoleSchema.statics.hasRole] *)
Definition hasRole (now : Z) (coll : Collection) (uid : string)
  (rid : ObjectId) : bool :=
  Nat.ltb 0
    (List.length
       (filter (fun d =>
          (String.eqb (userId d) uid && String.eqb (roleId d) rid
           && effective now d)%bool) coll)).

End UserRoleSchema.

(** ** [rbac/services/user-role.service.ts] *)

Module UserRoleService.
Import UserRoleSchema.

(** The argument of [assignRole]. *)
Record AssignData : Type := mkAssignData {
  a_userId : string;
  a_roleId : string;
  a_assignedBy : option string;
  a_expiresAt : option Z;
  a_reason : option string
}.

(** [findOne({ userId, roleId })] *)
Definition findOne_pair (coll : Collection) (uid : string) (rid : ObjectId)
  : option UserRole :=
  find (fun d => (String.eqb (userId d) uid && String.eqb (roleId d) rid)%bool)
       coll.

(** [findOne({ userId, roleId, isActive: true })], with the value that the
    caller gives for [roleId] as it is given: the path is [Mixed]. *)
Definition findOne_active (coll : Collection) (uid : string) (rid : Mixed)
  : option UserRole :=
  find (fun d =>
          (String.eqb (userId d) uid && Mixed_eqb (MixedObjectId (roleId d)) rid
           && isActive d)%bool) coll.

(** [assignRole(data)]; [newId] is the [_id] a new document receives.  The
    [expiresAt] of [data] is given to the constructor and assigned to the
    restored document, and is stored by neither: the schema has no such
    path. *)
Definition assignRole (now : Z) (newId : ObjectId) (coll : Collection)
  (data : AssignData) : Result (Collection * UserRole) :=
  roleObjectId <- new_ObjectId (a_roleId data) ;;
  match findOne_pair coll (a_userId data) roleObjectId with
  | Some existingAssignment =>
      match deletedAt existingAssignment with
      | Some _ =>
          save_reassigned coll
            {| _id := _id existingAssignment;
               userId := userId existingAssignment;
               roleId := roleId existingAssignment;
               isActive := true;
               assignedBy := a_assignedBy data;
               assignedAt := assignedAt existingAssignment;
               reason := Some (trim (str_or (a_reason data) "Role restored"));
               deletedAt := None;
               metadata := metadata existingAssignment;
               expiresAt := expiresAt existingAssignment |}
      | None => Ok (coll, existingAssignment)
      end
  | None =>
      save_new coll
        {| _id := newId;
           userId := a_userId data;
           roleId := roleObjectId;
           isActive := true;
           assignedBy := a_assignedBy data;
           assignedAt := now;
           reason := option_map trim (a_reason data);
           deletedAt := None;
           metadata := [];
           expiresAt := None |}
  end.

(** [getUserRoles(userId)] *)
Definition getUserRoles (now : Z) (roles : RoleSchema.Collection)
  (coll : Collection) (uid : string) : list UserRoleView :=
  getActiveUserRoles now roles coll uid.

(** [hasRole(userId, roleId)] *)
Definition hasRole (now : Z) (coll : Collection) (uid rid : string)
  : Result bool :=
  oid <- new_ObjectId rid ;;
  Ok (UserRoleSchema.hasRole now coll uid oid).

(** [revokedBy ? new Types.ObjectId(revokedBy) : undefined] *)
Definition revokedBy_arg (revokedBy : option string) : Result Arg :=
  match revokedBy with
  | Some s =>
      if String.eqb s "" then Ok ArgUndefined
      else o <- new_ObjectId s ;; Ok (ArgObjectId o)
  | None => Ok ArgUndefined
  end.

(** [revokeRole(userId, roleId, revokedBy?)]: the filter holds [roleId] as
    the string the caller gave. *)
Definition revokeRole (now : Z) (coll : Collection) (uid rid : string)
  (revokedBy : option string) : Result (Collection * option UserRole) :=
  match findOne_active coll uid (MixedString rid) with
  | Some userRole =>
      arg <- revokedBy_arg revokedBy ;;
      ' (coll', d) <- call now coll userRole "revoke" [arg] ;;
      Ok (coll', Some d)
  | None => Ok (coll, None)
  end.

(** [extendExpiry(userId, roleId, days)], with the same filter. *)
Definition extendExpiry (now : Z) (coll : Collection) (uid rid : string)
  (days : Z) : Result (Collection * option UserRole) :=
  match findOne_active coll uid (MixedString rid) with
  | Some userRole =>
      ' (coll', d) <- call now coll userRole "extendExpiry" [ArgNumber days] ;;
      Ok (coll', Some d)
  | None => Ok (coll, None)
  end.

(** The filter [{ userId, isActive: true, deletedAt: null }] of
    [revokeAllRoles]. *)
Definition active_live (uid : string) (d : UserRole) : bool :=
  (String.eqb (userId d) uid && isActive d && isNone (deletedAt d))%bool.

(** [userRoles.map((userRole) => userRole.revoke(revokedBy ? ... : undefined))]
    with the [Promise.all] of the saves: each document found is revoked as it
    was found and written under its key. *)
Fixpoint revoke_each (now : Z) (revokedBy : option string) (coll : Collection)
  (userRoles : list UserRole) : Result (Collection * list UserRole) :=
  match userRoles with
  | [] => Ok (coll, [])
  | userRole :: rest =>
      arg <- revokedBy_arg revokedBy ;;
      ' (coll1, d) <- call now coll userRole "revoke" [arg] ;;
      ' (coll2, ds) <- revoke_each now revokedBy coll1 rest ;;
      Ok (coll2, d :: ds)
  end.

(** [revokeAllRoles(userId, revokedBy?)] *)
Definition revokeAllRoles (now : Z) (coll : Collection) (uid : string)
  (revokedBy : option string) : Result (Collection * list UserRole) :=
  revoke_each now revokedBy coll (filter (active_live uid) coll).

(** What [revoke] receives for the argument [arg]. *)
Definition arg_ObjectId (arg : Arg) : option ObjectId :=
  match arg with ArgObjectId o => Some o | _ => None end.

End UserRoleService.

(** ** [common/constants/messages.constant.ts] *)

Module ERROR_MESSAGES.
Definition USER_NOT_FOUND := "User not found".
Definition ADMIN_NOT_FOUND := "Admin user not found".
Definition ADMIN_ALREADY_EXISTS := "Admin user with this email already exists".
Definition ADMIN_CREATION_FAILED := "Failed to create admin user".
Definition ADMIN_UPDATE_FAILED := "Failed to update admin user".
Definition ADMIN_SELF_SUSPEND := "You cannot suspend your own account".
Definition ADMIN_ALREADY_SUSPENDED := "Admin user is already suspended".
Definition ADMIN_INSUFFICIENT_PERMISSIONS :=
  "Insufficient permissions to suspend this admin".
Definition ADMIN_SELF_REACTIVATE := "You cannot reactivate your own account".
Definition ADMIN_ALREADY_ACTIVE := "Admin user is already active".
Definition ADMIN_INSUFFICIENT_PERMISSIONS_REACTIVATE :=
  "Insufficient permissions to reactivate this admin".
Definition AUTH_SERVICE_SIGNUP_FAILED := "Failed to create user in auth service".
Definition AUTH_SERVICE_UNAVAILABLE := "Auth service is currently unavailable".
Definition AUTH_SERVICE_VALIDATION_ERROR := "Auth service validation failed".
Definition RESET_LINK_SEND_FAILED := "Failed to send password reset link".
End ERROR_MESSAGES.

(** ** [team-management/team-management.service.ts] *)

Module TeamManagementService.
Import AdminUserEntity.

(** What the code reads of an [AxiosError]. *)
Record AxiosResponse : Type := mkAxiosResponse {
  status : Z;
  data_message : option JsMessage
}.

Record AxiosError : Type := mkAxiosError {
  code : option string;
  response : option AxiosResponse
}.

Definition code_is (e : AxiosError) (c : string) : bool :=
  match code e with
  | Some c' => String.eqb c' c
  | None => false
  end.

Definition statusCode (e : AxiosError) : option Z :=
  option_map status (response e).

Definition responseData_message (e : AxiosError) : option JsMessage :=
  match response e with
  | Some r => data_message r
  | None => None
  end.

Definition status_is (e : AxiosError) (n : Z) : bool :=
  match statusCode e with
  | Some s => s =? n
  | None => false
  end.

(** [Array.isArray(m) ? m.join(', ') : m || dflt] *)
Definition validationMessage (m : option JsMessage) (dflt : string) : JsMessage :=
  match m with
  | Some (MsgArray l) => MsgString (join ", " l)
  | _ => msg_or m dflt
  end.

(** The [catch (authError)] block of [createAdmin]. *)
Definition signup_failure (e : AxiosError) : Exn :=
  if (code_is e "ECONNREFUSED" || code_is e "ETIMEDOUT")%bool
  then InternalServerErrorException
         (MsgString ERROR_MESSAGES.AUTH_SERVICE_UNAVAILABLE)
  else if status_is e 409
  then ConflictException
         (msg_or (responseData_message e) "User already exists in auth service")
  else if status_is e 400
  then BadRequestException
         (validationMessage (responseData_message e)
            ERROR_MESSAGES.AUTH_SERVICE_VALIDATION_ERROR)
  else InternalServerErrorException
         (msg_or (responseData_message e)
            ERROR_MESSAGES.AUTH_SERVICE_SIGNUP_FAILED).

(** The [catch (error)] block of [sendResetLink]. *)
Definition reset_failure (e : AxiosError) : Exn :=
  if (code_is e "ECONNREFUSED" || code_is e "ETIMEDOUT")%bool
  then InternalServerErrorException
         (MsgString ERROR_MESSAGES.AUTH_SERVICE_UNAVAILABLE)
  else if status_is e 404
  then NotFoundException
         (msg_or (responseData_message e) ERROR_MESSAGES.USER_NOT_FOUND)
  else if status_is e 400
  then BadRequestException
         (validationMessage (responseData_message e)
            ERROR_MESSAGES.AUTH_SERVICE_VALIDATION_ERROR)
  else InternalServerErrorException
         (msg_or (responseData_message e)
            ERROR_MESSAGES.RESET_LINK_SEND_FAILED).

(** [sendResetLink(email, authToken)]; [outcome] is what [axios.post]
    settles to: the status of the response, or the error it rejects with. *)
Definition sendResetLink (outcome : AxiosError + Z) : Result unit :=
  match outcome with
  | inr _ => Ok tt
  | inl e => Throw (reset_failure e)
  end.

(** The argument of [createAdmin]; ['superadmin'] is the spelling that the
    method normalises. *)
Inductive DtoAdminUserType : Type :=
| DtoType (t : AdminUserType)
| DtoSuperadmin.

Record CreateAdminDto : Type := mkCreateAdminDto {
  d_email : string;
  d_name : option string;
  d_adminUserType : option DtoAdminUserType;
  d_adminUserStatus : option AdminUserStatus;
  d_roleId : option string
}.

(** [assignRoleToUser(userId, roleId)]: every failure is caught and logged;
    [userRoleModel.create] builds the document and saves it. *)
Definition assignRoleToUser (now : Z) (newId : ObjectId)
  (userRoles : UserRoleSchema.Collection) (uid rid : string)
  : UserRoleSchema.Collection :=
  let attempt :=
    oid <- new_ObjectId rid ;;
    match find (fun d =>
            (String.eqb (UserRoleSchema.userId d) uid
             && String.eqb (UserRoleSchema.roleId d) oid
             && UserRoleSchema.isActive d
             && isNone (UserRoleSchema.deletedAt d))%bool) userRoles with
    | Some _ => Ok userRoles
    | None =>
        ' (userRoles', _) <-
          UserRoleSchema.save_new userRoles
            (UserRoleSchema.mkUserRole newId uid oid true None now None None
               [] None) ;;
        Ok userRoles'
    end in
  match attempt with
  | Ok userRoles' => userRoles'
  | Throw _ => userRoles
  end.

Definition is_known_exception (e : Exn) : bool :=
  match e with
  | ConflictException _ | InternalServerErrorException _
  | BadRequestException _ | NotFoundException _ | ForbiddenException _ => true
  | _ => false
  end.

(** [createAdmin(createAdminDto, authToken)]; [signup] is what the call to
    the auth service settles to (the [userSub] of the response, or the error
    it rejects with), [newAdminId] and [newRowId] are the keys that the two
    stores generate. *)
Definition createAdmin (now : Z) (newAdminId : string) (newRowId : ObjectId)
  (repo : Repository) (userRoles : UserRoleSchema.Collection)
  (dto : CreateAdminDto) (signup : AxiosError + option string)
  : Result (Repository * UserRoleSchema.Collection * AdminUser) :=
  let adminUserType :=
    match d_adminUserType dto with
    | Some (DtoType t) => t
    | Some DtoSuperadmin => SUPER_ADMIN
    | None => ADMIN
    end in
  let adminUserStatus :=
    match d_adminUserStatus dto with
    | Some s => s
    | None => ACTIVE
    end in
  try_catch
    (match findOne_email repo (d_email dto) with
     | Some _ =>
         Throw (ConflictException (MsgString ERROR_MESSAGES.ADMIN_ALREADY_EXISTS))
     | None =>
         userSub <- match signup with
                    | inr sub => Ok sub
                    | inl authError => Throw (signup_failure authError)
                    end ;;
         let newAdmin :=
           mkAdminUser newAdminId (d_email dto) (d_name dto) userSub
                       adminUserType adminUserStatus now now in
         let (repo', savedAdmin) := save now repo newAdmin in
         let userRoles' :=
           if truthy (d_roleId dto)
           then assignRoleToUser now newRowId userRoles (id savedAdmin)
                  (str_or (d_roleId dto) "")
           else userRoles in
         Ok (repo', userRoles', savedAdmin)
     end)
    (fun error =>
       if is_known_exception error then Throw error
       else Throw (InternalServerErrorException
                     (MsgString ERROR_MESSAGES.ADMIN_CREATION_FAILED))).

(** [suspendAdmin(targetAdminId, actorAdminId)]; the audit entry fired after
    the write is a log line only. *)
Definition suspendAdmin (now : Z) (repo : Repository)
  (targetAdminId actorAdminId : string) : Result Repository :=
  if String.eqb actorAdminId targetAdminId
  then Throw (ForbiddenException (MsgString ERROR_MESSAGES.ADMIN_SELF_SUSPEND))
  else
    match findOne_id repo targetAdminId with
    | None =>
        Throw (NotFoundException (MsgString ERROR_MESSAGES.ADMIN_NOT_FOUND))
    | Some targetAdmin =>
        if status_eqb (adminUserStatus targetAdmin) SUSPENDED
        then Throw (BadRequestException
                      (MsgString ERROR_MESSAGES.ADMIN_ALREADY_SUSPENDED))
        else
          let actorAdmin := findOne_id repo actorAdminId in
          if match actorAdmin with
             | Some actor =>
                 (type_eqb (adminUserType actor) ADMIN
                  && type_eqb (adminUserType targetAdmin) SUPER_ADMIN)%bool
             | None => false
             end
          then Throw (ForbiddenException
                        (MsgString ERROR_MESSAGES.ADMIN_INSUFFICIENT_PERMISSIONS))
          else Ok (fst (save now repo (with_status SUSPENDED targetAdmin)))
    end.

(** [reactivateAdmin(targetAdminId, actorAdminId)] *)
Definition reactivateAdmin (now : Z) (repo : Repository)
  (targetAdminId actorAdminId : string) : Result Repository :=
  if String.eqb actorAdminId targetAdminId
  then Throw (ForbiddenException
                (MsgString ERROR_MESSAGES.ADMIN_SELF_REACTIVATE))
  else
    match findOne_id repo targetAdminId with
    | None =>
        Throw (NotFoundException (MsgString ERROR_MESSAGES.ADMIN_NOT_FOUND))
    | Some targetAdmin =>
        if status_eqb (adminUserStatus targetAdmin) ACTIVE
        then Throw (BadRequestException
                      (MsgString ERROR_MESSAGES.ADMIN_ALREADY_ACTIVE))
        else
          let actorAdmin := findOne_id repo actorAdminId in
          if match actorAdmin with
             | Some actor =>
                 (type_eqb (adminUserType actor) ADMIN
                  && type_eqb (adminUserType targetAdmin) SUPER_ADMIN)%bool
             | None => false
             end
          then Throw (ForbiddenException
                        (MsgString
                           ERROR_MESSAGES.ADMIN_INSUFFICIENT_PERMISSIONS_REACTIVATE))
          else Ok (fst (save now repo (with_status ACTIVE targetAdmin)))
    end.

(** The argument of [updateAdmin]: a member left out is [None]. *)
Record UpdateAdminDto : Type := mkUpdateAdminDto {
  u_email : option string;
  u_name : option string;
  u_adminUserType : option AdminUserType;
  u_adminUserStatus : option AdminUserStatus;
  u_roleId : option string
}.

(** The [catch (error)] block of [updateAdmin]. *)
Definition update_failure (error : Exn) : Exn :=
  match error with
  | NotFoundException _ | ConflictException _ => error
  | _ => InternalServerErrorException
           (MsgString ERROR_MESSAGES.ADMIN_UPDATE_FAILED)
  end.

(** [if (x !== undefined) existingAdmin.x = x] for the four members. *)
Definition assign_fields (dto : UpdateAdminDto) (existingAdmin : AdminUser)
  : AdminUser :=
  mkAdminUser (id existingAdmin)
    match u_email dto with Some e => e | None => email existingAdmin end
    match u_name dto with Some n => Some n | None => name existingAdmin end
    (userSub existingAdmin)
    match u_adminUserType dto with
    | Some t => t
    | None => adminUserType existingAdmin
    end
    match u_adminUserStatus dto with
    | Some s => s
    | None => adminUserStatus existingAdmin
    end
    (createdAt existingAdmin) (updatedAt existingAdmin).

(** [email && email !== existingAdmin.email], then [emailExists]. *)
Definition email_conflict (repo : Repository) (dto : UpdateAdminDto)
  (existingAdmin : AdminUser) : bool :=
  (truthy (u_email dto)
   && negb (String.eqb (str_or (u_email dto) "") (email existingAdmin))
   && negb (isNone (findOne_email repo (str_or (u_email dto) ""))))%bool.

(** The two stores that [updateAdmin] writes. *)
Definition Stores : Type := (Repository * UserRoleSchema.Collection)%type.

(** [updateAdmin(id, updateAdminDto)]: the stores as the call leaves them,
    also when it fails, and its outcome.  The table is written before the
    assignments are, and nothing undoes a step that was made.
    [revokeAllRoles] is called without [revokedBy]; [newRowId] is the key of
    the assignment that [assignRole] may create. *)
Definition updateAdmin (now : Z) (newRowId : ObjectId) (repo : Repository)
  (userRoles : UserRoleSchema.Collection) (adminId : string)
  (dto : UpdateAdminDto) : Stores * Result AdminUser :=
  match findOne_id repo adminId with
  | None =>
      ((repo, userRoles),
       Throw (update_failure
                (NotFoundException (MsgString ERROR_MESSAGES.ADMIN_NOT_FOUND))))
  | Some existingAdmin =>
      if email_conflict repo dto existingAdmin
      then ((repo, userRoles),
            Throw (update_failure
                     (ConflictException
                        (MsgString ERROR_MESSAGES.ADMIN_ALREADY_EXISTS))))
      else
        match save_loaded now repo existingAdmin
                (assign_fields dto existingAdmin) with
        | Throw error => ((repo, userRoles), Throw (update_failure error))
        | Ok (repo', updatedAdmin) =>
            match u_roleId dto with
            | None => ((repo', userRoles), Ok updatedAdmin)
            | Some roleId =>
                match UserRoleService.revokeAllRoles now userRoles
                        (id updatedAdmin) None with
                | Throw error =>
                    ((repo', userRoles), Throw (update_failure error))
                | Ok (userRoles1, _) =>
                    if truthy (Some roleId)
                    then
                      match UserRoleService.assignRole now newRowId userRoles1
                              (UserRoleService.mkAssignData (id updatedAdmin)
                                 roleId None None (Some "Role updated")) with
                      | Throw error =>
                          ((repo', userRoles1), Throw (update_failure error))
                      | Ok (userRoles2, _) =>
                          ((repo', userRoles2), Ok updatedAdmin)
                      end
                    else ((repo', userRoles1), Ok updatedAdmin)
                end
            end
        end
  end.

(** [QueryUsersDto]; its validators admit whole numbers from 1 for [page] and
    [pageSize]. *)
Record QueryUsersDto : Type := mkQueryUsersDto {
  q_page : option Z;
  q_pageSize : option Z;
  q_role : option string;
  q_adminUserStatus : option (list AdminUserStatus)
}.

(** What [findAll] returns. *)
Record UsersPage : Type := mkUsersPage {
  data : list AdminUser;
  total : Z;
  page : Z;
  pageSize : Z;
  totalPages : Z
}.

(** The [where] of [findAll]: [In(adminUserStatus)] when statuses are given,
    no condition otherwise. *)
Definition where_status (adminUserStatus : option (list AdminUserStatus))
  (u : AdminUser) : bool :=
  match adminUserStatus with
  | Some (s :: l) =>
      existsb (status_eqb (AdminUserEntity.adminUserStatus u)) (s :: l)
  | _ => true
  end.

(** [findAndCount({ where, skip, take, order: { createdAt: 'DESC' } })]: the
    rows of the page and the number of all rows that match.  The query
    orders by [createdAt] alone.  [scan] holds the rows of the table in the
    order in which this query meets them, which the database chooses anew
    for every query; rows of equal [createdAt] come out in that order. *)
Definition findAndCount (scan : Repository) (where_ : AdminUser -> bool)
  (skip take : Z) : list AdminUser * Z :=
  let rows :=
    sort_by (fun a b => createdAt b <? createdAt a) (filter where_ scan) in
  (firstn (Z.to_nat take) (skipn (Z.to_nat skip) rows),
   Z.of_nat (List.length rows)).

(** [Math.ceil(total / pageSize)] for a positive [pageSize]. *)
Definition ceil_div (total pageSize : Z) : Z := - ((- total) / pageSize).

(** [findAll(query)], for [page] and [pageSize] from 1; [scan] is the table
    as the one query of the call meets it. *)
Definition findAll (scan : Repository) (query : QueryUsersDto) : UsersPage :=
  let page := match q_page query with Some p => p | None => 1 end in
  let pageSize := match q_pageSize query with Some n => n | None => 10 end in
  let skip := (page - 1) * pageSize in
  let (users, total) :=
    findAndCount scan (where_status (q_adminUserStatus query)) skip pageSize in
  mkUsersPage users total page pageSize (ceil_div total pageSize).

(** [getUserRoles(userId)] *)
Definition getUserRoles (now : Z) (roles : RoleSchema.Collection)
  (userRoles : UserRoleSchema.Collection) (userId : string)
  : list UserRoleSchema.UserRoleView :=
  UserRoleSchema.getActiveUserRoles now roles userRoles userId.

(** The [Authorization] header of the calls to the auth service:
    [if (authToken) headers['Authorization'] = `Bearer ${authToken}`]. *)
Definition authorization_header (authToken : option string) : option string :=
  if truthy authToken then Some ("Bearer " ++ str_or authToken "")%string
  else None.

End TeamManagementService.

(** ** [team-management/team-management.controller.ts] *)

Module TeamManagementController.
Import AdminUserEntity.

(** What a response carries at [role]: [null], an id, or a role document. *)
Inductive RoleField : Type :=
| RoleNull
| RoleId (o : ObjectId)
| RoleDoc (r : RoleSchema.RoleView).

(** [userRoles.length > 0 ? userRoles[0].roleId : null] *)
Definition first_role (userRoles : list UserRoleSchema.UserRoleView)
  : RoleField :=
  match userRoles with
  | v :: _ =>
      match UserRoleSchema.roleId_populated v with
      | PopulatedWith (Some r) => RoleDoc r
      | PopulatedWith None => RoleNull
      | NotPopulated => RoleId (UserRoleSchema.roleId (UserRoleSchema.doc v))
      end
  | [] => RoleNull
  end.

(** [updateAdmin(id, updateAdminDto)]: the admin that the service returns,
    with the role of the first active assignment read at [now']. *)
Definition updateAdmin (now now' : Z) (newRowId : ObjectId)
  (roles : RoleSchema.Collection) (repo : Repository)
  (userRoles : UserRoleSchema.Collection) (id : string)
  (updateAdminDto : TeamManagementService.UpdateAdminDto)
  : TeamManagementService.Stores * Result (AdminUser * RoleField) :=
  match TeamManagementService.updateAdmin now newRowId repo userRoles id
          updateAdminDto with
  | (stores, Ok admin) =>
      (stores,
       Ok (admin,
           first_role
             (TeamManagementService.getUserRoles now' roles (snd stores) id)))
  | (stores, Throw error) => (stores, Throw error)
  end.

(** The token that [createAdmin] and [sendResetLink] pass to the service:
    [req.headers?.authorization || ''] without a leading ['Bearer ']. *)
Definition bearer_token (authorization : option string) : string :=
  let authHeader := str_or authorization "" in
  if String.prefix "Bearer " authHeader
  then substring authHeader 7 (Z.of_nat (String.length authHeader))
  else authHeader.

End TeamManagementController.

(** ** [rabbitmq/rabbitmq-producer.service.ts] *)

Module RabbitMqProducerService.

Definition dquote : ascii := ascii_of_nat 34.
Definition squote : ascii := "'"%char.
Definition comma : ascii := ","%char.

(** [String.prototype.startsWith] and [endsWith] with a one-character
    argument. *)
Definition startsWith (s : string) (c : ascii) : bool :=
  match s with
  | String c' _ => Ascii.eqb c' c
  | EmptyString => false
  end.

Fixpoint endsWith (s : string) (c : ascii) : bool :=
  match s with
  | EmptyString => false
  | String c' EmptyString => Ascii.eqb c' c
  | String _ r => endsWith r c
  end.

(** [clean(value)] *)
Definition clean (value : option string) : option string :=
  match value with
  | None => None
  | Some v =>
      if String.eqb v "" then Some v
      else
        let value := trim v in
        let length := Z.of_nat (String.length value) in
        if ((startsWith value dquote && endsWith value dquote)
            || (startsWith value squote && endsWith value squote))%bool
        then Some (substring value 1 (length - 1))
        else if (startsWith value dquote || startsWith value squote)%bool
        then Some (substring value 1 length)
        else if (endsWith value dquote || endsWith value squote)%bool
        then Some (substring value 0 (length - 1))
        else Some value
  end.


(** [extractUrls(value)] *)
Definition extractUrls (value : option string) : list string :=
  match clean value with
  | None => []
  | Some cleaned =>
      if String.eqb cleaned "" then []
      else filter (fun url => negb (String.eqb url ""))
             (map trim (split_on comma cleaned))
  end.

(** A URL as it stands in a list of URLs: not empty, of ASCII characters,
    and without a blank, a comma or a quote. *)
Definition plain_char (c : ascii) : bool :=
  (Nat.ltb (nat_of_ascii c) 128
   && negb (is_space c) && negb (Ascii.eqb c comma)
   && negb (Ascii.eqb c dquote) && negb (Ascii.eqb c squote))%bool.

Definition plain (url : string) : bool :=
  (negb (String.eqb url "")
   && forallb plain_char (list_ascii_of_string url))%bool.

End RabbitMqProducerService.

(** ** [logger/pino.config.ts] *)

Module PinoConfig.

Definition VALID_LEVELS : list string :=
  ["fatal"; "error"; "warn"; "info"; "debug"; "trace"].

(** [VALID_LEVELS.includes(v)] *)
Definition includes (l : list string) (v : string) : bool :=
  existsb (String.eqb v) l.

(** [normalizeLevel(raw, fallback = 'info')] *)
Definition normalizeLevel (raw : option string) (fallback : option string)
  : string :=
  let fallback := match fallback with Some f => f | None => "info" end in
  let v := toLowerCase (str_or raw "") in
  if includes VALID_LEVELS v then v else fallback.

(** [customLogLevel(_req, res, err)]; [err] tells whether an error is
    given. *)
Definition customLogLevel (statusCode : Z) (err : bool) : string :=
  if (err || (500 <=? statusCode))%bool then "error"
  else if 400 <=? statusCode then "warn"
  else "info".

(** The level that [buildPinoHttpParams] configures from [LOG_LEVEL]. *)
Definition configured_level (LOG_LEVEL : option string) : string :=
  normalizeLevel LOG_LEVEL (Some "error").

End PinoConfig.

(** ** [middleware/admin-auth.middleware.ts] *)

Module AdminAuthMiddleware.

(** [authHeader?.toString().split(' ')?.[1]] *)
Definition token (authorization : option string) : option string :=
  match authorization with
  | Some authHeader => nth_error (split_on " " authHeader) 1
  | None => None
  end.

(** The token that [use] goes on to verify: [None] where it raises
    ['No token provided']. *)
Definition provided (authorization : option string) : option string :=
  match token authorization with
  | Some t => if String.eqb t "" then None else Some t
  | None => None
  end.

End AdminAuthMiddleware.

(** ** Statements used by the properties *)

Module Statements.
Import AdminUserEntity.

(** The outcome of a successful lifecycle transition of [target], found as
    [t] before the call: afterwards [target] is found with status [s] and
    the same key, email, name, subject and type, and every other account is
    found as before. *)
Definition transitioned (s : AdminUserStatus) (repo repo' : Repository)
  (target : string) (t : AdminUser) : Prop :=
  (exists t', findOne_id repo' target = Some t'
              /\ adminUserStatus t' = s
              /\ id t' = id t /\ email t' = email t /\ name t' = name t
              /\ userSub t' = userSub t
              /\ adminUserType t' = adminUserType t)
  /\ (forall j, j <> target -> findOne_id repo' j = findOne_id repo j).

(** The rule of the fourth guard: the actor is found and is an [ADMIN], and
    the target is a [SUPER_ADMIN]. *)
Definition admin_over_super_admin (repo : Repository) (actor : string)
  (t : AdminUser) : Prop :=
  exists a, findOne_id repo actor = Some a
            /\ adminUserType a = ADMIN /\ adminUserType t = SUPER_ADMIN.

End Statements.

(** ** The expansion of a returned assignment *)

Module Expansion.
Import UserRoleSchema.

(** A policy view carries its permission documents. *)
Definition policy_expanded (pv : PolicySchema.PolicyView) : Prop :=
  exists ps, PolicySchema.permissions_populated pv = PopulatedWith ps.

(** A role view carries its policy views, each with its permissions. *)
Definition role_expanded (rv : RoleSchema.RoleView) : Prop :=
  exists pvs, RoleSchema.policies_populated rv = PopulatedWith pvs
              /\ Forall policy_expanded pvs.

(** An assignment view carries its role, expanded down to the permissions. *)
Definition assignment_expanded (v : UserRoleView) : Prop :=
  exists rv, roleId_populated v = PopulatedWith (Some rv) /\ role_expanded rv.

(** The view [populate('roleId')] builds for a stored assignment. *)
Definition with_role (roles : RoleSchema.Collection) (d : UserRole)
  : UserRoleView :=
  mkUserRoleView d
    (PopulatedWith
       (option_map RoleSchema.unpopulated
          (findById RoleSchema._id roles (roleId d)))).

End Expansion.

(** ** The document that a revocation writes *)

Module Revocation.
Import UserRoleSchema.

(** The assignment [d] soft-deleted at [now], with the revocation recorded
    in its metadata when [revokedBy] is given. *)
Definition revoked (now : Z) (revokedBy : option ObjectId) (d : UserRole)
  : UserRole :=
  mkUserRole (_id d) (userId d) (roleId d) false (assignedBy d) (assignedAt d)
    (reason d) (Some now)
    match revokedBy with
    | Some o =>
        meta_set "revokedAt" (MetaDate now)
          (meta_set "revokedBy" (MetaObjectId o) (metadata d))
    | None => metadata d
    end
    (expiresAt d).

End Revocation.

(** ** Failures of the provisioning collaborator *)

Module Provisioning.
Import TeamManagementService.

(** The request did not reach the collaborator, or timed out on the way. *)
Definition connection_failure (e : AxiosError) : Prop :=
  code e = Some "ECONNREFUSED" \/ code e = Some "ETIMEDOUT".

(** The collaborator answered with status [n]. *)
Definition answered (e : AxiosError) (n : Z) : Prop :=
  ~ connection_failure e /\ statusCode e = Some n.

(** The collaborator's message when it sent one ([''] counts as none),
    otherwise the default of the caller. *)
Definition carried (e : AxiosError) (dflt : string) : JsMessage :=
  match responseData_message e with
  | Some (MsgString "") | None => MsgString dflt
  | Some m => m
  end.

End Provisioning.

(** ** One row per pair *)

Module AssignmentStore.
Import UserRoleSchema UserRoleService.

(** Every assignment of the collection is the one that the lookup of its
    [(userId, roleId)] pair finds: the pair has no other row.  The empty
    collection is such, and [assignRole] and [revokeRole] keep it so. *)
Definition one_row_per_pair (coll : Collection) : Prop :=
  forall d, In d coll -> findOne_pair coll (userId d) (roleId d) = Some d.

(** The keys of a collection are unique, as the [_id] index has it. *)
Definition unique_ids (coll : Collection) : Prop := NoDup (map _id coll).

End AssignmentStore.

(** ** A small installation, used to run the operations *)

Module Scenario.
Import AdminUserEntity.

Definition boss : AdminUser :=
  mkAdminUser "u-boss" "boss@example.com" (Some "Boss") (Some "sub-1")
              SUPER_ADMIN ACTIVE 10 10.

Definition staff : AdminUser :=
  mkAdminUser "u-staff" "staff@example.com" (Some "Staff") (Some "sub-2")
              ADMIN ACTIVE 20 20.

Definition idle : AdminUser :=
  mkAdminUser "u-idle" "idle@example.com" None (Some "sub-3")
              ADMIN SUSPENDED 30 35.

Definition admin_users : Repository := [boss; staff; idle].

Definition perm_user_read : PermissionSchema.Permission :=
  PermissionSchema.mkPermission "aaaaaaaaaaaaaaaaaaaaaaaa" (Some "user:read")
    "Read users" None "user" "read" true None [].

Definition pol_viewer : PolicySchema.Policy :=
  PolicySchema.mkPolicy "bbbbbbbbbbbbbbbbbbbbbbbb" "viewer" "Viewer" None
    ["aaaaaaaaaaaaaaaaaaaaaaaa"] 10 true false None "custom" [].

Definition pol_system : PolicySchema.Policy :=
  PolicySchema.mkPolicy "bbbbbbbbbbbbbbbbbbbbbbb1" "root" "Root" None
    ["aaaaaaaaaaaaaaaaaaaaaaaa"] 90 true true None "admin" [].

Definition role_support : RoleSchema.Role :=
  RoleSchema.mkRole "cccccccccccccccccccccccc" "support" "Support" None
    ["bbbbbbbbbbbbbbbbbbbbbbbb"] 5 true false false None [].

Definition role_default : RoleSchema.Role :=
  RoleSchema.mkRole "ccccccccccccccccccccccc1" "member" "Member" None
    [] 1 true false true None [].

Definition role_system : RoleSchema.Role :=
  RoleSchema.mkRole "ccccccccccccccccccccccc2" "owner" "Owner" None
    ["bbbbbbbbbbbbbbbbbbbbbbb1"] 99 true true false None [].

Definition permissions : PermissionSchema.Collection := [perm_user_read].

(** The creation of a permission without an identifier, and the document it
    stores. *)
Definition create_post_delete : PermissionSchema.CreateData :=
  PermissionSchema.mkCreateData " Post" "Delete" "Delete posts" None None None.

Definition perm_post_delete : PermissionSchema.Permission :=
  PermissionSchema.mkPermission "aaaaaaaaaaaaaaaaaaaaaaa1" (Some "post:delete")
    "Delete posts" None "post" "delete" true None [].

(** A partial update of the resource and of the action. *)
Definition update_to_comment_manage : PermissionService.UpdateData :=
  PermissionService.mkUpdateData None None None (Some "comment") (Some "manage")
    None.

Definition policies : PolicySchema.Collection := [pol_viewer; pol_system].
Definition roles : RoleSchema.Collection :=
  [role_support; role_default; role_system].

(** [U1] holds [support] without expiry; [U2] holds it with an expiry at 500
    and is still marked active. *)
Definition assignment_U1 : UserRoleSchema.UserRole :=
  UserRoleSchema.mkUserRole "dddddddddddddddddddddddd" "U1"
    "cccccccccccccccccccccccc" true (Some "u-boss") 50 (Some "on-call") None
    [] None.

Definition assignment_U2 : UserRoleSchema.UserRole :=
  UserRoleSchema.mkUserRole "ddddddddddddddddddddddd1" "U2"
    "cccccccccccccccccccccccc" true None 60 None None [] (Some 500).

(** [U3] held [support] until it was revoked at 70. *)
Definition assignment_U3 : UserRoleSchema.UserRole :=
  UserRoleSchema.mkUserRole "ddddddddddddddddddddddd2" "U3"
    "cccccccccccccccccccccccc" false (Some "u-boss") 40 None (Some 70) [] None.

Definition user_roles : UserRoleSchema.Collection :=
  [assignment_U1; assignment_U2; assignment_U3].

Definition assign_support (uid : string) : UserRoleService.AssignData :=
  UserRoleService.mkAssignData uid "CCCCCCCCCCCCCCCCCCCCCCCC" (Some "u-staff")
    None (Some "rota").

Definition restored_U3 : UserRoleSchema.UserRole :=
  UserRoleSchema.mkUserRole "ddddddddddddddddddddddd2" "U3"
    "cccccccccccccccccccccccc" true (Some "u-staff") 40 (Some "rota") None []
    None.

(** Failures of the call to the collaborator. *)

(** A response with status 409 and the message ["taken"]. *)
Definition conflict_response : TeamManagementService.AxiosError :=
  TeamManagementService.mkAxiosError (Some "ERR_BAD_REQUEST")
               (Some (TeamManagementService.mkAxiosResponse 409 (Some (MsgString "taken")))).

(** A refused connection. *)
Definition refused : TeamManagementService.AxiosError := TeamManagementService.mkAxiosError (Some "ECONNREFUSED") None.

(** A response with status 400 and a list of messages. *)
Definition invalid_response : TeamManagementService.AxiosError :=
  TeamManagementService.mkAxiosError (Some "ERR_BAD_REQUEST")
    (Some (TeamManagementService.mkAxiosResponse 400
             (Some (MsgArray ["email must be an email"; "email is required"])))).

(** A response with status 404 and no body. *)
Definition missing_response : TeamManagementService.AxiosError :=
  TeamManagementService.mkAxiosError (Some "ERR_BAD_REQUEST") (Some (TeamManagementService.mkAxiosResponse 404 None)).

Definition new_admin_dto : TeamManagementService.CreateAdminDto :=
  TeamManagementService.mkCreateAdminDto "new@example.com" (Some "New") None None None.

(** [staff] holds [support]; its assignment of the default role was revoked
    at 80.  [boss] holds the system role. *)
Definition staff_support : UserRoleSchema.UserRole :=
  UserRoleSchema.mkUserRole "eeeeeeeeeeeeeeeeeeeeeee1" "u-staff"
    "cccccccccccccccccccccccc" true (Some "u-boss") 55 None None [] None.

Definition staff_member_revoked : UserRoleSchema.UserRole :=
  UserRoleSchema.mkUserRole "eeeeeeeeeeeeeeeeeeeeeee2" "u-staff"
    "ccccccccccccccccccccccc1" false (Some "u-boss") 45 None (Some 80) [] None.

Definition boss_owner : UserRoleSchema.UserRole :=
  UserRoleSchema.mkUserRole "eeeeeeeeeeeeeeeeeeeeeee3" "u-boss"
    "ccccccccccccccccccccccc2" true None 15 None None [] None.

Definition admin_roles : UserRoleSchema.Collection :=
  [staff_support; staff_member_revoked; boss_owner].

(** A change of name, without and with a role id. *)
Definition rename_staff (roleId : option string)
  : TeamManagementService.UpdateAdminDto :=
  TeamManagementService.mkUpdateAdminDto None (Some "Staff Two") None None
    roleId.

Definition staff_renamed : AdminUser :=
  mkAdminUser "u-staff" "staff@example.com" (Some "Staff Two") (Some "sub-2")
              ADMIN ACTIVE 20 400.

End Scenario.

(** * Properties *)

(** ** Stores *)

Section CollectionFacts.
Variable D : Type.
Variable key : D -> string.

Lemma findById_key (coll : list D) (i : string) (d : D) :
  findById key coll i = Some d -> key d = i /\ In d coll.
Proof.
  unfold findById. intros H. apply find_some in H. destruct H as [Hin Heq].
  apply String.eqb_eq in Heq. auto.
Qed.

Lemma findById_map_replace (coll : list D) (d : D) :
  existsb (fun r => String.eqb (key r) (key d)) coll = true ->
  findById key
    (map (fun r => if String.eqb (key r) (key d) then d else r) coll) (key d)
  = Some d.
Proof.
  unfold findById. induction coll as [|r coll IH]; simpl; [discriminate|].
  destruct (String.eqb (key r) (key d)) eqn:E; simpl.
  - intros _. now rewrite String.eqb_refl.
  - intros H. rewrite E. auto.
Qed.

Lemma findById_app_new (coll : list D) (d : D) :
  existsb (fun r => String.eqb (key r) (key d)) coll = false ->
  findById key (coll ++ [d]) (key d) = Some d.
Proof.
  unfold findById. induction coll as [|r coll IH]; simpl.
  - intros _. now rewrite String.eqb_refl.
  - destruct (String.eqb (key r) (key d)) eqn:E; simpl; [discriminate|auto].
Qed.

(** A written document is the one its key finds afterwards. *)
Lemma findById_write_same (coll : list D) (d : D) :
  findById key (write key coll d) (key d) = Some d.
Proof.
  unfold write.
  destruct (existsb (fun r => String.eqb (key r) (key d)) coll) eqn:E.
  - now apply findById_map_replace.
  - now apply findById_app_new.
Qed.

(** Every document of the collection with the written key is the written
    document. *)
Lemma In_write (coll : list D) (d x : D) :
  In x (write key coll d) -> x = d \/ (In x coll /\ key x <> key d).
Proof.
  unfold write.
  destruct (existsb (fun r => String.eqb (key r) (key d)) coll) eqn:Ex.
  - intros H. apply in_map_iff in H. destruct H as [r [Hr Hin]].
    destruct (String.eqb (key r) (key d)) eqn:E.
    + left. now symmetry.
    + right. subst x. split; [assumption|]. now apply String.eqb_neq.
  - intros H. apply in_app_or in H. destruct H as [H|H].
    + right. split; [assumption|]. intros Hk.
      assert (existsb (fun r => String.eqb (key r) (key d)) coll = true) as Ht.
      { apply existsb_exists. exists x. split; [assumption|].
        now apply String.eqb_eq. }
      congruence.
    + simpl in H. destruct H as [H|[]]. left. now symmetry.
Qed.

Lemma findById_write_other (coll : list D) (d : D) (i : string) :
  i <> key d -> findById key (write key coll d) i = findById key coll i.
Proof.
  intros Hne. unfold write, findById.
  destruct (existsb (fun r => String.eqb (key r) (key d)) coll).
  - induction coll as [|r coll IH]; simpl; [reflexivity|].
    destruct (String.eqb (key r) (key d)) eqn:E.
    + apply String.eqb_eq in E.
      assert (String.eqb (key d) i = false) as E1
        by (apply String.eqb_neq; congruence).
      assert (String.eqb (key r) i = false) as E2
        by (apply String.eqb_neq; congruence).
      now rewrite E1, E2.
    + destruct (String.eqb (key r) i); [reflexivity|assumption].
  - induction coll as [|r coll IH]; simpl.
    + assert (String.eqb (key d) i = false) as E1
        by (apply String.eqb_neq; congruence).
      now rewrite E1.
    + destruct (String.eqb (key r) i); [reflexivity|assumption].
Qed.
End CollectionFacts.

(** ** Administrator lifecycle: [suspendAdmin] and [reactivateAdmin] *)

Section Lifecycle.
Import AdminUserEntity TeamManagementService Statements.

Lemma findOne_id_found (repo : Repository) (i : string) (u : AdminUser) :
  findOne_id repo i = Some u -> id u = i.
Proof. intros H. now apply findById_key in H. Qed.

Lemma status_eqb_eq (a b : AdminUserStatus) : status_eqb a b = true <-> a = b.
Proof. destruct a, b; simpl; split; congruence. Qed.

Lemma type_eqb_eq (a b : AdminUserType) : type_eqb a b = true <-> a = b.
Proof. destruct a, b; simpl; split; congruence. Qed.

Lemma status_eqb_neq (a b : AdminUserStatus) : status_eqb a b = false <-> a <> b.
Proof. destruct a, b; simpl; split; congruence. Qed.

(** The write of a transition leaves the target with its new status and
    touches no other account. *)
Lemma save_with_status_transitioned (now : Z) (repo : Repository)
  (target : string) (t : AdminUser) (s : AdminUserStatus) :
  findOne_id repo target = Some t ->
  transitioned s repo (fst (save now repo (with_status s t))) target t.
Proof.
  intros Hf. pose proof (findOne_id_found _ _ Hf) as Hid.
  unfold save, transitioned, findOne_id. simpl fst. split.
  - exists (with_updatedAt now (with_status s t)).
    replace target with (id (with_updatedAt now (with_status s t)))
      by (simpl; assumption).
    rewrite findById_write_same. simpl. repeat split; reflexivity.
  - intros j Hj. apply findById_write_other. simpl. congruence.
Qed.

(** The fourth guard of both methods is decided by
    [admin_over_super_admin]. *)
Lemma guard4_true (repo : Repository) (actor : string) (t : AdminUser) :
  admin_over_super_admin repo actor t ->
  match findOne_id repo actor with
  | Some a => (type_eqb (adminUserType a) ADMIN
               && type_eqb (adminUserType t) SUPER_ADMIN)%bool
  | None => false
  end = true.
Proof.
  intros [a [Ha [H1 H2]]]. rewrite Ha, H1, H2. reflexivity.
Qed.

Lemma guard4_false (repo : Repository) (actor : string) (t : AdminUser) :
  ~ admin_over_super_admin repo actor t ->
  match findOne_id repo actor with
  | Some a => (type_eqb (adminUserType a) ADMIN
               && type_eqb (adminUserType t) SUPER_ADMIN)%bool
  | None => false
  end = false.
Proof.
  intros Hn. destruct (findOne_id repo actor) as [a|] eqn:Ha; [|reflexivity].
  destruct (type_eqb (adminUserType a) ADMIN) eqn:E1; [|reflexivity].
  destruct (type_eqb (adminUserType t) SUPER_ADMIN) eqn:E2; [|reflexivity].
  exfalso. apply Hn. exists a. split; [assumption|].
  split; now apply type_eqb_eq.
Qed.

Ltac guards :=
  repeat match goal with
  | H : ?a <> ?b |- context [String.eqb ?a ?b] =>
      rewrite (proj2 (String.eqb_neq a b) H)
  | H : findOne_id ?r ?i = _ |- context [findOne_id ?r ?i] => rewrite H
  | H : adminUserStatus ?t = _ |- context [adminUserStatus ?t] => rewrite H
  | H : ?a <> ?b |- context [status_eqb ?a ?b] =>
      rewrite (proj2 (status_eqb_neq a b) H)
  end.

Lemma suspendAdmin_passes (now : Z) (repo : Repository)
  (target actor : string) (t : AdminUser) :
  actor <> target ->
  findOne_id repo target = Some t ->
  adminUserStatus t <> SUSPENDED ->
  ~ admin_over_super_admin repo actor t ->
  suspendAdmin now repo target actor
  = Ok (fst (save now repo (with_status SUSPENDED t))).
Proof.
  intros Hne Ht Hs Hg. unfold suspendAdmin. guards.
  now rewrite (guard4_false Hg).
Qed.

Lemma reactivateAdmin_passes (now : Z) (repo : Repository)
  (target actor : string) (t : AdminUser) :
  actor <> target ->
  findOne_id repo target = Some t ->
  adminUserStatus t <> ACTIVE ->
  ~ admin_over_super_admin repo actor t ->
  reactivateAdmin now repo target actor
  = Ok (fst (save now repo (with_status ACTIVE t))).
Proof.
  intros Hne Ht Hs Hg. unfold reactivateAdmin. guards.
  now rewrite (guard4_false Hg).
Qed.

(** C2.  The guards of [suspendAdmin] are applied in the order: actor equal
    to target (Forbidden), target not found (NotFound), target already
    suspended (BadRequest), actor an [ADMIN] and target a [SUPER_ADMIN]
    (Forbidden); a call that passes them all writes the target with status
    [SUSPENDED].  [reactivateAdmin] applies the same guards in the same
    order with [ACTIVE] as the blocking and the resulting status. *)
Theorem suspend_reactivate_guard_order (now : Z) (repo : Repository)
  (target actor : string) :
  (actor = target ->
     suspendAdmin now repo target actor
     = Throw (ForbiddenException (MsgString ERROR_MESSAGES.ADMIN_SELF_SUSPEND))
     /\ reactivateAdmin now repo target actor
        = Throw (ForbiddenException
                   (MsgString ERROR_MESSAGES.ADMIN_SELF_REACTIVATE)))
  /\ (actor <> target -> findOne_id repo target = None ->
        suspendAdmin now repo target actor
        = Throw (NotFoundException (MsgString ERROR_MESSAGES.ADMIN_NOT_FOUND))
        /\ reactivateAdmin now repo target actor
           = Throw (NotFoundException
                      (MsgString ERROR_MESSAGES.ADMIN_NOT_FOUND)))
  /\ (forall t, actor <> target -> findOne_id repo target = Some t ->
        (adminUserStatus t = SUSPENDED ->
           suspendAdmin now repo target actor
           = Throw (BadRequestException
                      (MsgString ERROR_MESSAGES.ADMIN_ALREADY_SUSPENDED)))
        /\ (adminUserStatus t = ACTIVE ->
              reactivateAdmin now repo target actor
              = Throw (BadRequestException
                         (MsgString ERROR_MESSAGES.ADMIN_ALREADY_ACTIVE))))
  /\ (forall t, actor <> target -> findOne_id repo target = Some t ->
        admin_over_super_admin repo actor t ->
        (adminUserStatus t <> SUSPENDED ->
           suspendAdmin now repo target actor
           = Throw (ForbiddenException
                      (MsgString ERROR_MESSAGES.ADMIN_INSUFFICIENT_PERMISSIONS)))
        /\ (adminUserStatus t <> ACTIVE ->
              reactivateAdmin now repo target actor
              = Throw (ForbiddenException
                         (MsgString
                            ERROR_MESSAGES.ADMIN_INSUFFICIENT_PERMISSIONS_REACTIVATE))))
  /\ (forall t, actor <> target -> findOne_id repo target = Some t ->
        ~ admin_over_super_admin repo actor t ->
        (adminUserStatus t <> SUSPENDED ->
           exists repo', suspendAdmin now repo target actor = Ok repo'
                         /\ transitioned SUSPENDED repo repo' target t)
        /\ (adminUserStatus t <> ACTIVE ->
              exists repo', reactivateAdmin now repo target actor = Ok repo'
                            /\ transitioned ACTIVE repo repo' target t)).
Proof.
  split; [|split; [|split; [|split]]].
  - intros ->. unfold suspendAdmin, reactivateAdmin.
    now rewrite String.eqb_refl.
  - intros Hne Ht. unfold suspendAdmin, reactivateAdmin. now guards.
  - intros t Hne Ht. split; intros Hs.
    + unfold suspendAdmin. now guards.
    + unfold reactivateAdmin. now guards.
  - intros t Hne Ht Hg. split; intros Hs.
    + unfold suspendAdmin. guards. now rewrite (guard4_true Hg).
    + unfold reactivateAdmin. guards. now rewrite (guard4_true Hg).
  - intros t Hne Ht Hg. split; intros Hs.
    + exists (fst (save now repo (with_status SUSPENDED t))). split.
      * now apply suspendAdmin_passes.
      * now apply save_with_status_transitioned.
    + exists (fst (save now repo (with_status ACTIVE t))). split.
      * now apply reactivateAdmin_passes.
      * now apply save_with_status_transitioned.
Qed.

(** C10.  When no account is stored under [actor] (and [actor] is not the
    target), the fourth guard does not fire: the transition succeeds as
    soon as the target is found and is not in the blocking status, whatever
    the type of the target. *)
Theorem missing_actor_skips_permission_guard (now : Z) (repo : Repository)
  (target actor : string) (t : AdminUser) :
  actor <> target ->
  findOne_id repo actor = None ->
  findOne_id repo target = Some t ->
  (adminUserStatus t <> SUSPENDED ->
     exists repo', suspendAdmin now repo target actor = Ok repo'
                   /\ transitioned SUSPENDED repo repo' target t)
  /\ (adminUserStatus t <> ACTIVE ->
        exists repo', reactivateAdmin now repo target actor = Ok repo'
                      /\ transitioned ACTIVE repo repo' target t).
Proof.
  intros Hne Ha Ht.
  assert (~ admin_over_super_admin repo actor t) as Hg.
  { intros [a [Hf _]]. congruence. }
  split; intros Hs.
  - exists (fst (save now repo (with_status SUSPENDED t))). split.
    + now apply suspendAdmin_passes.
    + now apply save_with_status_transitioned.
  - exists (fst (save now repo (with_status ACTIVE t))). split.
    + now apply reactivateAdmin_passes.
    + now apply save_with_status_transitioned.
Qed.

End Lifecycle.

Section LifecycleRuns.
Import AdminUserEntity TeamManagementService Statements Scenario.

Lemma staff_not_over_staff (actor : string) :
  ~ admin_over_super_admin admin_users actor staff.
Proof. intros [a [_ [_ H]]]. discriminate H. Qed.

Lemma staff_not_over_idle (actor : string) :
  ~ admin_over_super_admin admin_users actor idle.
Proof. intros [a [_ [_ H]]]. discriminate H. Qed.

(** The guards of C2 on the three accounts of [Scenario]: each guard in turn,
    then a successful suspension and a successful reactivation. *)
Lemma suspend_reactivate_guard_order_witness :
  suspendAdmin 100 admin_users "u-boss" "u-boss"
  = Throw (ForbiddenException (MsgString ERROR_MESSAGES.ADMIN_SELF_SUSPEND))
  /\ reactivateAdmin 100 admin_users "u-nobody" "u-staff"
     = Throw (NotFoundException (MsgString ERROR_MESSAGES.ADMIN_NOT_FOUND))
  /\ suspendAdmin 100 admin_users "u-idle" "u-staff"
     = Throw (BadRequestException
                (MsgString ERROR_MESSAGES.ADMIN_ALREADY_SUSPENDED))
  /\ suspendAdmin 100 admin_users "u-boss" "u-staff"
     = Throw (ForbiddenException
                (MsgString ERROR_MESSAGES.ADMIN_INSUFFICIENT_PERMISSIONS))
  /\ (exists repo', suspendAdmin 100 admin_users "u-staff" "u-boss" = Ok repo'
                    /\ transitioned SUSPENDED admin_users repo' "u-staff" staff)
  /\ (exists repo', reactivateAdmin 100 admin_users "u-idle" "u-boss" = Ok repo'
                    /\ transitioned ACTIVE admin_users repo' "u-idle" idle).
Proof.
  split; [|split; [|split; [|split; [|split]]]].
  - apply (suspend_reactivate_guard_order 100 admin_users "u-boss" "u-boss").
    reflexivity.
  - apply (suspend_reactivate_guard_order 100 admin_users "u-nobody" "u-staff").
    + discriminate.
    + reflexivity.
  - apply (suspend_reactivate_guard_order 100 admin_users "u-idle" "u-staff")
      with (t := idle).
    + discriminate.
    + reflexivity.
    + reflexivity.
  - apply (suspend_reactivate_guard_order 100 admin_users "u-boss" "u-staff")
      with (t := boss).
    + discriminate.
    + reflexivity.
    + exists staff. repeat split.
    + discriminate.
  - apply (suspend_reactivate_guard_order 100 admin_users "u-staff" "u-boss")
      with (t := staff).
    + discriminate.
    + reflexivity.
    + apply staff_not_over_staff.
    + discriminate.
  - apply (suspend_reactivate_guard_order 100 admin_users "u-idle" "u-boss")
      with (t := idle).
    + discriminate.
    + reflexivity.
    + apply staff_not_over_idle.
    + discriminate.
Defined.

(** C10 on [Scenario]: an actor key that no account carries suspends the
    super administrator. *)
Lemma missing_actor_skips_permission_guard_witness :
  exists repo', suspendAdmin 100 admin_users "u-boss" "u-ghost" = Ok repo'
                /\ transitioned SUSPENDED admin_users repo' "u-boss" boss.
Proof.
  apply (@missing_actor_skips_permission_guard 100 admin_users "u-boss" "u-ghost" boss).
  - discriminate.
  - reflexivity.
  - reflexivity.
  - discriminate.
Defined.

End LifecycleRuns.

(** ** Resolution of the roles of a user: [getActiveUserRoles] *)

Section Resolution.
Import UserRoleSchema Expansion.

Lemma effective_spec (now : Z) (d : UserRole) :
  effective now d = true <->
  isActive d = true /\ deletedAt d = None
  /\ (expiresAt d = None \/ exists t, expiresAt d = Some t /\ now < t).
Proof.
  unfold effective. rewrite !andb_true_iff. unfold isNone.
  destruct (deletedAt d) as [x|], (expiresAt d) as [t|]; split.
  - intros [[_ H] _]. discriminate.
  - intros [_ [H _]]. discriminate.
  - intros [[_ H] _]. discriminate.
  - intros [_ [H _]]. discriminate.
  - intros [[Ha _] Ht]. apply Z.ltb_lt in Ht. repeat split; eauto.
  - intros [Ha [_ [H|[t' [H Hlt]]]]]; [discriminate|].
    injection H as ->. repeat split; trivial. now apply Z.ltb_lt.
  - intros [[Ha _] _]. repeat split; auto.
  - intros [Ha _]. repeat split; trivial.
Qed.

Lemma In_getActiveUserRoles (now : Z) (roles : RoleSchema.Collection)
  (coll : Collection) (uid : string) (v : UserRoleView) :
  In v (getActiveUserRoles now roles coll uid) <->
  exists d, In d coll /\ userId d = uid /\ effective now d = true
            /\ v = with_role roles d.
Proof.
  unfold getActiveUserRoles. rewrite in_map_iff. split.
  - intros [d [Hv Hin]]. apply filter_In in Hin. destruct Hin as [Hin Hf].
    apply andb_true_iff in Hf. destruct Hf as [Hu He].
    apply String.eqb_eq in Hu. exists d. repeat split; auto.
  - intros [d [Hin [Hu [He Hv]]]]. exists d. split; [now symmetry|].
    apply filter_In. split; [assumption|].
    apply andb_true_iff. split; [now apply String.eqb_eq|assumption].
Qed.

(** C1, as the code has it.  [getUserRoles] returns exactly the stored
    assignments of the user that are active, not soft-deleted and not expired
    (so none whose [expiresAt] is at or before [now]), each with its role
    document put at [roleId]; the policies of that role are left as the ids
    the role stores. *)
Theorem getUserRoles_effective_with_role (now : Z)
  (roles : RoleSchema.Collection) (coll : Collection) (uid : string) :
  (forall v,
     In v (UserRoleService.getUserRoles now roles coll uid) <->
     exists d, In d coll /\ userId d = uid /\ isActive d = true
               /\ deletedAt d = None
               /\ (expiresAt d = None \/ exists t, expiresAt d = Some t /\ now < t)
               /\ v = with_role roles d)
  /\ (forall v t,
        In v (UserRoleService.getUserRoles now roles coll uid) ->
        expiresAt (doc v) = Some t -> now < t)
  /\ (forall v,
        In v (UserRoleService.getUserRoles now roles coll uid) ->
        exists r, roleId_populated v = PopulatedWith r
                  /\ r = option_map RoleSchema.unpopulated
                           (findById RoleSchema._id roles (roleId (doc v)))
                  /\ forall rv, r = Some rv ->
                       RoleSchema.policies_populated rv = NotPopulated
                       /\ In (RoleSchema.doc rv) roles
                       /\ RoleSchema._id (RoleSchema.doc rv) = roleId (doc v)).
Proof.
  unfold UserRoleService.getUserRoles. split; [|split].
  - intros v. rewrite In_getActiveUserRoles. split.
    + intros [d [Hin [Hu [He Hv]]]]. apply effective_spec in He.
      destruct He as [Ha [Hd Hx]]. exists d. repeat split; assumption.
    + intros [d [Hin [Hu [Ha [Hd [Hx Hv]]]]]]. exists d.
      repeat split; try assumption. apply effective_spec. auto.
  - intros v t Hin Ht. apply In_getActiveUserRoles in Hin.
    destruct Hin as [d [_ [_ [He Hv]]]]. subst v. simpl in Ht.
    apply effective_spec in He. destruct He as [_ [_ [Hx|[t' [Hx Hlt]]]]];
      congruence.
  - intros v Hin. apply In_getActiveUserRoles in Hin.
    destruct Hin as [d [_ [_ [_ Hv]]]]. subst v. simpl.
    eexists. split; [reflexivity|]. split; [reflexivity|].
    intros rv Hrv.
    destruct (findById RoleSchema._id roles (roleId d)) as [r|] eqn:Hr;
      [|discriminate].
    injection Hrv as <-. simpl. apply findById_key in Hr.
    destruct Hr as [Hk Hi]. auto.
Qed.

End Resolution.

Section ResolutionRuns.
Import UserRoleSchema Expansion Scenario.

(** C1 as stated fails on [Scenario]: the assignment returned for [U1]
    carries the role [support], whose policy [viewer] is stored with its
    permission, and the role comes back with its policies not expanded. *)
Lemma getUserRoles_role_not_expanded :
  UserRoleService.getUserRoles 1000 roles user_roles "U1"
  = [ mkUserRoleView assignment_U1
        (PopulatedWith (Some (RoleSchema.mkRoleView role_support NotPopulated))) ]
  /\ findById PolicySchema._id policies "bbbbbbbbbbbbbbbbbbbbbbbb"
     = Some pol_viewer
  /\ ~ Forall assignment_expanded
         (UserRoleService.getUserRoles 1000 roles user_roles "U1").
Proof.
  split; [reflexivity|]. split; [reflexivity|].
  intros H. inversion H as [|v l Hv _ E]; subst.
  destruct Hv as [rv [Hr [pvs [Hp _]]]].
  injection Hr as <-. discriminate Hp.
Qed.

(** The view that [RoleService.findAll] builds for the same role does carry
    the policy and its permission. *)
Lemma findAll_support_expanded :
  In (RoleSchema.mkRoleView role_support
        (PopulatedWith
           [PolicySchema.mkPolicyView pol_viewer (PopulatedWith [perm_user_read])]))
     (RoleService.findAll permissions policies roles).
Proof. vm_compute. auto. Qed.

End ResolutionRuns.

(** ** Assignments: [assignRole] *)

Section FindFirst.
Variable D : Type.
Variable key : D -> string.
Variable p : D -> bool.

(** After a write of [d], a filter that [d] passes finds [d] first, as soon
    as the row the filter found before (if any) had the key of [d]. *)
Lemma find_map_replace_first (coll : list D) (d : D) :
  existsb (fun r => String.eqb (key r) (key d)) coll = true ->
  (forall r, find p coll = Some r -> key r = key d) ->
  p d = true ->
  find p (map (fun r => if String.eqb (key r) (key d) then d else r) coll)
  = Some d.
Proof.
  intros Hex Hfirst Hp. induction coll as [|r coll IH]; simpl in *.
  - discriminate.
  - destruct (String.eqb (key r) (key d)) eqn:E.
    + simpl. now rewrite Hp.
    + simpl in Hex. destruct (p r) eqn:Hr.
      * specialize (Hfirst r eq_refl). apply String.eqb_neq in E. contradiction.
      * apply IH; [assumption|]. intros r' Hr'. now apply Hfirst.
Qed.

Lemma find_app_new (coll : list D) (d : D) :
  find p coll = None -> p d = true -> find p (coll ++ [d]) = Some d.
Proof.
  intros Hn Hp. induction coll as [|r coll IH]; simpl in *.
  - now rewrite Hp.
  - destruct (p r); [discriminate|auto].
Qed.

Lemma find_write_first (coll : list D) (d : D) :
  (forall r, find p coll = Some r -> key r = key d) ->
  (existsb (fun r => String.eqb (key r) (key d)) coll = false ->
   find p coll = None) ->
  p d = true ->
  find p (write key coll d) = Some d.
Proof.
  intros Hfirst Hnew Hp. unfold write.
  destruct (existsb (fun r => String.eqb (key r) (key d)) coll) eqn:Hex.
  - now apply find_map_replace_first.
  - apply find_app_new; auto.
Qed.
(** A write of [d] does not disturb what a filter finds, when [d] does not
    pass the filter and the row found has another key. *)
Lemma find_write_kept (coll : list D) (d x : D) :
  find p coll = Some x -> key x <> key d -> p d = false ->
  find p (write key coll d) = Some x.
Proof.
  intros Hf Hk Hp. unfold write.
  destruct (existsb (fun r => String.eqb (key r) (key d)) coll).
  - induction coll as [|r coll IH]; simpl in *; [discriminate|].
    destruct (p r) eqn:Hr.
    + injection Hf as ->. apply String.eqb_neq in Hk. rewrite Hk.
      now rewrite Hr.
    + destruct (String.eqb (key r) (key d)).
      * rewrite Hp. auto.
      * rewrite Hr. auto.
  - induction coll as [|r coll IH]; simpl in *; [discriminate|].
    destruct (p r); auto.
Qed.
End FindFirst.

Section Assign.
Import UserRoleSchema UserRoleService AssignmentStore.

Lemma save_Ok (coll coll' : Collection) (d d' : UserRole) :
  save coll d = Ok (coll', d') -> coll' = write _id coll d /\ d' = d.
Proof.
  unfold save. destruct (breaks_unique_index coll d); [discriminate|].
  intros H. injection H as <- <-. auto.
Qed.

Lemma validate_userId_Ok (d : UserRole) :
  validate_userId d = Ok tt <-> userId d <> "".
Proof.
  unfold validate_userId. destruct (String.eqb (userId d) "") eqn:E.
  - apply String.eqb_eq in E. split; [discriminate|congruence].
  - apply String.eqb_neq in E. tauto.
Qed.

Lemma validate_reason_Ok (d : UserRole) :
  validate_reason d = Ok tt <->
  forall s, reason d = Some s -> (String.length s <= 500)%nat.
Proof.
  unfold validate_reason. destruct (reason d) as [s|].
  - destruct (Nat.ltb 500 (String.length s)) eqn:E.
    + apply Nat.ltb_lt in E. split; [discriminate|].
      intros H. specialize (H s eq_refl). lia.
    + apply Nat.ltb_ge in E. split; [|reflexivity].
      intros _ s' Hs. now injection Hs as <-.
  - split; [discriminate|reflexivity].
Qed.

(** A [save] that validates writes what the plain [save] writes, once the
    validators have passed. *)
Lemma save_new_Ok (coll coll' : Collection) (d d' : UserRole) :
  save_new coll d = Ok (coll', d') ->
  save coll d = Ok (coll', d') /\ coll' = write _id coll d /\ d' = d
  /\ userId d <> ""
  /\ forall s, reason d = Some s -> (String.length s <= 500)%nat.
Proof.
  unfold save_new.
  destruct (validate_userId d) as [[]|e] eqn:Hu; [|discriminate].
  destruct (validate_reason d) as [[]|e] eqn:Hr; [|discriminate].
  cbn [bind]. intros H. split; [exact H|].
  apply save_Ok in H. destruct H as [-> ->].
  apply validate_userId_Ok in Hu.
  pose proof (proj1 (validate_reason_Ok _) Hr) as Hr'. auto.
Qed.

Lemma save_reassigned_Ok (coll coll' : Collection) (d d' : UserRole) :
  save_reassigned coll d = Ok (coll', d') ->
  save coll d = Ok (coll', d') /\ coll' = write _id coll d /\ d' = d
  /\ forall s, reason d = Some s -> (String.length s <= 500)%nat.
Proof.
  unfold save_reassigned.
  destruct (validate_reason d) as [[]|e] eqn:Hr; [|discriminate].
  cbn [bind]. intros H. split; [exact H|].
  apply save_Ok in H. destruct H as [-> ->].
  pose proof (proj1 (validate_reason_Ok _) Hr) as Hr'. auto.
Qed.

Lemma save_new_valid (coll : Collection) (d : UserRole) :
  userId d <> "" ->
  (forall s, reason d = Some s -> (String.length s <= 500)%nat) ->
  save_new coll d = save coll d.
Proof.
  intros Hu Hr. unfold save_new.
  rewrite (proj2 (validate_userId_Ok d) Hu), (proj2 (validate_reason_Ok d) Hr).
  reflexivity.
Qed.

Lemma save_reassigned_valid (coll : Collection) (d : UserRole) :
  (forall s, reason d = Some s -> (String.length s <= 500)%nat) ->
  save_reassigned coll d = save coll d.
Proof.
  intros Hr. unfold save_reassigned.
  rewrite (proj2 (validate_reason_Ok d) Hr). reflexivity.
Qed.

Lemma findOne_pair_found (coll : Collection) (uid : string) (rid : ObjectId)
  (d : UserRole) :
  findOne_pair coll uid rid = Some d ->
  In d coll /\ userId d = uid /\ roleId d = rid.
Proof.
  unfold findOne_pair. intros H. apply find_some in H. destruct H as [Hin H].
  apply andb_true_iff in H. destruct H as [H1 H2].
  apply String.eqb_eq in H1, H2. auto.
Qed.

(** The branch of [assignRole] for a pair whose stored assignment is live. *)
Lemma assignRole_live (now : Z) (newId : ObjectId) (coll : Collection)
  (data : AssignData) (rid : ObjectId) (d : UserRole) :
  new_ObjectId (a_roleId data) = Ok rid ->
  findOne_pair coll (a_userId data) rid = Some d ->
  deletedAt d = None ->
  assignRole now newId coll data = Ok (coll, d).
Proof.
  intros Hr Hf Hd. unfold assignRole. rewrite Hr. simpl.
  now rewrite Hf, Hd.
Qed.

(** What a successful [assignRole] returns is live and is the assignment
    that the lookup of the pair finds afterwards. *)
Lemma assignRole_result_found (now : Z) (newId : ObjectId) (coll coll1 : Collection)
  (data : AssignData) (d : UserRole) :
  assignRole now newId coll data = Ok (coll1, d) ->
  exists rid, new_ObjectId (a_roleId data) = Ok rid
              /\ findOne_pair coll1 (a_userId data) rid = Some d
              /\ deletedAt d = None.
Proof.
  unfold assignRole.
  destruct (new_ObjectId (a_roleId data)) as [rid|e] eqn:Hr; simpl;
    [|discriminate].
  intros H. exists rid. split; [reflexivity|].
  destruct (findOne_pair coll (a_userId data) rid) as [ex|] eqn:Hf.
  - destruct (findOne_pair_found _ _ _ Hf) as [Hin [Hu Hrid]].
    destruct (deletedAt ex) as [t|] eqn:Hd.
    + apply save_reassigned_Ok in H. destruct H as [_ [-> [-> _]]].
      split; [|reflexivity].
      unfold findOne_pair. apply find_write_first.
      * intros r Hfr. unfold findOne_pair in Hf. simpl. congruence.
      * intros Hex. exfalso.
        assert (existsb (fun r => String.eqb (_id r) (_id ex)) coll = true) as Ht.
        { apply existsb_exists. exists ex. split; [assumption|].
          apply String.eqb_refl. }
        simpl in Hex. congruence.
      * simpl. rewrite Hu, Hrid, !String.eqb_refl. reflexivity.
    + injection H as <- <-. auto.
  - apply save_new_Ok in H. destruct H as [_ [-> [-> _]]].
    split; [|reflexivity].
    unfold findOne_pair. apply find_write_first.
    + intros r Hfr. unfold findOne_pair in Hf. congruence.
    + intros _. exact Hf.
    + simpl. rewrite !String.eqb_refl. reflexivity.
Qed.

Lemma pair_filter_self (d : UserRole) :
  (String.eqb (userId d) (userId d) && String.eqb (roleId d) (roleId d))%bool
  = true.
Proof. now rewrite !String.eqb_refl. Qed.

(** A write keeps one row per pair when the row found for the pair of the
    written document, if any, has the key of that document. *)
Lemma one_row_per_pair_write (coll : Collection) (d : UserRole) :
  one_row_per_pair coll ->
  (forall r, findOne_pair coll (userId d) (roleId d) = Some r -> _id r = _id d) ->
  one_row_per_pair (write _id coll d).
Proof.
  intros Hinv Hkey y Hy. unfold findOne_pair.
  apply In_write in Hy. destruct Hy as [->|[Hin Hne]].
  - apply find_write_first.
    + exact Hkey.
    + intros Hex.
      destruct (findOne_pair coll (userId d) (roleId d)) as [r|] eqn:Hf;
        [|exact Hf].
      exfalso. pose proof (Hkey r eq_refl) as Hk.
      apply findOne_pair_found in Hf. destruct Hf as [Hr _].
      assert (existsb (fun r => String.eqb (_id r) (_id d)) coll = true) as Ht.
      { apply existsb_exists. exists r. split; [assumption|].
        now apply String.eqb_eq. }
      congruence.
    + apply pair_filter_self.
  - apply find_write_kept.
    + apply (Hinv y Hin).
    + assumption.
    + apply not_true_is_false. intros Hp.
      apply andb_true_iff in Hp. destruct Hp as [Hu Hr].
      apply String.eqb_eq in Hu, Hr.
      apply Hne. apply Hkey. rewrite Hu, Hr. apply (Hinv y Hin).
Qed.

Lemma one_row_per_pair_nil : one_row_per_pair [].
Proof. intros d []. Qed.

(** [assignRole] keeps one row per pair. *)
Lemma assignRole_one_row_per_pair (now : Z) (newId : ObjectId)
  (coll coll' : Collection) (data : AssignData) (d : UserRole) :
  one_row_per_pair coll ->
  assignRole now newId coll data = Ok (coll', d) ->
  one_row_per_pair coll'.
Proof.
  intros Hinv. unfold assignRole.
  destruct (new_ObjectId (a_roleId data)) as [rid|e]; simpl; [|discriminate].
  destruct (findOne_pair coll (a_userId data) rid) as [ex|] eqn:Hf.
  - destruct (findOne_pair_found _ _ _ Hf) as [Hin [Hu Hr]].
    destruct (deletedAt ex).
    + intros H. apply save_reassigned_Ok in H. destruct H as [_ [-> _]].
      apply one_row_per_pair_write; [assumption|]. simpl.
      intros r Hfr. rewrite (Hinv ex Hin) in Hfr. now injection Hfr as <-.
    + intros H. now injection H as <- _.
  - intros H. apply save_new_Ok in H. destruct H as [_ [-> _]].
    apply one_row_per_pair_write; [assumption|]. simpl.
    intros r Hfr. congruence.
Qed.

(** C3.  [assignRole] is idempotent.  When the assignment stored for the
    pair (the one the lookup by [userId] and [roleId] finds) is not
    soft-deleted, [assignRole] returns it as it is and leaves the collection
    as it is: no field, [assignedAt] included, is written and no row is
    added.  In a collection with one row per pair, that is so for every pair
    that has a live assignment.  And in any collection, calling [assignRole]
    again with the arguments of a call that succeeded returns the same
    assignment and the same collection, at any later instant. *)
Theorem assignRole_idempotent (now : Z) (newId : ObjectId) (coll : Collection)
  (data : AssignData) :
  (forall rid d,
     new_ObjectId (a_roleId data) = Ok rid ->
     findOne_pair coll (a_userId data) rid = Some d ->
     deletedAt d = None ->
     assignRole now newId coll data = Ok (coll, d))
  /\ (forall d,
        one_row_per_pair coll ->
        In d coll -> deletedAt d = None ->
        userId d = a_userId data ->
        new_ObjectId (a_roleId data) = Ok (roleId d) ->
        assignRole now newId coll data = Ok (coll, d))
  /\ (forall coll1 d,
        assignRole now newId coll data = Ok (coll1, d) ->
        deletedAt d = None
        /\ forall now2 newId2,
             assignRole now2 newId2 coll1 data = Ok (coll1, d)).
Proof.
  split; [|split].
  - intros rid d. apply assignRole_live.
  - intros d Hinv Hin Hd Hu Hr.
    apply assignRole_live with (rid := roleId d); try assumption.
    rewrite <- Hu. now apply Hinv.
  - intros coll1 d H. apply assignRole_result_found in H.
    destruct H as [rid [Hr [Hf Hd]]]. split; [assumption|].
    intros now2 newId2. now apply assignRole_live with (rid := rid).
Qed.

End Assign.

Section AssignRuns.
Import UserRoleSchema UserRoleService Scenario.

Lemma user_roles_one_row_per_pair : AssignmentStore.one_row_per_pair user_roles.
Proof.
  intros d [<-|[<-|[<-|[]]]]; reflexivity.
Qed.

(** C3 on [Scenario]: [U1] holds the role, so the call returns the stored
    assignment and the same collection; [U3] had it revoked, the first call
    restores the row and the second call returns what the first returned. *)
Lemma assignRole_idempotent_witness :
  assignRole 2000 "eeeeeeeeeeeeeeeeeeeeeeee" user_roles (assign_support "U1")
  = Ok (user_roles, assignment_U1)
  /\ assignRole 2000 "eeeeeeeeeeeeeeeeeeeeeeee" user_roles (assign_support "U3")
     = Ok ([assignment_U1; assignment_U2; restored_U3], restored_U3)
  /\ assignRole 3000 "ffffffffffffffffffffffff"
       [assignment_U1; assignment_U2; restored_U3] (assign_support "U3")
     = Ok ([assignment_U1; assignment_U2; restored_U3], restored_U3).
Proof.
  split; [|split].
  - destruct (assignRole_idempotent 2000 "eeeeeeeeeeeeeeeeeeeeeeee" user_roles
                (assign_support "U1")) as [_ [H _]].
    apply (H assignment_U1).
    + apply user_roles_one_row_per_pair.
    + simpl. auto.
    + reflexivity.
    + reflexivity.
    + reflexivity.
  - reflexivity.
  - destruct (assignRole_idempotent 2000 "eeeeeeeeeeeeeeeeeeeeeeee" user_roles
                (assign_support "U3")) as [_ [_ H]].
    apply (H [assignment_U1; assignment_U2; restored_U3] restored_U3).
    reflexivity.
Defined.

End AssignRuns.

(** ** Assignments: [revokeRole] and [extendExpiry] *)

Section Revoke.
Import UserRoleSchema UserRoleService Revocation.

(** What the filter of [revokeRole] and [extendExpiry] finds when it holds
    an ObjectId at [roleId]: an active assignment of the pair. *)
Lemma findOne_active_found (coll : Collection) (uid : string) (rid : ObjectId)
  (d : UserRole) :
  findOne_active coll uid (MixedObjectId rid) = Some d ->
  In d coll /\ userId d = uid /\ roleId d = rid /\ isActive d = true.
Proof.
  unfold findOne_active. intros H. apply find_some in H. destruct H as [Hin H].
  apply andb_true_iff in H. destruct H as [H H3].
  apply andb_true_iff in H. destruct H as [H1 H2].
  apply String.eqb_eq in H1. simpl in H2. apply String.eqb_eq in H2. auto.
Qed.

Lemma findOne_active_none (coll : Collection) (uid : string) (rid : ObjectId) :
  findOne_active coll uid (MixedObjectId rid) = None <->
  forall d, In d coll -> userId d = uid -> roleId d = rid -> isActive d = false.
Proof.
  unfold findOne_active. split.
  - intros H d Hin Hu Hr. apply (find_none _ _ H) in Hin.
    simpl in Hin. rewrite Hu, Hr, !String.eqb_refl in Hin. exact Hin.
  - intros H.
    destruct (find (fun d => (String.eqb (userId d) uid
                              && Mixed_eqb (MixedObjectId (roleId d))
                                   (MixedObjectId rid)
                              && isActive d)%bool)
                   coll) as [d|] eqn:E; [|reflexivity].
    apply findOne_active_found in E. destruct E as [Hin [Hu [Hr Ha]]].
    rewrite (H d Hin Hu Hr) in Ha. discriminate.
Qed.

(** What it finds when it holds a string there: nothing, in any collection. *)
Lemma findOne_active_string (coll : Collection) (uid s : string) :
  findOne_active coll uid (MixedString s) = None.
Proof.
  unfold findOne_active. induction coll as [|d coll IH]; simpl; [reflexivity|].
  now rewrite andb_false_r.
Qed.

Lemma revokeRole_null (now : Z) (coll : Collection) (uid rid : string)
  (revokedBy : option string) :
  revokeRole now coll uid rid revokedBy = Ok (coll, None).
Proof. unfold revokeRole. now rewrite findOne_active_string. Qed.

(** A soft-deleted document never breaks the partial unique index. *)
Lemma save_soft_deleted (coll : Collection) (d : UserRole) (t : Z) :
  deletedAt d = Some t -> save coll d = Ok (write _id coll d, d).
Proof.
  intros H. unfold save, breaks_unique_index. now rewrite H.
Qed.

Lemma meta_get_set_same (k : string) (v : MetaValue) (m : Metadata) :
  meta_get k (meta_set k v m) = Some v.
Proof.
  induction m as [|[k' v'] m IH]; simpl.
  - now rewrite String.eqb_refl.
  - destruct (String.eqb k' k) eqn:E; simpl; rewrite E; auto.
Qed.

Lemma meta_get_set_other (k j : string) (v : MetaValue) (m : Metadata) :
  j <> k -> meta_get j (meta_set k v m) = meta_get j m.
Proof.
  intros Hne. induction m as [|[k' v'] m IH]; simpl.
  - assert (String.eqb k j = false) as E by (apply String.eqb_neq; congruence).
    now rewrite E.
  - destruct (String.eqb k' k) eqn:E; simpl.
    + apply String.eqb_eq in E. subst k'.
      assert (String.eqb k j = false) as E' by (apply String.eqb_neq; congruence).
      now rewrite E'.
    + destruct (String.eqb k' j); auto.
Qed.

Lemma call_revoke (now : Z) (coll : Collection) (d : UserRole) (arg : Arg) :
  call now coll d "revoke" [arg]
  = revoke now coll d match arg with ArgObjectId o => Some o | _ => None end.
Proof. reflexivity. Qed.

Lemma revoke_writes (now : Z) (coll : Collection) (d : UserRole)
  (revokedBy : option ObjectId) :
  revoke now coll d revokedBy
  = Ok (write _id coll (revoked now revokedBy d), revoked now revokedBy d).
Proof.
  unfold revoke. destruct revokedBy as [o|]; simpl;
    now rewrite save_soft_deleted with (t := now).
Qed.

(** C4.  The code revokes nothing.  [revokeRole] puts the role id into its
    filter as the string it was given, where [assignRole] and [hasRole]
    convert it to an ObjectId; no document holds a string at [roleId], so
    the lookup finds none, whatever the collection.  Every call returns
    [null], raises nothing (also for an id or a [revokedBy] that is no
    ObjectId) and leaves the collection as it was: an assignment in force
    stays in force.  With the id converted, the same filter finds an active
    assignment of the pair whenever one is in force, and the method [revoke]
    that the call was to reach soft-deletes the document it is called on and
    records the revocation in its metadata. *)
Theorem revokeRole_finds_no_assignment (now : Z) (coll : Collection)
  (uid rid : string) (revokedBy : option string) :
  findOne_active coll uid (MixedString rid) = None
  /\ revokeRole now coll uid rid revokedBy = Ok (coll, None)
  /\ (forall oid t,
        new_ObjectId rid = Ok oid ->
        UserRoleSchema.hasRole t coll uid oid = true ->
        exists d,
          findOne_active coll uid (MixedObjectId oid) = Some d
          /\ userId d = uid /\ roleId d = oid /\ isActive d = true
          /\ (exists d',
                revoke now coll d None = Ok (write _id coll d', d')
                /\ deletedAt d' = Some now /\ isActive d' = false
                /\ metadata d' = metadata d)
          /\ (forall o, exists d',
                revoke now coll d (Some o) = Ok (write _id coll d', d')
                /\ deletedAt d' = Some now /\ isActive d' = false
                /\ meta_get "revokedBy" (metadata d') = Some (MetaObjectId o)
                /\ meta_get "revokedAt" (metadata d') = Some (MetaDate now))).
Proof.
  split; [apply findOne_active_string|]. split; [apply revokeRole_null|].
  intros oid t _ Hh.
  destruct (findOne_active coll uid (MixedObjectId oid)) as [d|] eqn:Hf.
  - destruct (findOne_active_found _ _ _ Hf) as [_ [Hu [Hr Ha]]].
    exists d. repeat (split; [assumption || reflexivity|]). split.
    + exists (revoked now None d). rewrite revoke_writes. repeat split.
    + intros o. exists (revoked now (Some o) d). rewrite revoke_writes.
      split; [reflexivity|]. simpl. repeat split.
      * rewrite meta_get_set_other by discriminate. apply meta_get_set_same.
      * apply meta_get_set_same.
  - exfalso. unfold UserRoleSchema.hasRole in Hh.
    destruct (filter (fun d => (String.eqb (userId d) uid
                                && String.eqb (roleId d) oid
                                && effective t d)%bool) coll) as [|x l] eqn:E;
      [discriminate|].
    assert (In x (x :: l)) as Hx by now left.
    rewrite <- E in Hx. apply filter_In in Hx. destruct Hx as [Hin Hx].
    apply andb_true_iff in Hx. destruct Hx as [Hx He].
    apply andb_true_iff in Hx. destruct Hx as [Hu Hr].
    apply String.eqb_eq in Hu, Hr.
    pose proof (proj1 (findOne_active_none coll uid oid) Hf x Hin Hu Hr) as Hn.
    unfold effective in He. rewrite Hn in He. discriminate.
Qed.

(** C5.  The code extends no expiry.  [extendExpiry] looks the assignment
    up with the filter of [revokeRole], the role id being the string it was
    given, and so finds none: every call returns [null] and leaves the
    collection as it was, also when the pair has an assignment in force.
    Nor could a document that was found be extended: [extendExpiry] is not
    among [UserRoleSchema.methods], and the call of it on any document
    raises a [TypeError]. *)
Theorem extendExpiry_extends_nothing (now : Z) (coll : Collection)
  (uid rid : string) (days : Z) :
  extendExpiry now coll uid rid days = Ok (coll, None)
  /\ lookup_method "extendExpiry" methods = None
  /\ (forall c self args,
        call now c self "extendExpiry" args
        = Throw (TypeError "userRole.extendExpiry is not a function")).
Proof.
  split; [|split].
  - unfold extendExpiry. now rewrite findOne_active_string.
  - reflexivity.
  - reflexivity.
Qed.

End Revoke.

Section RevokeRuns.
Import UserRoleSchema UserRoleService Revocation Scenario.

(** C4 and C5 are run on the collection that [assignRole] writes for [U1]
    from the empty one. *)
Lemma assignRole_writes_U1 :
  assignRole 50 "dddddddddddddddddddddddd" []
    (mkAssignData "U1" "cccccccccccccccccccccccc" (Some "u-boss") None
       (Some "on-call"))
  = Ok ([assignment_U1], assignment_U1).
Proof. reflexivity. Qed.

(** C4 on that collection: [U1] holds [support] at 1000, the revocation
    returns [null] and writes nothing, and [U1] holds the role as before;
    the method [revoke] would have written the revoked document. *)
Lemma revokeRole_finds_no_assignment_witness :
  UserRoleSchema.hasRole 1000 [assignment_U1] "U1" "cccccccccccccccccccccccc"
  = true
  /\ revokeRole 1000 [assignment_U1] "U1" "cccccccccccccccccccccccc"
       (Some "0123456789abcdef01234567")
     = Ok ([assignment_U1], None)
  /\ revoke 1000 [assignment_U1] assignment_U1
       (Some "0123456789abcdef01234567")
     = Ok ([revoked 1000 (Some "0123456789abcdef01234567") assignment_U1],
           revoked 1000 (Some "0123456789abcdef01234567") assignment_U1).
Proof.
  split; [reflexivity|]. split; [|reflexivity].
  apply (revokeRole_finds_no_assignment 1000 [assignment_U1] "U1"
           "cccccccccccccccccccccccc" (Some "0123456789abcdef01234567")).
Defined.

(** C5 on that collection: the extension by seven days returns [null], and
    the assignment has no expiry after it as before. *)
Lemma extendExpiry_extends_nothing_witness :
  UserRoleSchema.hasRole 1000 [assignment_U1] "U1" "cccccccccccccccccccccccc"
  = true
  /\ extendExpiry 1000 [assignment_U1] "U1" "cccccccccccccccccccccccc" 7
     = Ok ([assignment_U1], None)
  /\ expiresAt assignment_U1 = None.
Proof.
  split; [reflexivity|]. split; [|reflexivity].
  apply (extendExpiry_extends_nothing 1000 [assignment_U1] "U1"
           "cccccccccccccccccccccccc" 7).
Defined.

End RevokeRuns.

(** ** Policies and roles: soft delete, [findAll], and the reference lists *)

Section SortFacts.
Variable A : Type.
Variable before : A -> A -> bool.

Lemma In_insert_sorted (x y : A) (l : list A) :
  In y (insert_sorted before x l) <-> y = x \/ In y l.
Proof.
  induction l as [|z l IH]; simpl.
  - intuition auto.
  - destruct (before z x); simpl; rewrite ?IH; intuition auto.
Qed.

Lemma In_sort_by (y : A) (l : list A) : In y (sort_by before l) <-> In y l.
Proof.
  induction l as [|x l IH]; simpl; [reflexivity|].
  rewrite In_insert_sorted, IH. intuition auto.
Qed.
End SortFacts.

Section SoftDelete.




(** The services hand a stored document to the schema method. *)
Lemma PolicyService_softDelete_stored (now : Z) (coll : PolicySchema.Collection)
  (id : string) (oid : ObjectId) (p : PolicySchema.Policy) :
  cast_ObjectId "_id" id = Ok oid ->
  findById PolicySchema._id coll oid = Some p ->
  PolicyService.softDelete now coll id
  = match PolicySchema.softDelete now coll p with
    | Ok (coll', p') => Ok (coll', Some p')
    | Throw e => Throw e
    end.
Proof.
  intros Hc Hf. unfold PolicyService.softDelete. rewrite Hc. cbn [bind].
  rewrite Hf. destruct (PolicySchema.softDelete now coll p) as [[c q]|e];
    reflexivity.
Qed.

Lemma RoleService_softDelete_stored (now : Z) (coll : RoleSchema.Collection)
  (id : string) (oid : ObjectId) (r : RoleSchema.Role) :
  cast_ObjectId "_id" id = Ok oid ->
  findById RoleSchema._id coll oid = Some r ->
  RoleService.softDelete now coll id
  = match RoleSchema.softDelete now coll r with
    | Ok (coll', r') => Ok (coll', Some r')
    | Throw e => Throw e
    end.
Proof.
  intros Hc Hf. unfold RoleService.softDelete. rewrite Hc. cbn [bind].
  rewrite Hf. destruct (RoleSchema.softDelete now coll r) as [[c q]|e];
    reflexivity.
Qed.

Lemma PolicyService_addPermission_stored (coll : PolicySchema.Collection)
  (policyId permissionId : string) (oid i : ObjectId) (p : PolicySchema.Policy) :
  cast_ObjectId "_id" policyId = Ok oid ->
  findById PolicySchema._id coll oid = Some p ->
  new_ObjectId permissionId = Ok i ->
  PolicyService.addPermission coll policyId permissionId
  = Ok (fst (PolicySchema.addPermission coll p i),
        Some (snd (PolicySchema.addPermission coll p i))).
Proof.
  intros Hc Hf Hi. unfold PolicyService.addPermission. rewrite Hc. cbn [bind].
  rewrite Hf, Hi. cbn [bind].
  now destruct (PolicySchema.addPermission coll p i).
Qed.

Lemma RoleService_addPolicy_stored (coll : RoleSchema.Collection)
  (roleId policyId : string) (oid i : ObjectId) (r : RoleSchema.Role) :
  cast_ObjectId "_id" roleId = Ok oid ->
  findById RoleSchema._id coll oid = Some r ->
  new_ObjectId policyId = Ok i ->
  RoleService.addPolicy coll roleId policyId
  = Ok (fst (RoleSchema.addPolicy coll r i),
        Some (snd (RoleSchema.addPolicy coll r i))).
Proof.
  intros Hc Hf Hi. unfold RoleService.addPolicy. rewrite Hc. cbn [bind].
  rewrite Hf, Hi. cbn [bind].
  now destruct (RoleSchema.addPolicy coll r i).
Qed.

Lemma includes_In (l : list ObjectId) (i : ObjectId) :
  PolicySchema.includes l i = true <-> In i l.
Proof.
  unfold PolicySchema.includes. rewrite existsb_exists. split.
  - intros [x [Hin Hx]]. apply String.eqb_eq in Hx. now subst x.
  - intros Hin. exists i. split; [assumption|apply String.eqb_refl].
Qed.

Lemma includes_app_same (l : list ObjectId) (i : ObjectId) :
  PolicySchema.includes (l ++ [i]) i = true.
Proof. apply includes_In. apply in_or_app. right. now left. Qed.

(** C8.  [addPermission] with an id that the policy already lists pushes
    nothing: the policy, and so its list of permissions, is saved as it was;
    likewise [addPolicy] on a role.  Whatever the list held before, a second
    call with the same id returns the document that the first call
    returned. *)
Theorem add_reference_idempotent (pols : PolicySchema.Collection)
  (roles : RoleSchema.Collection) (p : PolicySchema.Policy)
  (r : RoleSchema.Role) (i : ObjectId) :
  (In i (PolicySchema.permissions p) ->
     PolicySchema.addPermission pols p i = (write PolicySchema._id pols p, p))
  /\ (In i (RoleSchema.policies r) ->
        RoleSchema.addPolicy roles r i = (write RoleSchema._id roles r, r))
  /\ (forall pols',
        snd (PolicySchema.addPermission pols'
               (snd (PolicySchema.addPermission pols p i)) i)
        = snd (PolicySchema.addPermission pols p i))
  /\ (forall roles',
        snd (RoleSchema.addPolicy roles'
               (snd (RoleSchema.addPolicy roles r i)) i)
        = snd (RoleSchema.addPolicy roles r i)).
Proof.
  split; [|split; [|split]].
  - intros Hin. apply includes_In in Hin.
    unfold PolicySchema.addPermission. now rewrite Hin.
  - intros Hin. apply includes_In in Hin.
    unfold RoleSchema.addPolicy. now rewrite Hin.
  - intros pols'. unfold PolicySchema.addPermission, PolicySchema.save.
    destruct (PolicySchema.includes (PolicySchema.permissions p) i) eqn:E;
      simpl.
    + now rewrite E.
    + now rewrite includes_app_same.
  - intros roles'. unfold RoleSchema.addPolicy, RoleSchema.save.
    destruct (PolicySchema.includes (RoleSchema.policies r) i) eqn:E; simpl.
    + now rewrite E.
    + now rewrite includes_app_same.
Qed.

End SoftDelete.

Section ReferenceRuns.
Import Scenario.


(** What [findAll] lists after the soft delete of [viewer]: the system
    policy alone. *)
Lemma findAll_after_softDelete :
  map (fun v => PolicySchema.policyIdentifier (PolicySchema.doc v))
      (PolicyService.findAll permissions policies)
  = ["root"; "viewer"]
  /\ (exists pols' p',
        PolicySchema.softDelete 1000 policies pol_viewer = Ok (pols', p')
        /\ map (fun v => PolicySchema.policyIdentifier (PolicySchema.doc v))
               (PolicyService.findAll permissions pols')
           = ["root"]).
Proof. split; [reflexivity|]. do 2 eexists. split; reflexivity. Qed.

(** C8 on [Scenario]: [viewer] already lists the permission and [support]
    already lists the policy. *)
Lemma add_reference_idempotent_witness :
  PolicySchema.addPermission policies pol_viewer "aaaaaaaaaaaaaaaaaaaaaaaa"
  = (policies, pol_viewer)
  /\ RoleSchema.addPolicy roles role_support "bbbbbbbbbbbbbbbbbbbbbbbb"
     = (roles, role_support).
Proof.
  pose proof (add_reference_idempotent policies roles pol_viewer role_support
                "aaaaaaaaaaaaaaaaaaaaaaaa") as [H1 _].
  pose proof (add_reference_idempotent policies roles pol_viewer role_support
                "bbbbbbbbbbbbbbbbbbbbbbbb") as [_ [H2 _]].
  split.
  - rewrite H1; [reflexivity|]. simpl. auto.
  - rewrite H2; [reflexivity|]. simpl. auto.
Defined.

End ReferenceRuns.

(** ** Translation of the failures of the provisioning collaborator *)

Section Translation.
Import AdminUserEntity TeamManagementService Provisioning Scenario.

Lemma msg_or_carried (e : AxiosError) (dflt : string) :
  msg_or (responseData_message e) dflt = carried e dflt.
Proof.
  unfold msg_or, carried.
  destruct (responseData_message e) as [[s|l]|]; try reflexivity.
  destruct s; reflexivity.
Qed.

Lemma connection_failure_codes (e : AxiosError) :
  (code_is e "ECONNREFUSED" || code_is e "ETIMEDOUT")%bool = true
  <-> connection_failure e.
Proof.
  unfold connection_failure, code_is. rewrite orb_true_iff.
  destruct (code e) as [c|].
  - rewrite !String.eqb_eq. split; intros [H|H]; subst; auto;
      injection H as ->; auto.
  - split; intros [H|H]; discriminate.
Qed.

Lemma no_connection_failure_codes (e : AxiosError) :
  ~ connection_failure e ->
  (code_is e "ECONNREFUSED" || code_is e "ETIMEDOUT")%bool = false.
Proof.
  intros H. apply not_true_is_false. intros Ht.
  now apply connection_failure_codes in Ht.
Qed.

Lemma status_is_eq (e : AxiosError) (n : Z) :
  status_is e n = true <-> statusCode e = Some n.
Proof.
  unfold status_is. destruct (statusCode e) as [s|].
  - rewrite Z.eqb_eq. split; congruence.
  - split; discriminate.
Qed.

Lemma status_is_neq (e : AxiosError) (n m : Z) :
  statusCode e = Some n -> n <> m -> status_is e m = false.
Proof.
  intros H Hne. unfold status_is. rewrite H. now apply Z.eqb_neq.
Qed.

Lemma signup_failure_known (e : AxiosError) :
  is_known_exception (signup_failure e) = true.
Proof.
  unfold signup_failure.
  destruct (code_is e "ECONNREFUSED" || code_is e "ETIMEDOUT")%bool;
    [reflexivity|].
  destruct (status_is e 409); [reflexivity|].
  destruct (status_is e 400); reflexivity.
Qed.

(** C7, as the code has it.  A failed call of [createAdmin] to the
    collaborator, made once the email is found free, is raised as
    [signup_failure]; a failed call of [sendResetLink] is raised as
    [reset_failure].  Both raise InternalServerError with the fixed
    "unavailable" message on a refused or timed-out connection, and
    otherwise BadRequest on status 400 (a list of messages joined by
    [", "]) and InternalServerError carrying the collaborator's message,
    when there is one, on the statuses without a rule.  Status 409 is
    Conflict for [createAdmin] only, and status 404 is NotFound for
    [sendResetLink] only; each is without a rule for the other method. *)
Theorem provisioning_failure_translation (e : AxiosError) :
  (forall now newAdminId newRowId repo userRoles dto,
     findOne_email repo (d_email dto) = None ->
     createAdmin now newAdminId newRowId repo userRoles dto (inl e)
     = Throw (signup_failure e))
  /\ sendResetLink (inl e) = Throw (reset_failure e)
  /\ (connection_failure e ->
        signup_failure e
        = InternalServerErrorException
            (MsgString ERROR_MESSAGES.AUTH_SERVICE_UNAVAILABLE)
        /\ reset_failure e
           = InternalServerErrorException
               (MsgString ERROR_MESSAGES.AUTH_SERVICE_UNAVAILABLE))
  /\ (answered e 409 ->
        signup_failure e
        = ConflictException (carried e "User already exists in auth service")
        /\ reset_failure e
           = InternalServerErrorException
               (carried e ERROR_MESSAGES.RESET_LINK_SEND_FAILED))
  /\ (answered e 404 ->
        reset_failure e
        = NotFoundException (carried e ERROR_MESSAGES.USER_NOT_FOUND)
        /\ signup_failure e
           = InternalServerErrorException
               (carried e ERROR_MESSAGES.AUTH_SERVICE_SIGNUP_FAILED))
  /\ (answered e 400 ->
        (forall l, responseData_message e = Some (MsgArray l) ->
           signup_failure e = BadRequestException (MsgString (join ", " l))
           /\ reset_failure e = BadRequestException (MsgString (join ", " l)))
        /\ ((forall l, responseData_message e <> Some (MsgArray l)) ->
              signup_failure e
              = BadRequestException
                  (carried e ERROR_MESSAGES.AUTH_SERVICE_VALIDATION_ERROR)
              /\ reset_failure e
                 = BadRequestException
                     (carried e ERROR_MESSAGES.AUTH_SERVICE_VALIDATION_ERROR)))
  /\ (~ connection_failure e ->
      statusCode e <> Some 409 -> statusCode e <> Some 404 ->
      statusCode e <> Some 400 ->
        signup_failure e
        = InternalServerErrorException
            (carried e ERROR_MESSAGES.AUTH_SERVICE_SIGNUP_FAILED)
        /\ reset_failure e
           = InternalServerErrorException
               (carried e ERROR_MESSAGES.RESET_LINK_SEND_FAILED)).
Proof.
  split; [|split; [reflexivity|split; [|split; [|split; [|split]]]]].
  - intros now newAdminId newRowId repo userRoles dto Hfree.
    unfold createAdmin. rewrite Hfree. simpl.
    now rewrite signup_failure_known.
  - intros Hc. apply connection_failure_codes in Hc.
    unfold signup_failure, reset_failure. now rewrite Hc.
  - intros [Hn Hs]. apply no_connection_failure_codes in Hn.
    unfold signup_failure, reset_failure. rewrite Hn.
    rewrite (proj2 (status_is_eq e 409) Hs).
    rewrite (status_is_neq e (m := 404) Hs), (status_is_neq e (m := 400) Hs)
      by discriminate.
    now rewrite !msg_or_carried.
  - intros [Hn Hs]. apply no_connection_failure_codes in Hn.
    unfold signup_failure, reset_failure. rewrite Hn.
    rewrite (proj2 (status_is_eq e 404) Hs).
    rewrite (status_is_neq e (m := 409) Hs), (status_is_neq e (m := 400) Hs)
      by discriminate.
    now rewrite !msg_or_carried.
  - intros [Hn Hs]. apply no_connection_failure_codes in Hn.
    unfold signup_failure, reset_failure. rewrite Hn.
    rewrite (proj2 (status_is_eq e 400) Hs).
    rewrite (status_is_neq e (m := 409) Hs), (status_is_neq e (m := 404) Hs)
      by discriminate.
    unfold validationMessage. split.
    + intros l ->. auto.
    + intros Hl. rewrite <- msg_or_carried.
      destruct (responseData_message e) as [[s|l]|]; auto.
      now destruct (Hl l).
  - intros Hn H409 H404 H400. apply no_connection_failure_codes in Hn.
    unfold signup_failure, reset_failure. rewrite Hn.
    assert (forall n, statusCode e <> Some n -> status_is e n = false) as Hf.
    { intros n Hne. apply not_true_is_false. intros Ht.
      now apply status_is_eq in Ht. }
    rewrite (Hf 409 H409), (Hf 404 H404), (Hf 400 H400).
    now rewrite !msg_or_carried.
Qed.

(** C7 as stated fails for the password reset: a response with status 409 is
    raised as InternalServerError carrying the collaborator's message, where
    [createAdmin] raises Conflict; and a refused connection is raised, by
    both methods, as the same kind of exception as the failures without a
    rule. *)
Lemma password_reset_409_not_conflict :
  sendResetLink (inl conflict_response)
  = Throw (InternalServerErrorException (MsgString "taken"))
  /\ createAdmin 1000 "u-new" "eeeeeeeeeeeeeeeeeeeeeeee" admin_users
       user_roles new_admin_dto (inl conflict_response)
     = Throw (ConflictException (MsgString "taken"))
  /\ sendResetLink (inl refused)
     = Throw (InternalServerErrorException
                (MsgString "Auth service is currently unavailable")).
Proof. repeat split. Qed.

(** C7 as amended, on the four failures of [Provisioning]. *)
Lemma provisioning_failure_translation_witness :
  createAdmin 1000 "u-new" "eeeeeeeeeeeeeeeeeeeeeeee" admin_users
    user_roles new_admin_dto (inl refused)
  = Throw (InternalServerErrorException
             (MsgString "Auth service is currently unavailable"))
  /\ signup_failure conflict_response = ConflictException (MsgString "taken")
  /\ reset_failure missing_response
     = NotFoundException (MsgString "User not found")
  /\ signup_failure invalid_response
     = BadRequestException
         (MsgString "email must be an email, email is required").
Proof.
  split; [|split; [|split]].
  - destruct (provisioning_failure_translation refused) as [H [_ [Hc _]]].
    rewrite H by reflexivity.
    destruct Hc as [-> _]; [left|]; reflexivity.
  - destruct (provisioning_failure_translation conflict_response)
      as [_ [_ [_ [H _]]]].
    destruct H as [-> _]; [|reflexivity].
    split; [intros [H|H]; discriminate H|reflexivity].
  - destruct (provisioning_failure_translation missing_response)
      as [_ [_ [_ [_ [H _]]]]].
    destruct H as [-> _]; [|reflexivity].
    split; [intros [H|H]; discriminate H|reflexivity].
  - destruct (provisioning_failure_translation invalid_response)
      as [_ [_ [_ [_ [_ [H _]]]]]].
    destruct H as [H _].
    + split; [intros [H|H]; discriminate H|reflexivity].
    + destruct (H ["email must be an email"; "email is required"] eq_refl)
        as [-> _].
      reflexivity.
Defined.

End Translation.

(** ** Permissions: the derived identifier *)

Section Identifier.
Import PermissionSchema.

Lemma validate_Ok (d : Permission) :
  validate d = Ok tt -> resource d <> "" /\ action d <> "".
Proof.
  unfold validate.
  destruct (match permissionIdentifier d with
            | Some s => (negb (String.eqb s "") && negb (match_identifier s))%bool
            | None => false
            end); [discriminate|].
  destruct (String.eqb (name d) "" || Nat.ltb (String.length (name d)) 3
            || Nat.ltb 100 (String.length (name d)))%bool; [discriminate|].
  destruct (match description d with
            | Some s => Nat.ltb 500 (String.length s)
            | None => false
            end); [discriminate|].
  destruct (String.eqb (resource d) "") eqn:Er; [discriminate|].
  destruct (String.eqb (action d) "") eqn:Ea; [discriminate|].
  intros _. split; now apply String.eqb_neq.
Qed.

Lemma pre_save_derives (d : Permission) :
  permissionIdentifier d = None -> resource d <> "" -> action d <> "" ->
  pre_save d
  = mkPermission (_id d) (Some (resource d ++ ":" ++ action d)%string) (name d)
      (description d) (resource d) (action d) (isActive d) (deletedAt d)
      (metadata d).
Proof.
  intros Hi Hr Ha. unfold pre_save. rewrite Hi. simpl.
  apply String.eqb_neq in Hr, Ha. now rewrite Hr, Ha.
Qed.

(** C9.  A permission created without a [permissionIdentifier] is stored with
    the identifier [resource ++ ":" ++ action] of its stored resource and
    action.  An update that supplies no [permissionIdentifier] stores and
    returns the document with the identifier it had, whatever resource and
    action it supplies. *)
Theorem permission_identifier_derived_once :
  (forall newId coll data coll' d,
     c_permissionIdentifier data = None ->
     PermissionService.create newId coll data = Ok (coll', d) ->
     permissionIdentifier d = Some (resource d ++ ":" ++ action d)%string
     /\ resource d = toLowerCase (trim (c_resource data))
     /\ action d = toLowerCase (trim (c_action data))
     /\ _id d = newId
     /\ findById _id coll' newId = Some d)
  /\ (forall coll id data coll' d',
        PermissionService.u_permissionIdentifier data = None ->
        PermissionService.update coll id data = Ok (coll', Some d') ->
        exists oid d,
          cast_ObjectId "_id" id = Ok oid
          /\ findById _id coll oid = Some d
          /\ permissionIdentifier d' = permissionIdentifier d
          /\ resource d'
             = PermissionService.or_else
                 (option_map (fun s => toLowerCase (trim s))
                    (PermissionService.u_resource data)) (resource d)
          /\ action d'
             = PermissionService.or_else
                 (option_map (fun s => toLowerCase (trim s))
                    (PermissionService.u_action data)) (action d)
          /\ findById _id coll' oid = Some d').
Proof.
  split.
  - intros newId coll data coll' d Hnone.
    unfold PermissionService.create, save.
    destruct (validate (construct newId data)) as [[]|e] eqn:Hv;
      [|discriminate].
    simpl. apply validate_Ok in Hv. destruct Hv as [Hr Ha].
    rewrite pre_save_derives; [|simpl; now rewrite Hnone|assumption|assumption].
    match goal with
    | |- context [identifier_taken coll ?x] =>
        destruct (identifier_taken coll x); [discriminate|]
    end.
    intros H. injection H as <- <-. simpl. repeat split.
    match goal with
    | |- findById _id (write _id coll ?x) newId = _ =>
        apply (findById_write_same _id coll x)
    end.
  - intros coll id data coll' d' Hnone. unfold PermissionService.update.
    destruct (cast_ObjectId "_id" id) as [oid|e] eqn:Hc; [|discriminate].
    simpl.
    destruct (findById _id coll oid) as [d|] eqn:Hf; [|discriminate].
    destruct (identifier_taken coll (PermissionService.apply_update data d));
      [discriminate|].
    intros H. injection H as <- <-. exists oid, d.
    split; [reflexivity|]. split; [assumption|]. simpl.
    rewrite Hnone. repeat split.
    apply findById_key in Hf. destruct Hf as [<- _].
    apply (findById_write_same _id coll (PermissionService.apply_update data d)).
Qed.

End Identifier.

Section IdentifierRuns.
Import PermissionSchema Scenario.

(** C9 on [Scenario]: [post:delete] is derived at creation, and stays after
    the resource and the action are updated to [comment] and [manage]. *)
Lemma permission_identifier_derived_once_witness :
  PermissionService.create "aaaaaaaaaaaaaaaaaaaaaaa1" permissions
    create_post_delete
  = Ok ([perm_user_read; perm_post_delete], perm_post_delete)
  /\ permissionIdentifier perm_post_delete
     = Some (resource perm_post_delete ++ ":" ++ action perm_post_delete)%string
  /\ (exists d',
        PermissionService.update [perm_user_read; perm_post_delete]
          "AAAAAAAAAAAAAAAAAAAAAAA1" update_to_comment_manage
        = Ok ([perm_user_read; d'], Some d')
        /\ resource d' = "comment" /\ action d' = "manage"
        /\ permissionIdentifier d' = Some "post:delete").
Proof.
  destruct permission_identifier_derived_once as [Hc Hu].
  split; [reflexivity|]. split.
  - apply (Hc "aaaaaaaaaaaaaaaaaaaaaaa1" permissions create_post_delete
              [perm_user_read; perm_post_delete] perm_post_delete);
      reflexivity.
  - eexists. split; [reflexivity|]. split; [reflexivity|].
    split; [reflexivity|].
    match goal with
    | |- permissionIdentifier ?x = _ =>
        destruct (Hu [perm_user_read; perm_post_delete]
                    "AAAAAAAAAAAAAAAAAAAAAAA1" update_to_comment_manage
                    [perm_user_read; x] x eq_refl eq_refl)
          as [oid [d [Hcast [Hf [Hid _]]]]]
    end.
    injection Hcast as <-. injection Hf as <-. exact Hid.
Defined.

End IdentifierRuns.

(** * Further properties of the modelled code *)

(** ** Stores: more on [write] *)

Section WriteFacts.
Variable D : Type.
Variable key : D -> string.

Lemma In_write_same (coll : list D) (d : D) : In d (write key coll d).
Proof.
  pose proof (findById_write_same key coll d) as H.
  apply findById_key in H. tauto.
Qed.

Lemma map_key_write_existing (coll : list D) (d : D) :
  existsb (fun r => String.eqb (key r) (key d)) coll = true ->
  map key (write key coll d) = map key coll.
Proof.
  intros H. unfold write. rewrite H. rewrite map_map. apply map_ext.
  intros r. destruct (String.eqb (key r) (key d)) eqn:E; [|reflexivity].
  apply String.eqb_eq in E. now symmetry.
Qed.

Lemma length_write_existing (coll : list D) (d : D) :
  existsb (fun r => String.eqb (key r) (key d)) coll = true ->
  List.length (write key coll d) = List.length coll.
Proof.
  intros H. unfold write. rewrite H. apply length_map.
Qed.

Lemma existsb_key_In (coll : list D) (d : D) :
  existsb (fun r => String.eqb (key r) (key d)) coll = true
  <-> In (key d) (map key coll).
Proof.
  rewrite existsb_exists, in_map_iff. split.
  - intros [r [Hin E]]. apply String.eqb_eq in E. eauto.
  - intros [r [E Hin]]. exists r. split; [assumption|]. now apply String.eqb_eq.
Qed.

(** A write keeps the keys unique. *)
Lemma NoDup_write (coll : list D) (d : D) :
  NoDup (map key coll) -> NoDup (map key (write key coll d)).
Proof.
  intros Hnd.
  destruct (existsb (fun r => String.eqb (key r) (key d)) coll) eqn:E.
  - now rewrite map_key_write_existing.
  - unfold write. rewrite E, map_app. simpl.
    apply NoDup_app; [assumption|repeat constructor; intros []|].
    intros a Hin [<-|[]]. apply existsb_key_In in Hin. congruence.
Qed.

(** Under unique keys, the row found under a key is the only row with it. *)
Lemma unique_key_row (coll : list D) (x y : D) :
  NoDup (map key coll) -> In x coll -> In y coll -> key x = key y -> x = y.
Proof.
  induction coll as [|r coll IH]; simpl; [intros _ []|].
  intros Hnd Hx Hy Hk. inversion Hnd as [|k l Hnot Hnd']; subst.
  destruct Hx as [->|Hx], Hy as [->|Hy]; auto.
  - exfalso. apply Hnot. rewrite Hk. now apply in_map.
  - exfalso. apply Hnot. rewrite <- Hk. now apply in_map.
Qed.
End WriteFacts.

(** ** Assignments: how the operations compose *)

Section AssignmentLifecycle.
Import UserRoleSchema UserRoleService AssignmentStore Revocation.

Lemma length_pos_In (A : Type) (l : list A) :
  Nat.ltb 0 (List.length l) = true <-> exists x, In x l.
Proof.
  destruct l as [|x l]; simpl; split.
  - discriminate.
  - intros [x []].
  - intros _. exists x. now left.
  - reflexivity.
Qed.

Lemma hasRole_true_iff (now : Z) (coll : Collection) (uid : string)
  (rid : ObjectId) :
  UserRoleSchema.hasRole now coll uid rid = true <->
  exists d, In d coll /\ userId d = uid /\ roleId d = rid
            /\ effective now d = true.
Proof.
  unfold UserRoleSchema.hasRole. rewrite length_pos_In. split.
  - intros [d Hd]. apply filter_In in Hd. destruct Hd as [Hin H].
    apply andb_true_iff in H. destruct H as [H He].
    apply andb_true_iff in H. destruct H as [Hu Hr].
    apply String.eqb_eq in Hu, Hr. eauto.
  - intros [d [Hin [Hu [Hr He]]]]. exists d. apply filter_In.
    split; [assumption|]. rewrite Hu, Hr, !String.eqb_refl. exact He.
Qed.

Lemma hasRole_false_intro (now : Z) (coll : Collection) (uid : string)
  (rid : ObjectId) :
  (forall d, In d coll -> userId d = uid -> roleId d = rid ->
             effective now d = false) ->
  UserRoleSchema.hasRole now coll uid rid = false.
Proof.
  intros H. apply not_true_is_false. intros Ht.
  apply hasRole_true_iff in Ht. destruct Ht as [d [Hin [Hu [Hr He]]]].
  rewrite (H d Hin Hu Hr) in He. discriminate.
Qed.

(** X1.  [hasRole] is the existence check of [getActiveUserRoles]: it holds
    exactly when the list returned for the user has an assignment of the
    role. *)
Theorem hasRole_iff_listed (now : Z) (roles : RoleSchema.Collection)
  (coll : Collection) (uid : string) (rid : ObjectId) :
  UserRoleSchema.hasRole now coll uid rid = true <->
  exists v, In v (getActiveUserRoles now roles coll uid)
            /\ roleId (doc v) = rid.
Proof.
  rewrite hasRole_true_iff. split.
  - intros [d [Hin [Hu [Hr He]]]]. exists (Expansion.with_role roles d).
    split; [|exact Hr]. apply In_getActiveUserRoles. exists d. auto.
  - intros [v [Hv Hr]]. apply In_getActiveUserRoles in Hv.
    destruct Hv as [d [Hin [Hu [He ->]]]]. exists d. auto.
Qed.

Lemma findOne_pair_none (coll : Collection) (uid : string) (rid : ObjectId) :
  findOne_pair coll uid rid = None ->
  forall x, In x coll -> userId x = uid -> roleId x = rid -> False.
Proof.
  unfold findOne_pair. intros H x Hin Hu Hr.
  apply (find_none _ _ H) in Hin. rewrite Hu, Hr, !String.eqb_refl in Hin.
  discriminate.
Qed.

Lemma save_no_other_live (coll : Collection) (d : UserRole) :
  (forall x, In x coll -> userId x = userId d -> roleId x = roleId d ->
             _id x = _id d) ->
  save coll d = Ok (write _id coll d, d).
Proof.
  intros H. unfold save.
  destruct (breaks_unique_index coll d) eqn:E; [|reflexivity].
  exfalso. unfold breaks_unique_index in E.
  apply andb_true_iff in E. destruct E as [_ E].
  apply existsb_exists in E. destruct E as [x [Hin E]].
  apply andb_true_iff in E. destruct E as [E _].
  apply andb_true_iff in E. destruct E as [E Hr].
  apply andb_true_iff in E. destruct E as [Hk Hu].
  apply String.eqb_eq in Hu, Hr. apply negb_true_iff in Hk.
  apply String.eqb_neq in Hk. auto.
Qed.

End AssignmentLifecycle.

(** ** Assignments: [revokeAllRoles] *)

Section RevokeAll.
Import UserRoleSchema UserRoleService AssignmentStore Revocation.

Lemma revoke_each_Ok (now : Z) (revokedBy : option string) (arg : Arg)
  (l : list UserRole) :
  revokedBy_arg revokedBy = Ok arg ->
  forall coll,
    revoke_each now revokedBy coll l
    = Ok (fold_left (fun c d => write _id c (revoked now (arg_ObjectId arg) d))
                    l coll,
          map (revoked now (arg_ObjectId arg)) l).
Proof.
  intros Ha. induction l as [|d l IH]; intros coll; simpl; [reflexivity|].
  rewrite Ha. cbn [bind]. rewrite call_revoke, revoke_writes. cbn [bind].
  rewrite IH. reflexivity.
Qed.

Lemma revoke_each_Throw (now : Z) (revokedBy : option string) (e : Exn)
  (coll : Collection) (d : UserRole) (l : list UserRole) :
  revokedBy_arg revokedBy = Throw e ->
  revoke_each now revokedBy coll (d :: l) = Throw e.
Proof. intros Ha. simpl. now rewrite Ha. Qed.

Lemma existsb_cons_neq (d r : UserRole) (l : list UserRole) :
  _id r <> _id d ->
  existsb (fun x => String.eqb (_id x) (_id r)) (d :: l)
  = existsb (fun x => String.eqb (_id x) (_id r)) l.
Proof.
  intros H. simpl.
  assert (String.eqb (_id d) (_id r) = false) as E
    by (apply String.eqb_neq; congruence).
  now rewrite E.
Qed.

(** With unique keys, writing the revoked form of rows of the collection,
    one after the other, rewrites exactly those rows. *)
Lemma fold_write_revoked (now : Z) (ob : option ObjectId) (l : list UserRole) :
  NoDup (map _id l) ->
  forall coll,
    unique_ids coll -> (forall d, In d l -> In d coll) ->
    fold_left (fun c d => write _id c (revoked now ob d)) l coll
    = map (fun r => if existsb (fun x => String.eqb (_id x) (_id r)) l
                    then revoked now ob r else r) coll.
Proof.
  induction l as [|d l IH]; intros Hl coll Hc Hin; simpl fold_left.
  - simpl. symmetry. apply map_id.
  - inversion Hl as [|k ks Hnot Hl']; subst.
    assert (In d coll) as Hd by (apply Hin; now left).
    assert (existsb (fun r => String.eqb (_id r) (_id (revoked now ob d))) coll
            = true) as Hex.
    { apply existsb_exists. exists d. split; [assumption|]. simpl.
      apply String.eqb_refl. }
    rewrite IH.
    + unfold write. rewrite Hex. rewrite map_map. apply map_ext_in.
      intros r Hr. change (_id (revoked now ob d)) with (_id d).
      destruct (String.eqb (_id r) (_id d)) eqn:E.
      * apply String.eqb_eq in E.
        assert (r = d) as -> by (apply (unique_key_row _id coll); auto).
        change (_id (revoked now ob d)) with (_id d).
        assert (existsb (fun x => String.eqb (_id x) (_id d)) l = false) as El.
        { apply not_true_is_false. intros El. apply Hnot.
          apply existsb_exists in El.
          destruct El as [x [Hx Hk]]. apply String.eqb_eq in Hk.
          rewrite <- Hk. now apply in_map. }
        rewrite El. simpl. now rewrite String.eqb_refl.
      * apply String.eqb_neq in E. now rewrite existsb_cons_neq.
    + assumption.
    + unfold unique_ids. apply NoDup_write. exact Hc.
    + intros x Hx.
      assert (_id x <> _id d) as Hne.
      { intros Hk. apply Hnot. rewrite <- Hk. now apply in_map. }
      unfold write. rewrite Hex. apply in_map_iff. exists x.
      split; [|apply Hin; now right].
      simpl. apply String.eqb_neq in Hne. now rewrite Hne.
Qed.

Lemma NoDup_map_filter (f : UserRole -> bool) (coll : Collection) :
  unique_ids coll -> NoDup (map _id (filter f coll)).
Proof.
  unfold unique_ids. induction coll as [|r coll IH]; simpl; intros H.
  - constructor.
  - inversion H as [|k ks Hnot H']; subst. destruct (f r); simpl; auto.
    constructor; auto. intros Hin. apply Hnot.
    apply in_map_iff in Hin. destruct Hin as [x [Hk Hx]].
    apply filter_In in Hx. rewrite <- Hk. apply in_map. tauto.
Qed.

(** The collection after [revokeAllRoles]: the rows its filter finds, each
    in its revoked form, the other rows as they were. *)
Lemma revokeAllRoles_rewrites (now : Z) (coll coll' : Collection)
  (uid : string) (revokedBy : option string) (ds : list UserRole) :
  unique_ids coll ->
  revokeAllRoles now coll uid revokedBy = Ok (coll', ds) ->
  exists ob,
    coll' = map (fun r => if active_live uid r then revoked now ob r else r) coll
    /\ ds = map (revoked now ob) (filter (active_live uid) coll).
Proof.
  intros Hu. unfold revokeAllRoles.
  destruct (revokedBy_arg revokedBy) as [arg|e] eqn:Ha.
  - rewrite (revoke_each_Ok now revokedBy _ Ha). intros H.
    injection H as <- <-. exists (arg_ObjectId arg). split; [|reflexivity].
    rewrite fold_write_revoked.
    + apply map_ext_in. intros r Hr.
      destruct (active_live uid r) eqn:Ep.
      * assert (existsb (fun x => String.eqb (_id x) (_id r))
                        (filter (active_live uid) coll) = true) as ->;
          [|reflexivity].
        apply existsb_exists. exists r. split; [|apply String.eqb_refl].
        apply filter_In. auto.
      * destruct (existsb (fun x => String.eqb (_id x) (_id r))
                          (filter (active_live uid) coll)) eqn:Ex;
          [|reflexivity].
        exfalso. apply existsb_exists in Ex. destruct Ex as [x [Hx Hk]].
        apply filter_In in Hx. destruct Hx as [Hx Hpx].
        apply String.eqb_eq in Hk.
        assert (x = r) as -> by (apply (unique_key_row _id coll); auto).
        congruence.
    + now apply NoDup_map_filter.
    + exact Hu.
    + intros d Hd. apply filter_In in Hd. tauto.
  - destruct (filter (active_live uid) coll) as [|d l] eqn:Ef.
    + simpl. intros H. injection H as <- <-. exists None. split; [|reflexivity].
      rewrite <- (map_id coll) at 1. apply map_ext_in.
      intros r Hr. destruct (active_live uid r) eqn:Ep; [|reflexivity].
      exfalso. assert (In r (filter (active_live uid) coll)) as Hin
        by (apply filter_In; auto).
      rewrite Ef in Hin. destruct Hin.
    + rewrite (revoke_each_Throw now revokedBy coll d l Ha). discriminate.
Qed.

Lemma filter_nil_intro (A : Type) (f : A -> bool) (l : list A) :
  (forall x, In x l -> f x = false) -> filter f l = [].
Proof.
  induction l as [|x l IH]; simpl; intros H; [reflexivity|].
  rewrite (H x) by now left. apply IH. intros y Hy. apply H. now right.
Qed.

Lemma revoked_not_effective (now t : Z) (ob : option ObjectId) (d : UserRole) :
  effective t (revoked now ob d) = false.
Proof. reflexivity. Qed.

Lemma not_active_live_not_effective (t : Z) (uid : string) (d : UserRole) :
  userId d = uid -> active_live uid d = false -> effective t d = false.
Proof.
  unfold active_live, effective. intros -> H. rewrite String.eqb_refl in H.
  simpl in H. destruct (isActive d); [|reflexivity].
  simpl in *. now rewrite H.
Qed.

(** X4.  [revokeAllRoles] leaves the user without any role in force, and
    touches no other user.  For a collection with unique keys, after a call
    that succeeds the rows found by its filter (the user's rows that are
    active and not soft-deleted) are soft-deleted and returned, all other
    rows are as they were; at every later instant [getActiveUserRoles] is
    empty and [hasRole] false for the user, and [getActiveUserRoles] returns
    for every other user what it returned before. *)
Theorem revokeAllRoles_clears_user (now : Z) (coll coll' : Collection)
  (uid : string) (revokedBy : option string) (ds : list UserRole) :
  unique_ids coll ->
  revokeAllRoles now coll uid revokedBy = Ok (coll', ds) ->
  (exists ob,
     coll' = map (fun r => if active_live uid r then revoked now ob r else r)
                 coll
     /\ ds = map (revoked now ob) (filter (active_live uid) coll))
  /\ (forall t roles, getActiveUserRoles t roles coll' uid = [])
  /\ (forall t rid, UserRoleSchema.hasRole t coll' uid rid = false)
  /\ (forall t roles uid', uid' <> uid ->
        getActiveUserRoles t roles coll' uid'
        = getActiveUserRoles t roles coll uid').
Proof.
  intros Hu H. destruct (revokeAllRoles_rewrites _ _ _ Hu H) as [ob [Hc Hds]].
  assert (forall t x, In x coll' -> userId x = uid -> effective t x = false)
    as Hoff.
  { intros t x Hx Hxu. subst coll'. apply in_map_iff in Hx.
    destruct Hx as [r [Hr Hin]].
    destruct (active_live uid r) eqn:Ep; subst x.
    - apply revoked_not_effective.
    - now apply not_active_live_not_effective with (uid := uid). }
  split; [eauto|]. split; [|split].
  - intros t roles. unfold getActiveUserRoles.
    rewrite filter_nil_intro; [reflexivity|]. intros x Hx.
    destruct (String.eqb (userId x) uid) eqn:E; [|reflexivity].
    apply String.eqb_eq in E. simpl. now apply Hoff.
  - intros t rid. apply hasRole_false_intro. intros x Hx Hxu _.
    now apply Hoff.
  - intros t roles uid' Hne. unfold getActiveUserRoles. f_equal.
    subst coll'. rewrite filter_map_swap.
    assert (forall r, active_live uid r = true ->
                      String.eqb (userId r) uid' = false) as Hother.
    { intros r Hr. unfold active_live in Hr.
      apply andb_true_iff in Hr. destruct Hr as [Hr _].
      apply andb_true_iff in Hr. destruct Hr as [Hr _].
      apply String.eqb_eq in Hr. apply String.eqb_neq. congruence. }
    assert (filter (fun a => (String.eqb
                       (userId (if active_live uid a then revoked now ob a
                                else a)) uid'
                     && effective t (if active_live uid a then revoked now ob a
                                     else a))%bool) coll
            = filter (fun d => (String.eqb (userId d) uid' && effective t d)%bool)
                     coll) as ->.
    { apply filter_ext. intros r. destruct (active_live uid r) eqn:Ep;
        [|reflexivity].
      simpl userId. now rewrite (Hother r Ep). }
    transitivity
      (map (fun x => x)
           (filter (fun d => (String.eqb (userId d) uid' && effective t d)%bool)
                   coll));
      [|apply map_id].
    apply map_ext_in. intros r Hr. apply filter_In in Hr.
    destruct Hr as [_ Hr]. destruct (active_live uid r) eqn:Ep; [|reflexivity].
    rewrite (Hother r Ep) in Hr. discriminate.
Qed.

(** X5.  [revokeAllRoles] without [revokedBy] never fails.  With a
    [revokedBy] that does not convert to an ObjectId it raises the
    conversion error as soon as the user has a row to revoke, before any row
    is written, and returns the empty list, with the collection as it was,
    when the user has none. *)
Theorem revokeAllRoles_outcomes (now : Z) (coll : Collection) (uid : string) :
  (exists coll' ds, revokeAllRoles now coll uid None = Ok (coll', ds))
  /\ forall s e,
       s <> "" -> new_ObjectId s = Throw e ->
       (filter (active_live uid) coll = [] ->
        revokeAllRoles now coll uid (Some s) = Ok (coll, []))
       /\ (filter (active_live uid) coll <> [] ->
           revokeAllRoles now coll uid (Some s) = Throw e).
Proof.
  split.
  - unfold revokeAllRoles.
    rewrite (revoke_each_Ok now None (arg := ArgUndefined)) by reflexivity.
    eauto.
  - intros s e Hs He.
    assert (revokedBy_arg (Some s) = Throw e) as Ha.
    { simpl. apply String.eqb_neq in Hs. now rewrite Hs, He. }
    unfold revokeAllRoles. split.
    + intros ->. reflexivity.
    + intros Hne. destruct (filter (active_live uid) coll) as [|d l];
        [congruence|].
      now apply revoke_each_Throw.
Qed.

End RevokeAll.

(** ** Assignments: what the services keep *)

Section StoreInvariants.
Import UserRoleSchema UserRoleService AssignmentStore Revocation.

Lemma find_map_same (A : Type) (p : A -> bool) (g : A -> A) (l : list A) :
  (forall x, p (g x) = p x) ->
  find p (map g l) = option_map g (find p l).
Proof.
  intros H. induction l as [|x l IH]; simpl; [reflexivity|].
  rewrite H. destruct (p x); [reflexivity|exact IH].
Qed.

Lemma one_row_per_pair_map (g : UserRole -> UserRole) (coll : Collection) :
  (forall r, userId (g r) = userId r /\ roleId (g r) = roleId r) ->
  one_row_per_pair coll -> one_row_per_pair (map g coll).
Proof.
  intros Hg Hinv y Hy. apply in_map_iff in Hy. destruct Hy as [x [<- Hx]].
  unfold findOne_pair. rewrite find_map_same.
  - destruct (Hg x) as [-> ->]. fold (findOne_pair coll (userId x) (roleId x)).
    now rewrite (Hinv x Hx).
  - intros r. destruct (Hg r) as [-> ->]. reflexivity.
Qed.

(** X6.  The three writing operations of the service keep the keys unique
    and keep one row per [(userId, roleId)] pair: from a collection with
    both properties, every call of [assignRole], [revokeRole] or
    [revokeAllRoles] that succeeds leaves a collection with both. *)
Theorem services_keep_store_invariants (coll : Collection) :
  unique_ids coll -> one_row_per_pair coll ->
  (forall now newId data coll' d,
     assignRole now newId coll data = Ok (coll', d) ->
     unique_ids coll' /\ one_row_per_pair coll')
  /\ (forall now uid rid revokedBy coll' r,
        revokeRole now coll uid rid revokedBy = Ok (coll', r) ->
        unique_ids coll' /\ one_row_per_pair coll')
  /\ (forall now uid revokedBy coll' ds,
        revokeAllRoles now coll uid revokedBy = Ok (coll', ds) ->
        unique_ids coll' /\ one_row_per_pair coll').
Proof.
  intros Hu Hinv. split; [|split].
  - intros now newId data coll' d H. split.
    + revert H. unfold assignRole.
      destruct (new_ObjectId (a_roleId data)) as [rid|e]; [|discriminate].
      cbn [bind].
      destruct (findOne_pair coll (a_userId data) rid) as [ex|].
      * destruct (deletedAt ex).
        -- intros H. apply save_reassigned_Ok in H. destruct H as [_ [-> _]].
           now apply NoDup_write.
        -- intros H. now injection H as <- _.
      * intros H. apply save_new_Ok in H. destruct H as [_ [-> _]].
        now apply NoDup_write.
    + eapply assignRole_one_row_per_pair; eassumption.
  - intros now uid rid revokedBy coll' r H.
    rewrite revokeRole_null in H. injection H as <- _. auto.
  - intros now uid revokedBy coll' ds H.
    apply revokeAllRoles_rewrites in H; [|assumption].
    destruct H as [ob [-> _]]. split.
    + unfold unique_ids. rewrite map_map.
      erewrite map_ext; [exact Hu|].
      intros r. now destruct (active_live uid r).
    + apply one_row_per_pair_map; [|assumption].
      intros r. now destruct (active_live uid r).
Qed.

End StoreInvariants.

(** ** Assignments: from an assignment to its revocation and back *)

Section AssignmentRoundTrip.
Import UserRoleSchema UserRoleService AssignmentStore Revocation.

Lemma active_live_effective (t : Z) (uid : string) (d : UserRole) :
  userId d = uid -> effective t d = true -> active_live uid d = true.
Proof.
  unfold active_live, effective. intros -> H. rewrite String.eqb_refl.
  apply andb_true_iff in H. destruct H as [H _]. exact H.
Qed.

Lemma rewritten_rows_not_effective (now t : Z) (ob : option ObjectId)
  (coll : Collection) (uid : string) (x : UserRole) :
  In x (map (fun r => if active_live uid r then revoked now ob r else r) coll) ->
  userId x = uid -> effective t x = false.
Proof.
  intros Hx Hu. apply in_map_iff in Hx. destruct Hx as [r [Hr Hin]].
  destruct (active_live uid r) eqn:Ep; subst x.
  - apply revoked_not_effective.
  - now apply not_active_live_not_effective with (uid := uid).
Qed.

(** X2.  A pair without any row, a user id that is not empty, a role id
    that converts and a reason of at most 500 characters once trimmed:
    [assignRole] stores a new row under the new key with [assignedAt = now]
    and without an expiry, whatever expiry it is given, and [hasRole] holds
    from then on at every instant.  A [revokeRole] of the pair then returns
    [null] and changes nothing, so [hasRole] still holds; it is
    [revokeAllRoles] that revokes the row: it returns it soft-deleted, after
    which [hasRole] holds at no instant. *)
Theorem assign_then_revoke_fresh_pair (now : Z) (newId : ObjectId)
  (coll : Collection) (uid rid : string) (oid : ObjectId)
  (by_ : option string) (exp : option Z) (reason : option string) :
  unique_ids coll ->
  new_ObjectId rid = Ok oid ->
  findOne_pair coll uid oid = None ->
  uid <> "" ->
  (forall s, reason = Some s -> (String.length (trim s) <= 500)%nat) ->
  exists d,
    assignRole now newId coll (mkAssignData uid rid by_ exp reason)
    = Ok (write _id coll d, d)
    /\ _id d = newId /\ assignedAt d = now /\ expiresAt d = None
    /\ (forall t, UserRoleSchema.hasRole t (write _id coll d) uid oid = true)
    /\ (forall now1 revokedBy,
          revokeRole now1 (write _id coll d) uid rid revokedBy
          = Ok (write _id coll d, None))
    /\ forall now1, exists coll2 ds d',
         revokeAllRoles now1 (write _id coll d) uid None = Ok (coll2, ds)
         /\ In d' ds /\ _id d' = newId /\ deletedAt d' = Some now1
         /\ forall t, UserRoleSchema.hasRole t coll2 uid oid = false.
Proof.
  intros Hnd Hr Hf Huid Hreason.
  pose proof (@findOne_pair_none coll uid oid Hf) as Hnone.
  set (d := mkUserRole newId uid oid true by_ now (option_map trim reason)
              None [] None).
  exists d.
  assert (assignRole now newId coll (mkAssignData uid rid by_ exp reason)
          = Ok (write _id coll d, d)) as Ha.
  { unfold assignRole. simpl. rewrite Hr. cbn [bind]. rewrite Hf.
    rewrite save_new_valid.
    - apply save_no_other_live. simpl. intros x Hin Hu Hro.
      destruct (Hnone x Hin Hu Hro).
    - exact Huid.
    - simpl. intros s Hs. destruct reason as [s0|]; [|discriminate].
      simpl in Hs. injection Hs as <-. now apply Hreason. }
  assert (forall t, effective t d = true) as He by reflexivity.
  split; [exact Ha|]. split; [reflexivity|]. split; [reflexivity|].
  split; [reflexivity|]. split; [|split].
  - intros t. apply hasRole_true_iff. exists d.
    split; [apply In_write_same|]. repeat split.
  - intros now1 revokedBy. apply revokeRole_null.
  - intros now1.
    assert (unique_ids (write _id coll d)) as Hnd1
      by (unfold unique_ids; now apply NoDup_write).
    destruct (revokeAllRoles now1 (write _id coll d) uid None)
      as [[coll2 ds]|e] eqn:Hall.
    + destruct (revokeAllRoles_rewrites _ _ _ Hnd1 Hall) as [ob [Hc Hds]].
      exists coll2, ds, (revoked now1 ob d). split; [reflexivity|]. split.
      * subst ds. apply in_map. apply filter_In.
        split; [apply In_write_same|].
        apply (@active_live_effective 0 uid d); [reflexivity|apply He].
      * split; [reflexivity|]. split; [reflexivity|].
        intros t. apply hasRole_false_intro. intros x Hx Hu _. subst coll2.
        now apply (@rewritten_rows_not_effective now1 t ob
                     (write _id coll d) uid x).
    + exfalso. unfold revokeAllRoles in Hall.
      rewrite (revoke_each_Ok now1 None (arg := ArgUndefined)) in Hall
        by reflexivity.
      discriminate.
Qed.

(** X3.  With unique keys and one row per pair, [assignRole] after
    [revokeAllRoles] restores a row that was revoked in place: the row of
    the pair, active and not soft-deleted before, is among the rows that
    [revokeAllRoles] returns, and [assignRole] (for a reason of at most 500
    characters once trimmed, ['Role restored'] when none is given) writes it
    under the same key with [isActive] set and [deletedAt] cleared.  It
    keeps its [assignedAt], the metadata the revocation left and the expiry
    it had in the store, whatever expiry is given; it takes the new
    [assignedBy]; and the collection has as many rows as before the
    revocation. *)
Theorem assign_after_revoke_restores_in_place (now : Z)
  (coll coll1 : Collection) (uid rid : string) (oid : ObjectId)
  (revokedBy : option string) (ds : list UserRole) (d : UserRole) :
  unique_ids coll -> one_row_per_pair coll ->
  new_ObjectId rid = Ok oid ->
  In d coll -> userId d = uid -> roleId d = oid ->
  isActive d = true -> deletedAt d = None ->
  revokeAllRoles now coll uid revokedBy = Ok (coll1, ds) ->
  forall now1 newId by_ exp reason,
    (String.length (trim (str_or reason "Role restored")) <= 500)%nat ->
    exists d1 d2,
      In d1 ds /\ _id d1 = _id d /\ deletedAt d1 = Some now
      /\ assignRole now1 newId coll1 (mkAssignData uid rid by_ exp reason)
         = Ok (write _id coll1 d2, d2)
      /\ _id d2 = _id d /\ assignedAt d2 = assignedAt d
      /\ metadata d2 = metadata d1 /\ expiresAt d2 = expiresAt d
      /\ isActive d2 = true /\ deletedAt d2 = None /\ assignedBy d2 = by_
      /\ List.length (write _id coll1 d2) = List.length coll.
Proof.
  intros Hnd Hinv Hr Hin Hu Hro Hact Hdel Hall now1 newId by_ exp reason Hlen.
  destruct (revokeAllRoles_rewrites _ _ _ Hnd Hall) as [ob [Hc Hds]].
  assert (active_live uid d = true) as Hal.
  { unfold active_live. rewrite Hu, String.eqb_refl, Hact, Hdel. reflexivity. }
  set (g := fun r => if active_live uid r then revoked now ob r else r) in *.
  assert (forall r, userId (g r) = userId r /\ roleId (g r) = roleId r) as Hg.
  { intros r. unfold g. now destruct (active_live uid r). }
  assert (one_row_per_pair coll1) as Hinv1
    by (subst coll1; now apply one_row_per_pair_map).
  set (d1 := revoked now ob d).
  assert (g d = d1) as Hgd by (unfold g; now rewrite Hal).
  assert (In d1 coll1) as Hin1.
  { subst coll1. rewrite <- Hgd. now apply in_map. }
  assert (findOne_pair coll1 uid oid = Some d1) as Hfp.
  { rewrite <- Hu, <- Hro.
    change (userId d) with (userId d1). change (roleId d) with (roleId d1).
    now apply Hinv1. }
  exists d1. eexists. split.
  { subst ds. apply in_map. apply filter_In. auto. }
  split; [reflexivity|]. split; [reflexivity|]. split.
  - unfold assignRole. simpl. rewrite Hr. cbn [bind]. rewrite Hfp.
    cbn [deletedAt d1 revoked]. rewrite save_reassigned_valid.
    + apply save_no_other_live. simpl. intros x Hx Hxu Hxr.
      pose proof (Hinv1 x Hx) as Hx'.
      rewrite Hxu, Hxr, Hu, Hro, Hfp in Hx'. now injection Hx' as <-.
    + simpl. intros s Hs. injection Hs as <-. exact Hlen.
  - simpl. repeat split.
    rewrite length_write_existing.
    + subst coll1. apply length_map.
    + apply existsb_exists. exists d1. split; [assumption|].
      simpl. apply String.eqb_refl.
Qed.

End AssignmentRoundTrip.

Section AssignmentRuns.
Import UserRoleSchema UserRoleService AssignmentStore Revocation Scenario.

Lemma user_roles_unique_ids : unique_ids user_roles.
Proof.
  unfold unique_ids. simpl. repeat constructor; simpl; intuition discriminate.
Qed.

(** X2 on [Scenario]: [U4] has no row; the role is assigned at 2000 with an
    expiry at 9000, which is not stored. *)
Lemma assign_then_revoke_fresh_pair_witness :
  exists d,
    assignRole 2000 "eeeeeeeeeeeeeeeeeeeeeeee" user_roles
      (mkAssignData "U4" "cccccccccccccccccccccccc" None (Some 9000) None)
    = Ok (write _id user_roles d, d)
    /\ _id d = "eeeeeeeeeeeeeeeeeeeeeeee" /\ assignedAt d = 2000
    /\ expiresAt d = None
    /\ (forall t,
          UserRoleSchema.hasRole t (write _id user_roles d) "U4"
            "cccccccccccccccccccccccc" = true)
    /\ (forall now1 revokedBy,
          revokeRole now1 (write _id user_roles d) "U4"
            "cccccccccccccccccccccccc" revokedBy
          = Ok (write _id user_roles d, None))
    /\ forall now1, exists coll2 ds d',
         revokeAllRoles now1 (write _id user_roles d) "U4" None
         = Ok (coll2, ds)
         /\ In d' ds /\ _id d' = "eeeeeeeeeeeeeeeeeeeeeeee"
         /\ deletedAt d' = Some now1
         /\ forall t,
              UserRoleSchema.hasRole t coll2 "U4" "cccccccccccccccccccccccc"
              = false.
Proof.
  apply (@assign_then_revoke_fresh_pair 2000 "eeeeeeeeeeeeeeeeeeeeeeee"
           user_roles "U4" "cccccccccccccccccccccccc"
           "cccccccccccccccccccccccc" None (Some 9000) None
           user_roles_unique_ids eq_refl eq_refl).
  - discriminate.
  - intros s Hs. discriminate.
Defined.

(** X3 on [Scenario]: the roles of [U1] are revoked at 2000 and [support] is
    assigned again at 3000; the row keeps its key and its [assignedAt] of
    50. *)
Lemma assign_after_revoke_restores_in_place_witness :
  exists d1 d2,
    In d1 [revoked 2000 None assignment_U1]
    /\ assignRole 3000 "eeeeeeeeeeeeeeeeeeeeeeee"
         [revoked 2000 None assignment_U1; assignment_U2; assignment_U3]
         (mkAssignData "U1" "cccccccccccccccccccccccc" (Some "u-staff") None
            None)
       = Ok ([d2; assignment_U2; assignment_U3], d2)
    /\ _id d2 = "dddddddddddddddddddddddd" /\ assignedAt d2 = 50
    /\ isActive d2 = true /\ deletedAt d2 = None
    /\ assignedBy d2 = Some "u-staff".
Proof.
  destruct (@assign_after_revoke_restores_in_place 2000 user_roles
              [revoked 2000 None assignment_U1; assignment_U2; assignment_U3]
              "U1" "cccccccccccccccccccccccc" "cccccccccccccccccccccccc" None
              [revoked 2000 None assignment_U1] assignment_U1
              user_roles_unique_ids user_roles_one_row_per_pair eq_refl
              (or_introl eq_refl) eq_refl eq_refl eq_refl eq_refl eq_refl
              3000 "eeeeeeeeeeeeeeeeeeeeeeee" (Some "u-staff") None None)
    as [d1 [d2 [Hin [_ [_ [Ha [Hid [Hat [_ [_ [Hact [Hdel [Hby _]]]]]]]]]]]]].
  - apply Nat.leb_le. reflexivity.
  - exists d1, d2. split; [exact Hin|]. split.
    + rewrite Ha. unfold write. simpl. rewrite Hid. reflexivity.
    + rewrite Hid, Hat. repeat split; assumption.
Defined.

(** X4 on [Scenario]: the roles of [U1] are revoked at 2000. *)
Lemma revokeAllRoles_clears_user_witness :
  revokeAllRoles 2000 user_roles "U1" None
  = Ok ([revoked 2000 None assignment_U1; assignment_U2; assignment_U3],
        [revoked 2000 None assignment_U1])
  /\ (forall t roles,
        getActiveUserRoles t roles
          [revoked 2000 None assignment_U1; assignment_U2; assignment_U3] "U1"
        = [])
  /\ (forall t roles,
        getActiveUserRoles t roles
          [revoked 2000 None assignment_U1; assignment_U2; assignment_U3] "U2"
        = getActiveUserRoles t roles user_roles "U2").
Proof.
  split; [reflexivity|].
  destruct (@revokeAllRoles_clears_user 2000 user_roles
              [revoked 2000 None assignment_U1; assignment_U2; assignment_U3]
              "U1" None [revoked 2000 None assignment_U1]
              user_roles_unique_ids eq_refl) as [_ [H1 [_ H2]]].
  split.
  - exact H1.
  - intros t roles. apply H2. discriminate.
Defined.

(** X6 on [Scenario]. *)
Lemma services_keep_store_invariants_witness :
  unique_ids [revoked 2000 None assignment_U1; assignment_U2; assignment_U3]
  /\ one_row_per_pair
       [revoked 2000 None assignment_U1; assignment_U2; assignment_U3].
Proof.
  destruct (services_keep_store_invariants user_roles_unique_ids
              user_roles_one_row_per_pair) as [_ [_ H]].
  apply (H 2000 "U1" None _ [revoked 2000 None assignment_U1]).
  reflexivity.
Defined.

End AssignmentRuns.

(** ** Policies and roles: removal of a reference, restore, order of [findAll] *)

Section References.






End References.

(** ** Soft deletion and restore of policies and roles *)

Section WriteBack.
Variable D : Type.
Variable key : D -> string.


End WriteBack.

Section FindAllOrder.
Variable A : Type.
Variable k : A -> Z.

Lemma insert_sorted_perm (before : A -> A -> bool) (x : A) (l : list A) :
  Permutation (x :: l) (insert_sorted before x l).
Proof.
  induction l as [|y l IH]; simpl; [apply Permutation_refl|].
  destruct (before y x); [|apply Permutation_refl].
  eapply Permutation_trans; [apply perm_swap|]. now apply perm_skip.
Qed.

Lemma sort_by_perm (before : A -> A -> bool) (l : list A) :
  Permutation l (sort_by before l).
Proof.
  induction l as [|x l IH]; simpl; [apply Permutation_refl|].
  eapply Permutation_trans; [|apply insert_sorted_perm]. now apply perm_skip.
Qed.

Lemma insert_sorted_desc (x : A) (l : list A) :
  StronglySorted (fun a b => k b <= k a) l ->
  StronglySorted (fun a b => k b <= k a)
    (insert_sorted (fun a b => k b <? k a) x l).
Proof.
  induction l as [|y l IH]; simpl; intros Hs.
  - constructor; constructor.
  - inversion Hs as [|y' l' Hs' Hall]; subst.
    destruct (k x <? k y) eqn:E.
    + apply Z.ltb_lt in E. constructor; [now apply IH|].
      apply Forall_forall. intros z Hz. apply In_insert_sorted in Hz.
      destruct Hz as [->|Hz]; [lia|].
      rewrite Forall_forall in Hall. now apply Hall.
    + apply Z.ltb_ge in E. constructor; [assumption|].
      constructor; [assumption|].
      rewrite Forall_forall in Hall. apply Forall_forall. intros z Hz.
      specialize (Hall z Hz). simpl in Hall. lia.
Qed.

Lemma sort_by_desc (l : list A) :
  StronglySorted (fun a b => k b <= k a)
    (sort_by (fun a b => k b <? k a) l).
Proof.
  induction l as [|x l IH]; simpl; [constructor|].
  now apply insert_sorted_desc.
Qed.

Lemma StronglySorted_map_desc (B : Type) (f : A -> B) (k' : B -> Z)
  (l : list A) :
  (forall x, k' (f x) = k x) ->
  StronglySorted (fun a b => k b <= k a) l ->
  StronglySorted (fun a b => k' b <= k' a) (map f l).
Proof.
  intros Hk Hs. induction Hs as [|x l Hs IH Hall]; simpl; constructor.
  - exact IH.
  - apply Forall_forall. intros z Hz. apply in_map_iff in Hz.
    destruct Hz as [y [<- Hy]]. rewrite !Hk.
    rewrite Forall_forall in Hall. now apply Hall.
Qed.

End FindAllOrder.

Section PolicyRoleLifecycle.

(** X8.  [findAll] of the policy service returns every policy that is not
    soft-deleted exactly once, highest priority first, each with its
    permissions populated; [findAll] of the role service does the same with
    the roles, highest level first. *)
Theorem findAll_live_sorted (perms : PermissionSchema.Collection)
  (pols : PolicySchema.Collection) (roles : RoleSchema.Collection) :
  (Permutation (map PolicySchema.doc (PolicyService.findAll perms pols))
     (filter (fun d => isNone (PolicySchema.deletedAt d)) pols)
   /\ StronglySorted
        (fun a b => PolicySchema.priority (PolicySchema.doc b)
                    <= PolicySchema.priority (PolicySchema.doc a))
        (PolicyService.findAll perms pols)
   /\ forall v, In v (PolicyService.findAll perms pols) ->
        v = PolicySchema.populate_permissions perms (PolicySchema.doc v))
  /\ (Permutation (map RoleSchema.doc (RoleService.findAll perms pols roles))
        (filter (fun d => isNone (RoleSchema.deletedAt d)) roles)
      /\ StronglySorted
           (fun a b => RoleSchema.level (RoleSchema.doc b)
                       <= RoleSchema.level (RoleSchema.doc a))
           (RoleService.findAll perms pols roles)
      /\ forall v, In v (RoleService.findAll perms pols roles) ->
           v = RoleSchema.populate_policies perms pols (RoleSchema.doc v)).
Proof.
  split; (split; [|split]).
  - unfold PolicyService.findAll. rewrite map_map. simpl. rewrite map_id.
    apply Permutation_sym, sort_by_perm.
  - unfold PolicyService.findAll.
    apply (StronglySorted_map_desc PolicySchema.priority); [reflexivity|].
    apply sort_by_desc.
  - unfold PolicyService.findAll. intros v Hv. apply in_map_iff in Hv.
    now destruct Hv as [d [<- _]].
  - unfold RoleService.findAll. rewrite map_map. simpl. rewrite map_id.
    apply Permutation_sym, sort_by_perm.
  - unfold RoleService.findAll.
    apply (StronglySorted_map_desc RoleSchema.level); [reflexivity|].
    apply sort_by_desc.
  - unfold RoleService.findAll. intros v Hv. apply in_map_iff in Hv.
    now destruct Hv as [d [<- _]].
Qed.

Lemma policy_findAll_In (perms : PermissionSchema.Collection)
  (pols : PolicySchema.Collection) (v : PolicySchema.PolicyView) :
  In v (PolicyService.findAll perms pols) <->
  exists d, v = PolicySchema.populate_permissions perms d /\ In d pols
            /\ PolicySchema.deletedAt d = None.
Proof.
  unfold PolicyService.findAll. rewrite in_map_iff. split.
  - intros [d [<- Hd]]. apply In_sort_by, filter_In in Hd.
    destruct Hd as [Hin Hl]. exists d. repeat split; auto.
    now destruct (PolicySchema.deletedAt d).
  - intros [d [-> [Hin Hl]]]. exists d. split; [reflexivity|].
    apply In_sort_by, filter_In. split; [assumption|]. now rewrite Hl.
Qed.

Lemma role_findAll_In (perms : PermissionSchema.Collection)
  (pols : PolicySchema.Collection) (roles : RoleSchema.Collection)
  (v : RoleSchema.RoleView) :
  In v (RoleService.findAll perms pols roles) <->
  exists d, v = RoleSchema.populate_policies perms pols d /\ In d roles
            /\ RoleSchema.deletedAt d = None.
Proof.
  unfold RoleService.findAll. rewrite in_map_iff. split.
  - intros [d [<- Hd]]. apply In_sort_by, filter_In in Hd.
    destruct Hd as [Hin Hl]. exists d. repeat split; auto.
    now destruct (RoleSchema.deletedAt d).
  - intros [d [-> [Hin Hl]]]. exists d. split; [reflexivity|].
    apply In_sort_by, filter_In. split; [assumption|]. now rewrite Hl.
Qed.


Lemma find_map_fixed (A : Type) (p : A -> bool) (g : A -> A) (l : list A) :
  (forall x, In x l -> g x = x \/ (p x = false /\ p (g x) = false)) ->
  find p (map g l) = find p l.
Proof.
  induction l as [|x l IH]; simpl; intros H; [reflexivity|].
  destruct (H x (or_introl eq_refl)) as [E|[E1 E2]].
  - rewrite E. destruct (p x); [reflexivity|]. apply IH. intros y Hy.
    apply H. now right.
  - rewrite E1, E2. apply IH. intros y Hy. apply H. now right.
Qed.

(** X10.  The role [getDefaultRole] returns is a stored role that is default,
    active and not soft-deleted, [softDelete] refuses it, and [findAll]
    lists it; [getDefaultRole] returns nothing exactly when no stored role is
    default, active and not soft-deleted; and in a collection with one
    document per id no successful [softDelete] of a stored role changes what
    [getDefaultRole] returns. *)
Theorem default_role_protected (now : Z) (perms : PermissionSchema.Collection)
  (pols : PolicySchema.Collection) (roles : RoleSchema.Collection) :
  (forall r, RoleSchema.getDefaultRole roles = Some r ->
     In r roles /\ RoleSchema.isDefault r = true
     /\ RoleSchema.isActive r = true /\ RoleSchema.deletedAt r = None
     /\ RoleSchema.softDelete now roles r
        = Throw (Error (if RoleSchema.isSystem r
                        then "Cannot delete system roles"
                        else "Cannot delete default role"))
     /\ In (RoleSchema.populate_policies perms pols r)
          (RoleService.findAll perms pols roles))
  /\ (RoleSchema.getDefaultRole roles = None <->
      forall r, In r roles ->
        RoleSchema.isDefault r = false \/ RoleSchema.isActive r = false
        \/ RoleSchema.deletedAt r <> None)
  /\ (forall r roles1 r1,
        NoDup (map RoleSchema._id roles) -> In r roles ->
        RoleSchema.softDelete now roles r = Ok (roles1, r1) ->
        RoleSchema.getDefaultRole roles1 = RoleSchema.getDefaultRole roles).
Proof.
  split; [|split].
  - intros r H. unfold RoleSchema.getDefaultRole in H. apply find_some in H.
    destruct H as [Hin H]. apply andb_prop in H. destruct H as [H Hl].
    apply andb_prop in H. destruct H as [Hd Ha].
    assert (RoleSchema.deletedAt r = None) as Hdel.
    { now destruct (RoleSchema.deletedAt r). }
    repeat split; auto.
    + unfold RoleSchema.softDelete. rewrite Hd.
      now destruct (RoleSchema.isSystem r).
    + apply role_findAll_In. exists r. auto.
  - unfold RoleSchema.getDefaultRole. split.
    + intros H r Hin. pose proof (find_none _ _ H r Hin) as E. simpl in E.
      destruct (RoleSchema.isDefault r); [|now left].
      destruct (RoleSchema.isActive r); [|now right; left].
      right; right. now destruct (RoleSchema.deletedAt r).
    + intros H. destruct (find _ roles) as [r|] eqn:E; [|reflexivity].
      apply find_some in E. destruct E as [Hin E]. exfalso.
      destruct (H r Hin) as [H1|[H1|H1]].
      * rewrite H1 in E. discriminate.
      * rewrite H1, andb_false_r in E. discriminate.
      * destruct (RoleSchema.deletedAt r); [|now apply H1].
        rewrite andb_false_r in E. discriminate.
  - intros r roles1 r1 Hnd Hin H. unfold RoleSchema.softDelete in H.
    destruct (RoleSchema.isSystem r); [discriminate|].
    destruct (RoleSchema.isDefault r) eqn:Hd; [discriminate|].
    inversion H; subst. clear H. unfold RoleSchema.getDefaultRole, write.
    assert (existsb (fun x => String.eqb (RoleSchema._id x)
              (RoleSchema._id (RoleSchema.with_deleted (Some now) false r)))
              roles = true) as E.
    { apply existsb_exists. exists r. split; [assumption|].
      apply String.eqb_refl. }
    rewrite E. apply find_map_fixed. intros x Hx.
    destruct (String.eqb _ _) eqn:Ek; [|now left]. right.
    apply String.eqb_eq in Ek. simpl in Ek.
    assert (x = r) as -> by (apply (unique_key_row RoleSchema._id roles); auto).
    simpl. rewrite Hd. split; reflexivity.
Qed.

Lemma populate_lists_stored (perms : PermissionSchema.Collection)
  (l : list ObjectId) (i : ObjectId) (q : PermissionSchema.Permission) :
  In i l -> findById PermissionSchema._id perms i = Some q ->
  In q (flat_map (fun j =>
          match findById PermissionSchema._id perms j with
          | Some p => [p]
          | None => []
          end) l).
Proof.
  intros Hin Hf. apply in_flat_map. exists i. split; [assumption|].
  rewrite Hf. now left.
Qed.

(** X11.  Soft-deleting a permission does not take it out of the policies
    that list it: once [softDelete] of a permission has succeeded, [findAll]
    of the policy service still returns every policy that is not soft-deleted
    and lists the id of the permission with that permission among its
    populated permissions, now inactive and marked deleted; and what
    [populate] puts at [permissions] is, for every policy, exactly the stored
    documents of the listed ids. *)
Theorem soft_deleted_permission_still_populated (now : Z)
  (perms perms1 : PermissionSchema.Collection)
  (q q1 : PermissionSchema.Permission) (pols : PolicySchema.Collection)
  (H : PermissionSchema.softDelete now perms q = Ok (perms1, q1)) :
  PermissionSchema._id q1 = PermissionSchema._id q
  /\ PermissionSchema.isActive q1 = false
  /\ PermissionSchema.deletedAt q1 = Some now
  /\ (forall p, In p pols -> PolicySchema.deletedAt p = None ->
        In (PermissionSchema._id q) (PolicySchema.permissions p) ->
        exists v ps,
          In v (PolicyService.findAll perms1 pols)
          /\ PolicySchema.doc v = p
          /\ PolicySchema.permissions_populated v = PopulatedWith ps
          /\ In q1 ps)
  /\ (forall v, In v (PolicyService.findAll perms1 pols) ->
        exists ps,
          PolicySchema.permissions_populated v = PopulatedWith ps
          /\ forall x, In x ps <->
               exists i, In i (PolicySchema.permissions (PolicySchema.doc v))
                         /\ findById PermissionSchema._id perms1 i = Some x).
Proof.
  unfold PermissionSchema.softDelete, PermissionSchema.save in H.
  destruct (PermissionSchema.validate _); [|discriminate]. cbn [bind] in H.
  destruct (PermissionSchema.identifier_taken _ _); [discriminate|].
  inversion H; subst. clear H.
  set (q0 := PermissionSchema.with_deleted (Some now) false q).
  assert (PermissionSchema._id (PermissionSchema.pre_save q0)
          = PermissionSchema._id q) as Hid.
  { unfold PermissionSchema.pre_save. now destruct (_ && _)%bool. }
  split; [exact Hid|].
  split; [unfold PermissionSchema.pre_save; now destruct (_ && _)%bool|].
  split; [unfold PermissionSchema.pre_save; now destruct (_ && _)%bool|].
  split.
  - intros p Hp Hl Hi.
    exists (PolicySchema.populate_permissions
              (write PermissionSchema._id perms (PermissionSchema.pre_save q0))
              p).
    eexists. split; [|split; [reflexivity|split; [reflexivity|]]].
    + apply policy_findAll_In. exists p. auto.
    + apply populate_lists_stored with (i := PermissionSchema._id q);
        [assumption|].
      rewrite <- Hid. apply findById_write_same.
  - intros v Hv. apply policy_findAll_In in Hv.
    destruct Hv as [d [-> _]]. eexists. split; [reflexivity|].
    intros x. simpl. rewrite in_flat_map. split.
    + intros [i [Hi Hx]]. exists i. split; [assumption|].
      destruct (findById _ _ i) as [y|]; [|destruct Hx].
      destruct Hx as [->|[]]. reflexivity.
    + intros [i [Hi Hx]]. exists i. split; [assumption|].
      rewrite Hx. now left.
Qed.

End PolicyRoleLifecycle.

Section PolicyRoleRuns.
Import Scenario.


Lemma soft_deleted_permission_still_populated_witness :
  PermissionSchema.softDelete 900 permissions perm_user_read
  = Ok ([PermissionSchema.with_deleted (Some 900) false perm_user_read],
        PermissionSchema.with_deleted (Some 900) false perm_user_read)
  /\ exists v ps,
       In v (PolicyService.findAll
               [PermissionSchema.with_deleted (Some 900) false perm_user_read]
               policies)
       /\ PolicySchema.doc v = pol_viewer
       /\ PolicySchema.permissions_populated v = PopulatedWith ps
       /\ In (PermissionSchema.with_deleted (Some 900) false perm_user_read) ps.
Proof.
  split; [reflexivity|].
  destruct (@soft_deleted_permission_still_populated 900 permissions
              [PermissionSchema.with_deleted (Some 900) false perm_user_read]
              perm_user_read
              (PermissionSchema.with_deleted (Some 900) false perm_user_read)
              policies eq_refl) as [_ [_ [_ [H _]]]].
  apply (H pol_viewer); simpl; auto.
Defined.

End PolicyRoleRuns.

(** ** Suspension followed by reactivation *)

Section LifecycleComposition.
Import AdminUserEntity TeamManagementService.

Lemma suspendAdmin_Ok_inv (now : Z) (repo repo1 : Repository)
  (target actor : string) :
  suspendAdmin now repo target actor = Ok repo1 ->
  actor <> target
  /\ exists t, findOne_id repo target = Some t
       /\ adminUserStatus t <> SUSPENDED
       /\ match findOne_id repo actor with
          | Some a => (type_eqb (adminUserType a) ADMIN
                       && type_eqb (adminUserType t) SUPER_ADMIN)%bool
          | None => false
          end = false
       /\ repo1 = write id repo (with_updatedAt now (with_status SUSPENDED t)).
Proof.
  unfold suspendAdmin. destruct (String.eqb actor target) eqn:E; [discriminate|].
  apply String.eqb_neq in E. intros H. split; [exact E|].
  destruct (findOne_id repo target) as [t|]; [|discriminate].
  destruct (status_eqb (adminUserStatus t) SUSPENDED) eqn:Es; [discriminate|].
  destruct (match findOne_id repo actor with Some _ => _ | None => _ end)
    eqn:Eg; [discriminate|].
  exists t. repeat split; auto.
  - intros Hs. rewrite Hs in Es. discriminate.
  - inversion H. reflexivity.
Qed.

(** X12.  Once [suspendAdmin] has succeeded, a second suspension of the same
    account is refused as already suspended whoever asks, and
    [reactivateAdmin] by the same actor succeeds: the account is then active,
    also when it was inactive before the suspension, with its key, email,
    name, subject, type and creation date as before the two calls, every
    other account is found as before, and a second reactivation is refused
    as already active. *)
Theorem suspend_then_reactivate (now now' : Z) (repo repo1 : Repository)
  (target actor : string)
  (H : suspendAdmin now repo target actor = Ok repo1) :
  (forall now2 actor', actor' <> target ->
     suspendAdmin now2 repo1 target actor'
     = Throw (BadRequestException
                (MsgString ERROR_MESSAGES.ADMIN_ALREADY_SUSPENDED)))
  /\ exists repo2,
       reactivateAdmin now' repo1 target actor = Ok repo2
       /\ (exists t t2,
             findOne_id repo target = Some t
             /\ findOne_id repo2 target = Some t2
             /\ adminUserStatus t2 = ACTIVE
             /\ id t2 = id t /\ email t2 = email t /\ name t2 = name t
             /\ userSub t2 = userSub t
             /\ adminUserType t2 = adminUserType t
             /\ createdAt t2 = createdAt t /\ updatedAt t2 = now')
       /\ (forall j, j <> target -> findOne_id repo2 j = findOne_id repo j)
       /\ (forall now2 actor', actor' <> target ->
             reactivateAdmin now2 repo2 target actor'
             = Throw (BadRequestException
                        (MsgString ERROR_MESSAGES.ADMIN_ALREADY_ACTIVE))).
Proof.
  apply suspendAdmin_Ok_inv in H.
  destruct H as [Hne [t [Ht [Hs [Hg ->]]]]].
  pose proof (findById_key id _ _ Ht) as [Hid _].
  set (t1 := with_updatedAt now (with_status SUSPENDED t)).
  assert (findOne_id (write id repo t1) target = Some t1) as Ht1.
  { unfold findOne_id. rewrite <- Hid.
    change (id t) with (id t1). apply findById_write_same. }
  assert (forall j, j <> target ->
            findOne_id (write id repo t1) j = findOne_id repo j) as Hother1.
  { intros j Hj. unfold findOne_id. apply findById_write_other.
    simpl. congruence. }
  set (t2 := with_updatedAt now' (with_status ACTIVE t1)).
  assert (findOne_id (write id (write id repo t1) t2) target = Some t2) as Ht2.
  { unfold findOne_id. rewrite <- Hid.
    change (id t) with (id t2). apply findById_write_same. }
  split.
  - intros now2 actor' Hne'. unfold suspendAdmin.
    rewrite (proj2 (String.eqb_neq _ _) Hne'), Ht1. reflexivity.
  - exists (write id (write id repo t1) t2). split; [|split; [|split]].
    + unfold reactivateAdmin.
      rewrite (proj2 (String.eqb_neq _ _) Hne), Ht1. simpl status_eqb.
      cbv iota. rewrite (Hother1 actor Hne).
      change (adminUserType t1) with (adminUserType t). rewrite Hg.
      reflexivity.
    + exists t, t2. repeat split; assumption.
    + intros j Hj. rewrite <- (Hother1 j Hj). unfold findOne_id.
      apply findById_write_other. simpl. congruence.
    + intros now2 actor' Hne'. unfold reactivateAdmin.
      rewrite (proj2 (String.eqb_neq _ _) Hne'), Ht2. reflexivity.
Qed.

End LifecycleComposition.

Section LifecycleCompositionRuns.
Import AdminUserEntity TeamManagementService Scenario.

Lemma suspend_then_reactivate_witness :
  suspendAdmin 100 admin_users "u-staff" "u-boss"
  = Ok [boss; with_updatedAt 100 (with_status SUSPENDED staff); idle]
  /\ reactivateAdmin 200
       [boss; with_updatedAt 100 (with_status SUSPENDED staff); idle]
       "u-staff" "u-boss"
     = Ok [boss; with_updatedAt 200 staff; idle].
Proof.
  split; [reflexivity|].
  destruct (@suspend_then_reactivate 100 200 admin_users
              [boss; with_updatedAt 100 (with_status SUSPENDED staff); idle]
              "u-staff" "u-boss" eq_refl) as [_ [repo2 [E _]]].
  rewrite E. f_equal. vm_compute in E. now inversion E.
Defined.

End LifecycleCompositionRuns.

(** ** Creation of an admin account *)

Section Creation.
Import AdminUserEntity TeamManagementService.

Lemma findOne_email_In (repo : Repository) (a : AdminUser) :
  In a repo -> findOne_email repo (email a) <> None.
Proof.
  intros Hin Hn. unfold findOne_email in Hn.
  pose proof (find_none _ _ Hn a Hin) as E. simpl in E.
  now rewrite String.eqb_refl in E.
Qed.

Lemma findOne_email_None (repo : Repository) (e : string) :
  findOne_email repo e = None -> ~ In e (map email repo).
Proof.
  intros Hn Hin. apply in_map_iff in Hin. destruct Hin as [a [<- Ha]].
  now apply (findOne_email_In repo a).
Qed.

Lemma createAdmin_Ok_inv (now : Z) (newAdminId : string) (newRowId : ObjectId)
  (repo repo' : Repository) (userRoles userRoles' : UserRoleSchema.Collection)
  (dto : CreateAdminDto) (signup : AxiosError + option string) (a : AdminUser) :
  createAdmin now newAdminId newRowId repo userRoles dto signup
  = Ok (repo', userRoles', a) ->
  findOne_email repo (d_email dto) = None
  /\ exists sub,
       signup = inr sub
       /\ a = mkAdminUser newAdminId (d_email dto) (d_name dto) sub
                match d_adminUserType dto with
                | Some (DtoType t) => t
                | Some DtoSuperadmin => SUPER_ADMIN
                | None => ADMIN
                end
                match d_adminUserStatus dto with
                | Some s => s
                | None => ACTIVE
                end now now
       /\ repo' = write id repo a
       /\ userRoles' = if truthy (d_roleId dto)
                       then assignRoleToUser now newRowId userRoles newAdminId
                              (str_or (d_roleId dto) "")
                       else userRoles.
Proof.
  unfold createAdmin. destruct (findOne_email repo (d_email dto)).
  - simpl. discriminate.
  - destruct signup as [e|sub]; simpl.
    + destruct (is_known_exception (signup_failure e)); discriminate.
    + intros H. inversion H; subst. split; [reflexivity|].
      exists sub. repeat split; reflexivity.
Qed.

(** X13.  A successful [createAdmin] found the email free and the account of
    the auth service created; the admin it returns has the generated key, the
    email and name of the request, the subject the auth service answered, the
    type and status of the request ([admin] and [active] when left out,
    ['superadmin'] read as [super_admin]), and is stored under its key.
    Afterwards every [createAdmin] with that email is refused with Conflict,
    whatever else it is given; and when the key is new the row is appended
    and the emails of the table stay distinct. *)
Theorem createAdmin_success (now : Z) (newAdminId : string)
  (newRowId : ObjectId) (repo repo' : Repository)
  (userRoles userRoles' : UserRoleSchema.Collection) (dto : CreateAdminDto)
  (signup : AxiosError + option string) (a : AdminUser)
  (H : createAdmin now newAdminId newRowId repo userRoles dto signup
       = Ok (repo', userRoles', a)) :
  findOne_email repo (d_email dto) = None
  /\ signup = inr (userSub a)
  /\ id a = newAdminId /\ email a = d_email dto /\ name a = d_name dto
  /\ adminUserType a = match d_adminUserType dto with
                       | Some (DtoType t) => t
                       | Some DtoSuperadmin => SUPER_ADMIN
                       | None => ADMIN
                       end
  /\ adminUserStatus a = match d_adminUserStatus dto with
                         | Some s => s
                         | None => ACTIVE
                         end
  /\ findOne_id repo' newAdminId = Some a
  /\ (forall now2 newAdminId2 newRowId2 userRoles2 dto2 signup2,
        d_email dto2 = d_email dto ->
        createAdmin now2 newAdminId2 newRowId2 repo' userRoles2 dto2 signup2
        = Throw (ConflictException
                   (MsgString ERROR_MESSAGES.ADMIN_ALREADY_EXISTS)))
  /\ (findOne_id repo newAdminId = None ->
      repo' = repo ++ [a]
      /\ (NoDup (map email repo) -> NoDup (map email repo'))).
Proof.
  apply createAdmin_Ok_inv in H.
  destruct H as [Hfree [sub [-> [Ha [-> _]]]]].
  assert (id a = newAdminId) as Hid by (subst a; reflexivity).
  assert (email a = d_email dto) as Hem by (subst a; reflexivity).
  split; [exact Hfree|].
  split; [subst a; reflexivity|].
  split; [exact Hid|]. split; [exact Hem|].
  split; [subst a; reflexivity|].
  split; [subst a; reflexivity|].
  split; [subst a; reflexivity|].
  split; [|split].
  - unfold findOne_id. rewrite <- Hid. apply findById_write_same.
  - intros now2 newAdminId2 newRowId2 userRoles2 dto2 signup2 E.
    unfold createAdmin. rewrite E, <- Hem.
    destruct (findOne_email (write id repo a) (email a)) eqn:Ef;
      [reflexivity|].
    exfalso. apply (findOne_email_In (write id repo a) a); [|exact Ef].
    apply In_write_same.
  - intros Hnew.
    assert (existsb (fun r => String.eqb (id r) (id a)) repo = false) as Ex.
    { apply not_true_is_false. intros Ex. apply existsb_exists in Ex.
      destruct Ex as [r [Hr Er]]. unfold findOne_id, findById in Hnew.
      pose proof (find_none _ _ Hnew r Hr) as En. simpl in En.
      rewrite Hid in Er. congruence. }
    unfold write. rewrite Ex. split; [reflexivity|].
    intros Hnd. rewrite map_app. simpl.
    apply NoDup_app; [assumption|repeat constructor; intros []|].
    intros e He [<-|[]]. rewrite Hem in He.
    now apply (findOne_email_None repo (d_email dto)).
Qed.

Lemma assignRoleToUser_invalid (now : Z) (newId : ObjectId)
  (userRoles : UserRoleSchema.Collection) (uid rid : string) :
  ObjectId_isValid rid = false ->
  assignRoleToUser now newId userRoles uid rid = userRoles.
Proof.
  intros Hv. unfold assignRoleToUser, new_ObjectId. now rewrite Hv.
Qed.

(** X14.  The role of a new admin is assigned on a best-effort basis.  When
    [createAdmin] succeeds it succeeds with the same admin and the same table
    whatever role id is requested and whatever the assignments hold.  Without
    a role id, or with one that is no ObjectId, the assignments are left as
    they were; with a valid one, for which the store holds no row of that
    admin, the admin has the role afterwards at every time.  That is for a
    generated key of the admin that is not empty, as any is: [userId] is
    required, and with an empty key the assignments are left as they were.
    No role has to exist under the id. *)
Theorem createAdmin_role_best_effort (now : Z) (newAdminId : string)
  (newRowId : ObjectId) (repo repo' : Repository)
  (userRoles userRoles' : UserRoleSchema.Collection) (dto : CreateAdminDto)
  (signup : AxiosError + option string) (a : AdminUser)
  (H : createAdmin now newAdminId newRowId repo userRoles dto signup
       = Ok (repo', userRoles', a)) :
  (forall newRowId2 userRoles2 roleId2,
     exists userRoles2',
       createAdmin now newAdminId newRowId2 repo userRoles2
         (mkCreateAdminDto (d_email dto) (d_name dto) (d_adminUserType dto)
            (d_adminUserStatus dto) roleId2) signup
       = Ok (repo', userRoles2', a))
  /\ (truthy (d_roleId dto) = false -> userRoles' = userRoles)
  /\ (forall rid, d_roleId dto = Some rid -> ObjectId_isValid rid = false ->
        userRoles' = userRoles)
  /\ (forall rid oid, d_roleId dto = Some rid -> new_ObjectId rid = Ok oid ->
        UserRoleService.findOne_pair userRoles newAdminId oid = None ->
        (newAdminId <> "" ->
         forall t, UserRoleSchema.hasRole t userRoles' newAdminId oid = true)
        /\ (newAdminId = "" -> userRoles' = userRoles)).
Proof.
  apply createAdmin_Ok_inv in H.
  destruct H as [Hfree [sub [-> [Ha [-> Hur]]]]].
  split; [|split; [|split]].
  - intros newRowId2 userRoles2 roleId2. eexists.
    unfold createAdmin. simpl d_email. rewrite Hfree. simpl.
    rewrite <- Ha.
    assert (with_updatedAt now a = a) as -> by (subst a; reflexivity).
    reflexivity.
  - intros Hf. now rewrite Hf in Hur.
  - intros rid Hr Hv. rewrite Hr in Hur. simpl in Hur.
    destruct (String.eqb rid ""); simpl in Hur; [assumption|].
    now rewrite assignRoleToUser_invalid in Hur.
  - intros rid oid Hr Ho Hnone. rewrite Hr in Hur. simpl in Hur.
    assert (String.eqb rid "" = false) as Hne.
    { destruct (String.eqb rid "") eqn:E; [|reflexivity].
      apply String.eqb_eq in E. subst rid. discriminate Ho. }
    rewrite Hne in Hur. simpl in Hur. subst userRoles'.
    unfold assignRoleToUser. rewrite Ho. cbn [bind].
    set (row := UserRoleSchema.mkUserRole newRowId newAdminId oid true None
                  now None None [] None).
    assert (find (fun d =>
              (String.eqb (UserRoleSchema.userId d) newAdminId
               && String.eqb (UserRoleSchema.roleId d) oid
               && UserRoleSchema.isActive d
               && isNone (UserRoleSchema.deletedAt d))%bool) userRoles = None)
      as Hfind.
    { destruct (find _ userRoles) as [d|] eqn:E; [|reflexivity].
      apply find_some in E. destruct E as [Hin E].
      apply andb_prop in E. destruct E as [E _].
      apply andb_prop in E. destruct E as [E _].
      apply andb_prop in E. destruct E as [E1 E2].
      apply String.eqb_eq in E1. apply String.eqb_eq in E2.
      exfalso. eapply findOne_pair_none; eauto. }
    rewrite Hfind. split.
    + intros Hkey t.
      assert (UserRoleSchema.save_new userRoles row
              = Ok (write UserRoleSchema._id userRoles row, row)) as Hs.
      { rewrite save_new_valid; [|exact Hkey|intros s Hs; discriminate Hs].
        apply save_no_other_live. intros x Hx E1 E2. exfalso.
        eapply findOne_pair_none; eauto. }
      rewrite Hs. cbn [bind]. apply hasRole_true_iff. exists row.
      split; [apply In_write_same|]. repeat split.
    + intros ->. reflexivity.
Qed.

End Creation.

Section CreationRuns.
Import AdminUserEntity TeamManagementService Scenario.

Lemma createAdmin_success_witness :
  createAdmin 300 "u-new" "ddddddddddddddddddddddd9" admin_users user_roles
    new_admin_dto (inr (Some "sub-9"))
  = Ok (admin_users
          ++ [mkAdminUser "u-new" "new@example.com" (Some "New") (Some "sub-9")
                ADMIN ACTIVE 300 300],
        user_roles,
        mkAdminUser "u-new" "new@example.com" (Some "New") (Some "sub-9")
          ADMIN ACTIVE 300 300)
  /\ forall now2 newAdminId2 newRowId2 userRoles2 dto2 signup2,
       d_email dto2 = "new@example.com" ->
       createAdmin now2 newAdminId2 newRowId2
         (admin_users
            ++ [mkAdminUser "u-new" "new@example.com" (Some "New")
                  (Some "sub-9") ADMIN ACTIVE 300 300])
         userRoles2 dto2 signup2
       = Throw (ConflictException
                  (MsgString ERROR_MESSAGES.ADMIN_ALREADY_EXISTS)).
Proof.
  split; [reflexivity|].
  destruct (@createAdmin_success 300 "u-new" "ddddddddddddddddddddddd9"
              admin_users _ user_roles _ new_admin_dto (inr (Some "sub-9")) _
              eq_refl) as [_ [_ [_ [_ [_ [_ [_ [_ [H _]]]]]]]]].
  exact H.
Defined.

Lemma createAdmin_role_best_effort_witness :
  createAdmin 300 "u-new" "ddddddddddddddddddddddd9" admin_users user_roles
    (mkCreateAdminDto "new@example.com" (Some "New") None None
       (Some "CCCCCCCCCCCCCCCCCCCCCCCC")) (inr (Some "sub-9"))
  = Ok (admin_users
          ++ [mkAdminUser "u-new" "new@example.com" (Some "New") (Some "sub-9")
                ADMIN ACTIVE 300 300],
        user_roles
          ++ [UserRoleSchema.mkUserRole "ddddddddddddddddddddddd9" "u-new"
                "cccccccccccccccccccccccc" true None 300 None None [] None],
        mkAdminUser "u-new" "new@example.com" (Some "New") (Some "sub-9")
          ADMIN ACTIVE 300 300)
  /\ forall t,
       UserRoleSchema.hasRole t
         (user_roles
            ++ [UserRoleSchema.mkUserRole "ddddddddddddddddddddddd9" "u-new"
                  "cccccccccccccccccccccccc" true None 300 None None [] None])
         "u-new" "cccccccccccccccccccccccc" = true.
Proof.
  split; [reflexivity|].
  destruct (@createAdmin_role_best_effort 300 "u-new"
              "ddddddddddddddddddddddd9" admin_users _ user_roles _
              (mkCreateAdminDto "new@example.com" (Some "New") None None
                 (Some "CCCCCCCCCCCCCCCCCCCCCCCC")) (inr (Some "sub-9")) _
              eq_refl) as [_ [_ [_ H]]].
  apply (H "CCCCCCCCCCCCCCCCCCCCCCCC" "cccccccccccccccccccccccc");
    [reflexivity..|discriminate].
Defined.

End CreationRuns.

(** ** Update of an admin account *)

Section WriteOther.
Variable D : Type.
Variable key : D -> string.

Lemma In_write_other (coll : list D) (d x : D) :
  In x coll -> key x <> key d -> In x (write key coll d).
Proof.
  intros Hin Hne. unfold write.
  destruct (existsb (fun r => String.eqb (key r) (key d)) coll).
  - apply in_map_iff. exists x. split; [|assumption].
    now rewrite (proj2 (String.eqb_neq _ _) Hne).
  - apply in_or_app. now left.
Qed.

End WriteOther.

Section UpdateAdmin.
Import AdminUserEntity TeamManagementService.
Import UserRoleSchema UserRoleService AssignmentStore Revocation.

Lemma option_string_eqb_eq (a b : option string) :
  option_string_eqb a b = true -> a = b.
Proof.
  destruct a, b; simpl; try discriminate; [|reflexivity].
  intros H. apply String.eqb_eq in H. now subst.
Qed.

Lemma same_columns_eq (dto : UpdateAdminDto) (ex : AdminUser) :
  same_columns ex (assign_fields dto ex) = true -> assign_fields dto ex = ex.
Proof.
  unfold same_columns. intros H.
  apply andb_prop in H. destruct H as [H H5].
  apply andb_prop in H. destruct H as [H H4].
  apply andb_prop in H. destruct H as [H _].
  apply andb_prop in H. destruct H as [H1 H2].
  apply String.eqb_eq in H1. apply option_string_eqb_eq in H2.
  apply type_eqb_eq in H4. apply status_eqb_eq in H5.
  unfold assign_fields in *. simpl in *.
  rewrite <- H1, <- H2, <- H4, <- H5. now destruct ex.
Qed.

Lemma save_loaded_Ok_inv (now : Z) (repo repo' : Repository)
  (dto : UpdateAdminDto) (ex a : AdminUser) :
  findOne_id repo (id ex) = Some ex ->
  save_loaded now repo ex (assign_fields dto ex) = Ok (repo', a) ->
  id a = id ex
  /\ email a = match u_email dto with Some e => e | None => email ex end
  /\ name a = match u_name dto with Some n => Some n | None => name ex end
  /\ userSub a = userSub ex
  /\ adminUserType a = match u_adminUserType dto with
                       | Some t => t
                       | None => adminUserType ex
                       end
  /\ adminUserStatus a = match u_adminUserStatus dto with
                         | Some s => s
                         | None => adminUserStatus ex
                         end
  /\ createdAt a = createdAt ex
  /\ findOne_id repo' (id ex) = Some a
  /\ forall j, j <> id ex -> findOne_id repo' j = findOne_id repo j.
Proof.
  intros Hex. unfold save_loaded.
  destruct (same_columns ex (assign_fields dto ex)) eqn:Es.
  - intros H. inversion H; subst. clear H.
    rewrite (same_columns_eq _ _ Es) at 8.
    repeat split; auto.
  - destruct (email_taken repo (assign_fields dto ex)); [discriminate|].
    intros H. inversion H; subst. clear H.
    repeat split; try reflexivity.
    + unfold findOne_id.
      change (id ex)
        with (id (with_updatedAt now (assign_fields dto ex))) at 1.
      apply findById_write_same.
    + intros j Hj. unfold findOne_id. now apply findById_write_other.
Qed.

Lemma save_loaded_Throw (now : Z) (repo : Repository) (ex u : AdminUser)
  (e : Exn) :
  save_loaded now repo ex u = Throw e ->
  update_failure e
  = InternalServerErrorException (MsgString ERROR_MESSAGES.ADMIN_UPDATE_FAILED).
Proof.
  unfold save_loaded. destruct (same_columns ex u); [discriminate|].
  destruct (email_taken repo u); [|discriminate].
  intros H. inversion H. reflexivity.
Qed.

Lemma assignRole_Throw (now : Z) (newId : ObjectId) (coll : Collection)
  (data : AssignData) (e : Exn) :
  assignRole now newId coll data = Throw e ->
  update_failure e
  = InternalServerErrorException (MsgString ERROR_MESSAGES.ADMIN_UPDATE_FAILED).
Proof.
  unfold assignRole, new_ObjectId.
  destruct (ObjectId_isValid (a_roleId data)); cbn [bind].
  - destruct (findOne_pair coll (a_userId data) _) as [ex|].
    + destruct (deletedAt ex); [|discriminate].
      unfold save_reassigned, validate_reason. cbn [reason].
      destruct (Nat.ltb 500 _); cbn [bind];
        [intros H; inversion H; reflexivity|].
      unfold UserRoleSchema.save.
      destruct (breaks_unique_index coll _); [|discriminate].
      intros H. inversion H. reflexivity.
    + unfold save_new, validate_userId, validate_reason. cbn [userId reason].
      destruct (String.eqb (a_userId data) ""); cbn [bind];
        [intros H; inversion H; reflexivity|].
      destruct (option_map trim (a_reason data)) as [s|]; cbn [bind].
      * destruct (Nat.ltb 500 _); cbn [bind];
          [intros H; inversion H; reflexivity|].
        unfold UserRoleSchema.save.
        destruct (breaks_unique_index coll _); [|discriminate].
        intros H. inversion H. reflexivity.
      * unfold UserRoleSchema.save.
        destruct (breaks_unique_index coll _); [|discriminate].
        intros H. inversion H. reflexivity.
  - intros H. inversion H. reflexivity.
Qed.

Lemma revokeAllRoles_None (now : Z) (coll : Collection) (uid : string) :
  revokeAllRoles now coll uid None
  = Ok (fold_left (fun c d => write _id c (revoked now None d))
          (filter (active_live uid) coll) coll,
        map (revoked now None) (filter (active_live uid) coll)).
Proof.
  unfold revokeAllRoles.
  now rewrite (revoke_each_Ok now None (arg := ArgUndefined)).
Qed.

Lemma email_conflict_spec (repo : Repository) (dto : UpdateAdminDto)
  (ex : AdminUser) :
  email_conflict repo dto ex = true <->
  exists e, u_email dto = Some e /\ e <> "" /\ e <> email ex
            /\ findOne_email repo e <> None.
Proof.
  unfold email_conflict. split.
  - intros H. apply andb_prop in H. destruct H as [H H3].
    apply andb_prop in H. destruct H as [H1 H2].
    destruct (u_email dto) as [e|]; [|discriminate]. simpl in *.
    destruct (String.eqb e "") eqn:E; [discriminate|].
    apply String.eqb_neq in E. exists e. repeat split; auto.
    + intros ->. rewrite String.eqb_refl in H2. discriminate.
    + intros Hn. rewrite Hn in H3. discriminate.
  - intros [e [-> [H1 [H2 H3]]]]. simpl.
    apply String.eqb_neq in H1. rewrite H1. simpl.
    apply String.eqb_neq in H2. rewrite H2. simpl.
    now destruct (findOne_email repo e).
Qed.

(** X15.  [updateAdmin] fails only with NotFound, with Conflict or with the
    fixed InternalServerError: NotFound exactly when no account has the id;
    Conflict exactly when the account exists and the request carries a
    non-empty email, other than the account's, that some account holds.
    After either of the two the table and the assignments are as they were
    before the call. *)
Theorem updateAdmin_failures (now : Z) (newRowId : ObjectId)
  (repo : Repository) (userRoles : Collection) (adminId : string)
  (dto : UpdateAdminDto) :
  (forall e, snd (updateAdmin now newRowId repo userRoles adminId dto)
             = Throw e ->
     e = NotFoundException (MsgString ERROR_MESSAGES.ADMIN_NOT_FOUND)
     \/ e = ConflictException (MsgString ERROR_MESSAGES.ADMIN_ALREADY_EXISTS)
     \/ e = InternalServerErrorException
              (MsgString ERROR_MESSAGES.ADMIN_UPDATE_FAILED))
  /\ (snd (updateAdmin now newRowId repo userRoles adminId dto)
      = Throw (NotFoundException (MsgString ERROR_MESSAGES.ADMIN_NOT_FOUND))
      <-> findOne_id repo adminId = None)
  /\ (snd (updateAdmin now newRowId repo userRoles adminId dto)
      = Throw (ConflictException
                 (MsgString ERROR_MESSAGES.ADMIN_ALREADY_EXISTS))
      <-> exists ex e,
            findOne_id repo adminId = Some ex /\ u_email dto = Some e
            /\ e <> "" /\ e <> email ex /\ findOne_email repo e <> None)
  /\ (forall m,
        snd (updateAdmin now newRowId repo userRoles adminId dto)
        = Throw (NotFoundException m)
        \/ snd (updateAdmin now newRowId repo userRoles adminId dto)
           = Throw (ConflictException m) ->
        fst (updateAdmin now newRowId repo userRoles adminId dto)
        = (repo, userRoles)).
Proof.
  unfold updateAdmin.
  destruct (findOne_id repo adminId) as [ex|] eqn:Hex.
  2:{ simpl. split; [|split; [|split]].
      - intros e H. inversion H. now left.
      - split; reflexivity.
      - split; [discriminate|]. intros [ex [e [H _]]]. discriminate.
      - reflexivity. }
  destruct (email_conflict repo dto ex) eqn:Hc.
  { simpl. split; [|split; [|split]].
    - intros e H. inversion H. right. now left.
    - split; discriminate.
    - split; [|reflexivity]. intros _.
      apply email_conflict_spec in Hc. destruct Hc as [e He].
      exists ex, e. split; [reflexivity|exact He].
    - reflexivity. }
  assert (forall ex' e,
            Some ex = Some ex' /\ u_email dto = Some e /\ e <> ""
            /\ e <> email ex' /\ findOne_email repo e <> None -> False)
    as Hnc.
  { intros ex' e [E He]. inversion E; subst ex'.
    assert (email_conflict repo dto ex = true) as Ht
      by (apply email_conflict_spec; eauto).
    congruence. }
  destruct (save_loaded now repo ex (assign_fields dto ex))
    as [[repo' a]|e0] eqn:Hs.
  2:{ simpl. rewrite (save_loaded_Throw _ _ _ _ Hs).
      split; [|split; [|split]].
      - intros e H. inversion H. right. now right.
      - split; discriminate.
      - split; [discriminate|]. intros [ex' [e H]]. exfalso. eauto.
      - intros m [H|H]; discriminate. }
  destruct (u_roleId dto) as [rid|].
  2:{ simpl. split; [|split; [|split]].
      - discriminate.
      - split; discriminate.
      - split; [discriminate|]. intros [ex' [e H]]. exfalso. eauto.
      - intros m [H|H]; discriminate. }
  rewrite revokeAllRoles_None.
  destruct (truthy (Some rid)).
  2:{ simpl. split; [|split; [|split]].
      - discriminate.
      - split; discriminate.
      - split; [discriminate|]. intros [ex' [e H]]. exfalso. eauto.
      - intros m [H|H]; discriminate. }
  destruct (assignRole now newRowId _ _) as [[userRoles2 d2]|e0] eqn:Ha.
  - simpl. split; [|split; [|split]].
    + discriminate.
    + split; discriminate.
    + split; [discriminate|]. intros [ex' [e H]]. exfalso. eauto.
    + intros m [H|H]; discriminate.
  - simpl. rewrite (assignRole_Throw _ _ _ _ Ha).
    split; [|split; [|split]].
    + intros e H. inversion H. right. now right.
    + split; discriminate.
    + split; [discriminate|]. intros [ex' [e H]]. exfalso. eauto.
    + intros m [H|H]; discriminate.
Qed.

Lemma updateAdmin_without_role_inv (now : Z) (newRowId : ObjectId)
  (repo repo' : Repository) (userRoles userRoles' : Collection)
  (adminId : string) (dto : UpdateAdminDto) (a : AdminUser) :
  updateAdmin now newRowId repo userRoles adminId dto
  = ((repo', userRoles'), Ok a) ->
  exists ex,
    findOne_id repo adminId = Some ex /\ id ex = adminId
    /\ email_conflict repo dto ex = false
    /\ save_loaded now repo ex (assign_fields dto ex) = Ok (repo', a)
    /\ match u_roleId dto with
       | None => userRoles' = userRoles
       | Some rid =>
           if truthy (Some rid)
           then exists d2,
                  assignRole now newRowId
                    (fold_left (fun c d => write _id c (revoked now None d))
                       (filter (active_live (id a)) userRoles) userRoles)
                    (mkAssignData (id a) rid None None (Some "Role updated"))
                  = Ok (userRoles', d2)
           else userRoles'
                = fold_left (fun c d => write _id c (revoked now None d))
                    (filter (active_live (id a)) userRoles) userRoles
       end.
Proof.
  unfold updateAdmin.
  destruct (findOne_id repo adminId) as [ex|] eqn:Hex; [|discriminate].
  destruct (email_conflict repo dto ex) eqn:Hc; [discriminate|].
  destruct (save_loaded now repo ex (assign_fields dto ex))
    as [[repo1 a1]|e0] eqn:Hs; [|discriminate].
  intros H. exists ex. split; [reflexivity|].
  split; [now apply findById_key in Hex|]. split; [exact Hc|].
  destruct (u_roleId dto) as [rid|].
  - rewrite revokeAllRoles_None in H.
    destruct (truthy (Some rid)).
    + destruct (assignRole now newRowId _ _) as [[userRoles2 d2]|e0] eqn:Ha;
        [|discriminate].
      inversion H; subst. split; [exact Hs|]. exists d2. exact Ha.
    + inversion H; subst. split; [exact Hs|reflexivity].
  - inversion H; subst. split; [exact Hs|reflexivity].
Qed.

(** X16.  A successful [updateAdmin] returns the account with each of email,
    name, type and status as the request gives it, or as it was when the
    request leaves it out, and with its key, subject and creation date
    unchanged; the table holds the returned account under the id and every
    other account as before; and a request without a role id leaves the
    assignments as they were. *)
Theorem updateAdmin_fields (now : Z) (newRowId : ObjectId)
  (repo repo' : Repository) (userRoles userRoles' : Collection)
  (adminId : string) (dto : UpdateAdminDto) (a : AdminUser)
  (H : updateAdmin now newRowId repo userRoles adminId dto
       = ((repo', userRoles'), Ok a)) :
  exists ex,
    findOne_id repo adminId = Some ex
    /\ id a = adminId
    /\ email a = match u_email dto with Some e => e | None => email ex end
    /\ name a = match u_name dto with Some n => Some n | None => name ex end
    /\ userSub a = userSub ex
    /\ adminUserType a = match u_adminUserType dto with
                         | Some t => t
                         | None => adminUserType ex
                         end
    /\ adminUserStatus a = match u_adminUserStatus dto with
                           | Some s => s
                           | None => adminUserStatus ex
                           end
    /\ createdAt a = createdAt ex
    /\ findOne_id repo' adminId = Some a
    /\ (forall j, j <> adminId -> findOne_id repo' j = findOne_id repo j)
    /\ (u_roleId dto = None -> userRoles' = userRoles).
Proof.
  apply updateAdmin_without_role_inv in H.
  destruct H as [ex [Hex [Hid [_ [Hs Hr]]]]].
  exists ex. split; [exact Hex|].
  assert (findOne_id repo (id ex) = Some ex) as Hex' by now rewrite Hid.
  destruct (@save_loaded_Ok_inv now repo repo' dto ex a Hex' Hs)
    as [H1 [H2 [H3 [H4 [H5 [H6 [H7 [H8 H9]]]]]]]].
  rewrite Hid in *.
  repeat (split; [assumption|]).
  intros E. now rewrite E in Hr.
Qed.

Lemma revoked_rows_of_user (now : Z) (coll : Collection) (uid : string) :
  unique_ids coll ->
  fold_left (fun c d => write _id c (revoked now None d))
    (filter (active_live uid) coll) coll
  = map (fun r => if active_live uid r then revoked now None r else r) coll.
Proof.
  intros Hu. rewrite fold_write_revoked.
  - apply map_ext_in. intros r Hr.
    destruct (active_live uid r) eqn:Ep.
    + assert (existsb (fun x => String.eqb (_id x) (_id r))
                (filter (active_live uid) coll) = true) as ->;
        [|reflexivity].
      apply existsb_exists. exists r. split; [|apply String.eqb_refl].
      apply filter_In. auto.
    + destruct (existsb (fun x => String.eqb (_id x) (_id r))
                  (filter (active_live uid) coll)) eqn:Ex; [|reflexivity].
      exfalso. apply existsb_exists in Ex. destruct Ex as [x [Hx Hk]].
      apply filter_In in Hx. destruct Hx as [Hx Hpx].
      apply String.eqb_eq in Hk.
      assert (x = r) as -> by (apply (unique_key_row _id coll); auto).
      congruence.
  - now apply NoDup_map_filter.
  - exact Hu.
  - intros d Hd. apply filter_In in Hd. tauto.
Qed.

Lemma revoked_rows_not_effective (now t : Z) (coll : Collection)
  (uid : string) (x : UserRole) :
  In x (map (fun r => if active_live uid r then revoked now None r else r)
          coll) ->
  userId x = uid -> effective t x = false.
Proof.
  intros Hx Hu. apply in_map_iff in Hx. destruct Hx as [r [<- Hr]].
  destruct (active_live uid r) eqn:Ea; [reflexivity|].
  now apply not_active_live_not_effective with (uid := uid).
Qed.

(** X17.  [updateAdmin] is not atomic.  When a request without role id
    succeeds, the same request with a role id that is not empty and is no
    ObjectId fails with the fixed InternalServerError, but the table is left
    as the successful request leaves it and every assignment of the account
    has been revoked: the account holds no role at any time. *)
Theorem updateAdmin_not_atomic (now : Z) (newRowId : ObjectId)
  (repo repo' : Repository) (userRoles : Collection) (adminId : string)
  (e n : option string) (ty : option AdminUserType)
  (st : option AdminUserStatus) (a : AdminUser) (rid : string)
  (Hu : unique_ids userRoles)
  (H : updateAdmin now newRowId repo userRoles adminId
         (mkUpdateAdminDto e n ty st None)
       = ((repo', userRoles), Ok a))
  (Hne : rid <> "") (Hinv : ObjectId_isValid rid = false) :
  updateAdmin now newRowId repo userRoles adminId
    (mkUpdateAdminDto e n ty st (Some rid))
  = ((repo',
      map (fun r => if active_live adminId r then revoked now None r else r)
        userRoles),
     Throw (InternalServerErrorException
              (MsgString ERROR_MESSAGES.ADMIN_UPDATE_FAILED)))
  /\ forall t rid',
       UserRoleSchema.hasRole t
         (map (fun r => if active_live adminId r then revoked now None r
                        else r) userRoles) adminId rid' = false.
Proof.
  apply updateAdmin_without_role_inv in H.
  destruct H as [ex [Hex [Hid [Hc [Hs _]]]]].
  assert (findOne_id repo (id ex) = Some ex) as Hex' by now rewrite Hid.
  destruct (@save_loaded_Ok_inv now repo repo' _ ex a Hex' Hs) as [Ha _].
  rewrite Hid in Ha. split.
  - unfold updateAdmin. rewrite Hex.
    change (email_conflict repo (mkUpdateAdminDto e n ty st (Some rid)) ex)
      with (email_conflict repo (mkUpdateAdminDto e n ty st None) ex).
    rewrite Hc.
    change (assign_fields (mkUpdateAdminDto e n ty st (Some rid)) ex)
      with (assign_fields (mkUpdateAdminDto e n ty st None) ex).
    rewrite Hs. simpl u_roleId. rewrite revokeAllRoles_None, Ha.
    rewrite revoked_rows_of_user by assumption.
    simpl truthy. rewrite (proj2 (String.eqb_neq _ _) Hne). simpl negb.
    cbv iota. unfold assignRole, new_ObjectId. simpl a_roleId.
    rewrite Hinv. reflexivity.
  - intros t rid'. apply hasRole_false_intro. intros d Hd Hud _.
    now apply (@revoked_rows_not_effective now t userRoles adminId).
Qed.

Lemma assignRole_Ok_inv (now : Z) (newId : ObjectId) (coll coll' : Collection)
  (data : AssignData) (d : UserRole) :
  assignRole now newId coll data = Ok (coll', d) ->
  exists oid,
    new_ObjectId (a_roleId data) = Ok oid
    /\ userId d = a_userId data /\ roleId d = oid
    /\ ((coll' = coll /\ In d coll /\ deletedAt d = None)
        \/ (coll' = write _id coll d /\ isActive d = true
            /\ deletedAt d = None
            /\ ((exists ex, In ex coll /\ userId ex = a_userId data
                            /\ _id d = _id ex
                            /\ expiresAt d = expiresAt ex)
                \/ (_id d = newId /\ expiresAt d = None)))).
Proof.
  unfold assignRole.
  destruct (new_ObjectId (a_roleId data)) as [oid|e]; [|discriminate].
  cbn [bind]. intros H. exists oid. split; [reflexivity|].
  destruct (findOne_pair coll (a_userId data) oid) as [ex|] eqn:Hf.
  - apply findOne_pair_found in Hf. destruct Hf as [Hin [Hu Hr]].
    destruct (deletedAt ex) eqn:Hd.
    + apply save_reassigned_Ok in H. destruct H as [_ [-> [-> _]]]. simpl.
      split; [assumption|]. split; [assumption|]. right.
      repeat split. left. exists ex. repeat split; auto.
    + inversion H; subst. split; [assumption|]. split; [reflexivity|].
      left. auto.
  - apply save_new_Ok in H. destruct H as [_ [-> [-> _]]]. simpl.
    split; [reflexivity|]. split; [reflexivity|]. right.
    repeat split. right. split; reflexivity.
Qed.

Lemma updateAdmin_roles_shape (now : Z) (newRowId : ObjectId)
  (repo repo' : Repository) (userRoles userRoles' : Collection)
  (adminId : string) (dto : UpdateAdminDto) (a : AdminUser) (rid : string) :
  unique_ids userRoles ->
  (forall d, In d userRoles -> userId d = adminId ->
     (isActive d = false -> deletedAt d <> None) /\ expiresAt d = None) ->
  u_roleId dto = Some rid ->
  updateAdmin now newRowId repo userRoles adminId dto
  = ((repo', userRoles'), Ok a) ->
  exists coll1,
    coll1 = map (fun r => if active_live adminId r then revoked now None r
                          else r) userRoles
    /\ (forall x t, In x coll1 -> userId x = adminId -> effective t x = false)
    /\ (forall x, In x coll1 ->
          exists r, In r userRoles /\ _id r = _id x /\ userId r = userId x
                    /\ (userId r <> adminId -> x = r))
    /\ (forall r, In r userRoles -> userId r <> adminId -> In r coll1)
    /\ (rid = "" -> userRoles' = coll1)
    /\ (rid <> "" ->
        exists oid d2,
          new_ObjectId rid = Ok oid
          /\ userRoles' = write _id coll1 d2
          /\ userId d2 = adminId /\ roleId d2 = oid
          /\ (forall t, effective t d2 = true)
          /\ ((exists x, In x coll1 /\ userId x = adminId /\ _id d2 = _id x)
              \/ _id d2 = newRowId)).
Proof.
  intros Hu Hrows Hr H.
  apply updateAdmin_without_role_inv in H.
  destruct H as [ex [Hex [Hid [_ [Hs Hroles]]]]].
  assert (findOne_id repo (id ex) = Some ex) as Hex' by now rewrite Hid.
  destruct (@save_loaded_Ok_inv now repo repo' _ ex a Hex' Hs) as [Ha _].
  rewrite Hid in Ha. rewrite Hr, Ha in Hroles.
  rewrite revoked_rows_of_user in Hroles by assumption.
  set (g := fun r => if active_live adminId r then revoked now None r else r)
    in *.
  exists (map g userRoles). split; [reflexivity|].
  assert (forall r, userId (g r) = userId r /\ _id (g r) = _id r
                    /\ expiresAt (g r) = expiresAt r) as Hg.
  { intros r. unfold g. now destruct (active_live adminId r). }
  assert (forall r, userId r <> adminId -> g r = r) as Hgo.
  { intros r Hne. unfold g, active_live.
    now rewrite (proj2 (String.eqb_neq _ _) Hne). }
  assert (forall x, In x (map g userRoles) -> userId x = adminId ->
            deletedAt x <> None /\ expiresAt x = None) as HA.
  { intros x Hx Hux. apply in_map_iff in Hx. destruct Hx as [r [<- Hin]].
    destruct (Hg r) as [E1 [_ E3]]. rewrite E1 in Hux.
    destruct (Hrows r Hin Hux) as [Hc He]. split; [|congruence].
    unfold g. destruct (active_live adminId r) eqn:Ea; [discriminate|].
    unfold active_live in Ea. rewrite Hux, String.eqb_refl in Ea.
    simpl in Ea. destruct (isActive r); [|now apply Hc].
    simpl in Ea. now destruct (deletedAt r). }
  split; [|split; [|split; [|split]]].
  - intros x t Hx Hux.
    now apply (@revoked_rows_not_effective now t userRoles adminId).
  - intros x Hx. apply in_map_iff in Hx. destruct Hx as [r [<- Hin]].
    destruct (Hg r) as [G1 [G2 _]]. exists r.
    split; [assumption|]. split; [congruence|]. split; [congruence|].
    intros Hne. now apply Hgo.
  - intros r Hin Hne. apply in_map_iff. exists r. split; [|assumption].
    now apply Hgo.
  - intros ->. simpl in Hroles. exact Hroles.
  - intros Hne. simpl in Hroles.
    rewrite (proj2 (String.eqb_neq _ _) Hne) in Hroles. simpl in Hroles.
    destruct Hroles as [d2 Has].
    apply assignRole_Ok_inv in Has. simpl in Has.
    destruct Has as [oid [Ho [Hu2 [Hr2 [[_ [Hin Hdel]]|Hw]]]]].
    { exfalso. now apply (HA d2 Hin Hu2). }
    destruct Hw as [-> [Hact [Hdel Hcase]]].
    exists oid, d2. repeat (split; [assumption || reflexivity|]).
    split.
    + intros t. unfold effective. rewrite Hact, Hdel.
      destruct Hcase as [[x [Hx [Hux [_ He]]]]|[_ He]].
      * rewrite He.
        now rewrite (proj2 (HA x Hx Hux)).
      * now rewrite He.
    + destruct Hcase as [[x [Hx [Hux [Hk _]]]]|[Hk _]]; [left|now right].
      exists x. auto.
Qed.

(** X18.  A successful [updateAdmin] with a role id replaces the roles of the
    account.  In a collection with one document per id, whose rows of the
    account carry no expiry and are soft-deleted whenever they are inactive,
    and with a new key for the row that may be created: with a non-empty role
    id the account holds, at every time, that role and no other; with the
    empty role id it holds none; and in both cases every other user holds
    exactly the roles held before. *)
Theorem updateAdmin_replaces_roles (now : Z) (newRowId : ObjectId)
  (repo repo' : Repository) (userRoles userRoles' : Collection)
  (adminId : string) (dto : UpdateAdminDto) (a : AdminUser) (rid : string)
  (Hu : unique_ids userRoles)
  (Hrows : forall d, In d userRoles -> userId d = adminId ->
             (isActive d = false -> deletedAt d <> None)
             /\ expiresAt d = None)
  (Hfresh : ~ In newRowId (map _id userRoles))
  (Hr : u_roleId dto = Some rid)
  (H : updateAdmin now newRowId repo userRoles adminId dto
       = ((repo', userRoles'), Ok a)) :
  (rid = "" ->
   forall t rid', UserRoleSchema.hasRole t userRoles' adminId rid' = false)
  /\ (rid <> "" ->
      exists oid,
        new_ObjectId rid = Ok oid
        /\ forall t rid',
             UserRoleSchema.hasRole t userRoles' adminId rid' = true
             <-> rid' = oid)
  /\ (forall uid t rid', uid <> adminId ->
        UserRoleSchema.hasRole t userRoles' uid rid'
        = UserRoleSchema.hasRole t userRoles uid rid').
Proof.
  destruct (@updateAdmin_roles_shape now newRowId repo repo' userRoles
              userRoles' adminId dto a rid Hu Hrows Hr H)
    as [coll1 [_ [Hoff [Hfrom [Hto [He Hn]]]]]].
  assert (forall uid t rid', uid <> adminId ->
            UserRoleSchema.hasRole t coll1 uid rid'
            = UserRoleSchema.hasRole t userRoles uid rid') as Hothers.
  { intros uid t rid' Hne. apply Bool.eq_true_iff_eq.
    rewrite !hasRole_true_iff. split.
    - intros [d [Hd [E1 [E2 E3]]]].
      destruct (Hfrom d Hd) as [r [Hin [_ [Eu Hsame]]]].
      assert (d = r) as -> by (apply Hsame; congruence).
      exists r. repeat split; assumption.
    - intros [d [Hd [E1 [E2 E3]]]]. exists d. repeat split; auto.
      apply Hto; [assumption|congruence]. }
  split; [|split].
  - intros E t rid'. rewrite (He E). apply hasRole_false_intro.
    intros d Hd Hud _. now apply Hoff.
  - intros Hne. destruct (Hn Hne) as [oid [d2 [Ho [-> [Hu2 [Hr2 [Heff _]]]]]]].
    exists oid. split; [exact Ho|]. intros t rid'.
    rewrite hasRole_true_iff. split.
    + intros [d [Hd [E1 [E2 E3]]]]. apply In_write in Hd.
      destruct Hd as [->|[Hd _]]; [congruence|].
      rewrite (Hoff d t Hd E1) in E3. discriminate.
    + intros ->. exists d2. split; [apply In_write_same|]. auto.
  - intros uid t rid' Hne. rewrite <- (Hothers uid t rid' Hne).
    destruct (String.eqb rid "") eqn:Erid.
    + apply String.eqb_eq in Erid. now rewrite (He Erid).
    + apply String.eqb_neq in Erid.
      destruct (Hn Erid) as [oid [d2 [_ [-> [Hu2 [_ [_ Hcase]]]]]]].
      apply Bool.eq_true_iff_eq. rewrite !hasRole_true_iff. split.
      * intros [d [Hd [E1 [E2 E3]]]]. apply In_write in Hd.
        destruct Hd as [->|[Hd _]]; [congruence|]. exists d. auto.
      * intros [d [Hd [E1 [E2 E3]]]]. exists d. repeat split; auto.
        apply In_write_other; [assumption|].
        destruct (Hfrom d Hd) as [r [Hin [Ek [Eu Hsame]]]].
        assert (d = r) as -> by (apply Hsame; congruence).
        intros E. destruct Hcase as [[x [Hx [Hux Hk]]]|Hk].
        -- destruct (Hfrom x Hx) as [r0 [Hin0 [Ek0 [Eu0 _]]]].
           assert (r = r0) as ->.
           { apply (unique_key_row _id userRoles); auto. congruence. }
           congruence.
        -- apply Hfresh. rewrite <- Hk, <- E. now apply in_map.
Qed.

End UpdateAdmin.

Section UpdateAdminRuns.
Import AdminUserEntity TeamManagementService Scenario.
Import UserRoleSchema UserRoleService AssignmentStore Revocation.

Lemma admin_roles_unique_ids : unique_ids admin_roles.
Proof.
  unfold unique_ids. simpl.
  repeat constructor; simpl; intuition discriminate.
Qed.

Lemma updateAdmin_fields_witness :
  updateAdmin 400 "eeeeeeeeeeeeeeeeeeeeeee9" admin_users admin_roles "u-staff"
    (rename_staff None)
  = (([boss; staff_renamed; idle], admin_roles), Ok staff_renamed)
  /\ exists ex,
       findOne_id admin_users "u-staff" = Some ex
       /\ id staff_renamed = "u-staff"
       /\ email staff_renamed = email ex
       /\ name staff_renamed = Some "Staff Two"
       /\ userSub staff_renamed = userSub ex
       /\ adminUserType staff_renamed = adminUserType ex
       /\ adminUserStatus staff_renamed = adminUserStatus ex
       /\ createdAt staff_renamed = createdAt ex
       /\ findOne_id [boss; staff_renamed; idle] "u-staff" = Some staff_renamed
       /\ (forall j, j <> "u-staff" ->
             findOne_id [boss; staff_renamed; idle] j
             = findOne_id admin_users j)
       /\ (u_roleId (rename_staff None) = None -> admin_roles = admin_roles).
Proof.
  split; [reflexivity|].
  exact (@updateAdmin_fields 400 "eeeeeeeeeeeeeeeeeeeeeee9" admin_users
           [boss; staff_renamed; idle] admin_roles admin_roles "u-staff"
           (rename_staff None) staff_renamed eq_refl).
Defined.

Lemma updateAdmin_not_atomic_witness :
  updateAdmin 400 "eeeeeeeeeeeeeeeeeeeeeee9" admin_users admin_roles "u-staff"
    (rename_staff (Some "not-an-id"))
  = (([boss; staff_renamed; idle],
      [revoked 400 None staff_support; staff_member_revoked; boss_owner]),
     Throw (InternalServerErrorException
              (MsgString ERROR_MESSAGES.ADMIN_UPDATE_FAILED)))
  /\ forall t rid',
       UserRoleSchema.hasRole t
         [revoked 400 None staff_support; staff_member_revoked; boss_owner]
         "u-staff" rid' = false.
Proof.
  apply (@updateAdmin_not_atomic 400 "eeeeeeeeeeeeeeeeeeeeeee9" admin_users
           [boss; staff_renamed; idle] admin_roles "u-staff" None
           (Some "Staff Two") None None staff_renamed "not-an-id").
  - exact admin_roles_unique_ids.
  - reflexivity.
  - discriminate.
  - reflexivity.
Defined.

Lemma admin_roles_of_staff (d : UserRole) :
  In d admin_roles -> userId d = "u-staff" ->
  (isActive d = false -> deletedAt d <> None) /\ expiresAt d = None.
Proof.
  simpl. intros [<-|[<-|[<-|[]]]] _; (split; [|reflexivity]);
    simpl; intros E; discriminate.
Qed.

Lemma updateAdmin_replaces_roles_witness :
  updateAdmin 400 "eeeeeeeeeeeeeeeeeeeeeee9" admin_users admin_roles "u-staff"
    (rename_staff (Some "CCCCCCCCCCCCCCCCCCCCCCC1"))
  = (([boss; staff_renamed; idle],
      [revoked 400 None staff_support;
       mkUserRole "eeeeeeeeeeeeeeeeeeeeeee2" "u-staff"
         "ccccccccccccccccccccccc1" true None 45 (Some "Role updated") None
         [] None;
       boss_owner]),
     Ok staff_renamed)
  /\ (forall t rid',
        UserRoleSchema.hasRole t
          [revoked 400 None staff_support;
           mkUserRole "eeeeeeeeeeeeeeeeeeeeeee2" "u-staff"
             "ccccccccccccccccccccccc1" true None 45 (Some "Role updated")
             None [] None;
           boss_owner] "u-staff" rid' = true
        <-> rid' = "ccccccccccccccccccccccc1")
  /\ (forall t rid',
        UserRoleSchema.hasRole t
          [revoked 400 None staff_support;
           mkUserRole "eeeeeeeeeeeeeeeeeeeeeee2" "u-staff"
             "ccccccccccccccccccccccc1" true None 45 (Some "Role updated")
             None [] None;
           boss_owner] "u-boss" rid'
        = UserRoleSchema.hasRole t admin_roles "u-boss" rid').
Proof.
  split; [reflexivity|].
  destruct (@updateAdmin_replaces_roles 400 "eeeeeeeeeeeeeeeeeeeeeee9"
              admin_users [boss; staff_renamed; idle] admin_roles
              [revoked 400 None staff_support;
               mkUserRole "eeeeeeeeeeeeeeeeeeeeeee2" "u-staff"
                 "ccccccccccccccccccccccc1" true None 45 (Some "Role updated")
                 None [] None;
               boss_owner]
              "u-staff" (rename_staff (Some "CCCCCCCCCCCCCCCCCCCCCCC1"))
              staff_renamed "CCCCCCCCCCCCCCCCCCCCCCC1"
              admin_roles_unique_ids admin_roles_of_staff)
    as [_ [H2 H3]]; try reflexivity.
  - simpl. intuition discriminate.
  - split.
    + destruct H2 as [oid [Ho H2]]; [discriminate|].
      inversion Ho; subst oid. exact H2.
    + intros t rid'. apply H3. discriminate.
Defined.

End UpdateAdminRuns.

(** ** The pages of [findAll] *)

Section Pages.
Import AdminUserEntity TeamManagementService.

Lemma firstn_add_skipn (A : Type) (a b : nat) (l : list A) :
  firstn (a + b) l = firstn a l ++ firstn b (skipn a l).
Proof.
  revert l. induction a as [|a IH]; intros l; simpl; [reflexivity|].
  destruct l as [|x l]; simpl.
  - now rewrite firstn_nil.
  - now rewrite IH.
Qed.

Lemma In_firstn_In (A : Type) (k : nat) (l : list A) (x : A) :
  In x (firstn k l) -> In x l.
Proof.
  intros H. rewrite <- (firstn_skipn k l). apply in_or_app. now left.
Qed.

Lemma In_skipn_In (A : Type) (k : nat) (l : list A) (x : A) :
  In x (skipn k l) -> In x l.
Proof.
  intros H. rewrite <- (firstn_skipn k l). apply in_or_app. now right.
Qed.

Lemma concat_chunks (A : Type) (k n : nat) (l : list A) :
  List.concat (map (fun i => firstn k (skipn (i * k) l)) (seq 0 n))
  = firstn (n * k) l.
Proof.
  induction n as [|n IH]; [reflexivity|].
  rewrite seq_S, map_app, concat_app, IH. simpl. rewrite app_nil_r.
  rewrite Nat.add_comm. symmetry. apply firstn_add_skipn.
Qed.

Lemma ceil_div_bounds (total pageSize : Z) :
  0 < pageSize ->
  (ceil_div total pageSize - 1) * pageSize < total
  <= ceil_div total pageSize * pageSize.
Proof.
  intros Hp. unfold ceil_div.
  pose proof (Z.div_mod (- total) pageSize ltac:(lia)) as E.
  pose proof (Z.mod_pos_bound (- total) pageSize Hp) as B.
  nia.
Qed.

Lemma Permutation_filter_same (A : Type) (f : A -> bool) (l l' : list A) :
  Permutation l l' -> Permutation (filter f l) (filter f l').
Proof.
  intros H. induction H as [|x l l' H IH|x y l|l l' l'' H1 IH1 H2 IH2]; simpl.
  - constructor.
  - destruct (f x); [now constructor|assumption].
  - destruct (f x), (f y); try apply Permutation_refl. apply perm_swap.
  - now apply Permutation_trans with (filter f l').
Qed.

(** Rows of distinct [createdAt] have one arrangement in non-increasing
    order of [createdAt]. *)
Lemma sorted_arrangement_unique (l1 l2 : list AdminUser) :
  StronglySorted (fun a b => createdAt b <= createdAt a) l1 ->
  StronglySorted (fun a b => createdAt b <= createdAt a) l2 ->
  Permutation l1 l2 -> NoDup (map createdAt l1) -> l1 = l2.
Proof.
  revert l2. induction l1 as [|a l1 IH]; intros l2 H1 H2 Hp Hnd.
  - apply Permutation_nil in Hp. now subst.
  - destruct l2 as [|b l2].
    + apply Permutation_sym, Permutation_nil in Hp. discriminate.
    + inversion H1 as [|? ? H1' F1]; subst.
      inversion H2 as [|? ? H2' F2]; subst.
      inversion Hnd as [|? ? Hnot Hnd']; subst.
      assert (a = b) as ->.
      { assert (In a (b :: l2)) as Ha
          by (apply (Permutation_in _ Hp); now left).
        assert (In b (a :: l1)) as Hb
          by (apply (Permutation_in _ (Permutation_sym Hp)); now left).
        destruct Ha as [Ha|Ha]; [now symmetry|].
        destruct Hb as [Hb|Hb]; [assumption|].
        exfalso. rewrite Forall_forall in F1, F2.
        pose proof (F1 b Hb) as L1. pose proof (F2 a Ha) as L2.
        apply Hnot. replace (createdAt a) with (createdAt b) by lia.
        now apply in_map. }
      f_equal. apply IH; try assumption.
      now apply Permutation_cons_inv with (a := b).
Qed.

(** With distinct [createdAt] among the rows that match, the rows in the
    order of the query do not depend on how the query meets the table. *)
Lemma ordered_rows_of_scan (repo scan : Repository) (f : AdminUser -> bool) :
  Permutation scan repo ->
  NoDup (map createdAt (filter f repo)) ->
  sort_by (fun a b => createdAt b <? createdAt a) (filter f scan)
  = sort_by (fun a b => createdAt b <? createdAt a) (filter f repo).
Proof.
  intros Hp Hnd.
  assert (Permutation (filter f scan) (filter f repo)) as Hf
    by now apply Permutation_filter_same.
  apply sorted_arrangement_unique.
  - apply sort_by_desc.
  - apply sort_by_desc.
  - eapply Permutation_trans; [apply Permutation_sym, sort_by_perm|].
    eapply Permutation_trans; [exact Hf|apply sort_by_perm].
  - apply Permutation_NoDup with (l := map createdAt (filter f repo));
      [|assumption].
    apply Permutation_map.
    eapply Permutation_trans; [apply Permutation_sym, Hf|apply sort_by_perm].
Qed.

(** X19.  For a page size and a page number from 1, and however the query
    meets the table, [findAll] returns at most [pageSize] accounts, in
    non-increasing order of creation, all of them stored and of a requested
    status when statuses are requested; [total] counts every such account
    whatever the page, and [totalPages] is the least number of pages of that
    size that hold [total] rows.  When the matching accounts have distinct
    creation dates, a page is the same however its query meets the table,
    and the pages 1 to [totalPages], each from a query of its own, are one
    after the other the matching accounts, each exactly once, newest first;
    every later page is empty.  The [role] of the query has no effect. *)
Theorem findAll_pages (repo : Repository) (p n : Z) (role : option string)
  (statuses : option (list AdminUserStatus))
  (scan : Repository) (scans : nat -> Repository)
  (Hp : 1 <= p) (Hn : 1 <= n)
  (Hscan : Permutation scan repo)
  (Hscans : forall i, Permutation (scans i) repo) :
  let result := findAll scan (mkQueryUsersDto (Some p) (Some n) role statuses) in
  let rows := sort_by (fun a b => createdAt b <? createdAt a)
                (filter (where_status statuses) repo) in
  (List.length (data result) <= Z.to_nat n)%nat
  /\ StronglySorted (fun a b => createdAt b <= createdAt a) (data result)
  /\ (forall u, In u (data result) ->
        In u repo
        /\ forall s l, statuses = Some (s :: l) ->
             In (adminUserStatus u) (s :: l))
  /\ total result = Z.of_nat (List.length (filter (where_status statuses) repo))
  /\ (totalPages result - 1) * n < total result <= totalPages result * n
  /\ findAll scan (mkQueryUsersDto (Some p) (Some n) None statuses) = result
  /\ Permutation rows (filter (where_status statuses) repo)
  /\ (NoDup (map createdAt (filter (where_status statuses) repo)) ->
      data result = firstn (Z.to_nat n) (skipn (Z.to_nat ((p - 1) * n)) rows)
      /\ List.concat
           (map (fun i =>
                   data (findAll (scans i)
                           (mkQueryUsersDto (Some (Z.of_nat i)) (Some n) role
                              statuses)))
              (seq 1 (Z.to_nat (totalPages result))))
         = rows
      /\ (totalPages result < p -> data result = [])).
Proof.
  intros result rows.
  set (mine := sort_by (fun a b => createdAt b <? createdAt a)
                 (filter (where_status statuses) scan)).
  assert (Permutation (filter (where_status statuses) scan)
            (filter (where_status statuses) repo)) as Hf
    by now apply Permutation_filter_same.
  assert (total result = Z.of_nat (List.length mine)) as Ht by reflexivity.
  assert (List.length mine
          = List.length (filter (where_status statuses) repo)) as Hl.
  { unfold mine. rewrite <- (Permutation_length (sort_by_perm _ _)).
    now apply Permutation_length. }
  assert (StronglySorted (fun a b => createdAt b <= createdAt a) mine) as Hs.
  { apply sort_by_desc. }
  assert (data result
          = firstn (Z.to_nat n) (skipn (Z.to_nat ((p - 1) * n)) mine)) as Hd
    by reflexivity.
  pose proof (@ceil_div_bounds (total result) n ltac:(lia)) as Hc.
  change (ceil_div (total result) n) with (totalPages result) in Hc.
  split; [rewrite Hd; apply firstn_le_length|].
  split.
  { rewrite Hd. clear - Hs.
    assert (forall (l : list AdminUser) k,
              StronglySorted (fun a b => createdAt b <= createdAt a) l ->
              StronglySorted (fun a b => createdAt b <= createdAt a)
                (skipn k l)) as Hsk.
    { intros l k H. revert k. induction H as [|x l H IH Hall]; intros k.
      - rewrite skipn_nil. constructor.
      - destruct k; simpl; [now constructor|apply IH]. }
    assert (forall (l : list AdminUser) k,
              StronglySorted (fun a b => createdAt b <= createdAt a) l ->
              StronglySorted (fun a b => createdAt b <= createdAt a)
                (firstn k l)) as Hfi.
    { intros l k H. revert k. induction H as [|x l H IH Hall]; intros k.
      - rewrite firstn_nil. constructor.
      - destruct k; simpl; constructor; [apply IH|].
        rewrite Forall_forall in *. intros y Hy. apply Hall.
        revert Hy. apply In_firstn_In. }
    apply Hfi, Hsk, Hs. }
  split.
  { intros u Hu. rewrite Hd in Hu.
    assert (In u mine) as Hr.
    { eapply In_skipn_In, In_firstn_In, Hu. }
    apply In_sort_by, filter_In in Hr. destruct Hr as [Hin Hw].
    split; [exact (Permutation_in _ Hscan Hin)|]. intros s l ->. simpl in Hw.
    apply orb_prop in Hw. destruct Hw as [Hw|Hw].
    - left. symmetry. now apply status_eqb_eq.
    - right. apply existsb_exists in Hw. destruct Hw as [x [Hx E]].
      apply status_eqb_eq in E. now rewrite E. }
  split; [now rewrite Ht, Hl|].
  split; [exact Hc|].
  split; [reflexivity|].
  split; [apply Permutation_sym, sort_by_perm|].
  intros Hnd.
  assert (mine = rows) as Hmine by now apply ordered_rows_of_scan.
  assert (total result = Z.of_nat (List.length rows)) as Ht'
    by now rewrite <- Hmine.
  split; [now rewrite <- Hmine|]. split.
  { rewrite <- seq_shift, map_map.
    transitivity
      (List.concat (map (fun i => firstn (Z.to_nat n)
                               (skipn (i * Z.to_nat n) rows))
                 (seq 0 (Z.to_nat (totalPages result))))).
    - f_equal. apply map_ext. intros i.
      change (data (findAll (scans (S i))
                      (mkQueryUsersDto (Some (Z.of_nat (S i))) (Some n) role
                         statuses)))
        with (firstn (Z.to_nat n)
                (skipn (Z.to_nat ((Z.of_nat (S i) - 1) * n))
                   (sort_by (fun a b => createdAt b <? createdAt a)
                      (filter (where_status statuses) (scans (S i)))))).
      rewrite (ordered_rows_of_scan (where_status statuses) (Hscans (S i)) Hnd).
      f_equal. f_equal.
      replace (Z.of_nat (S i) - 1) with (Z.of_nat i) by lia.
      rewrite Z2Nat.inj_mul by lia. now rewrite Nat2Z.id.
    - rewrite concat_chunks. apply firstn_all2.
      apply Nat2Z.inj_le. rewrite Nat2Z.inj_mul, !Z2Nat.id by lia.
      rewrite <- Ht'. lia. }
  intros Hlt. rewrite Hd, Hmine. rewrite skipn_all2; [apply firstn_nil|].
  apply Nat2Z.inj_le. rewrite Z2Nat.id by nia. rewrite <- Ht'. nia.
Qed.

End Pages.

Section PagesRuns.
Import AdminUserEntity TeamManagementService Scenario.

(** X19 on [Scenario], the three accounts of which have distinct creation
    dates: the first page from a query that meets the table in storage
    order, the second from one that meets it in reverse. *)
Lemma findAll_pages_witness :
  data (findAll admin_users (mkQueryUsersDto (Some 1) (Some 2) None None))
  = [idle; staff]
  /\ data (findAll [idle; staff; boss]
             (mkQueryUsersDto (Some 2) (Some 2) None None))
     = [boss]
  /\ totalPages
       (findAll admin_users (mkQueryUsersDto (Some 1) (Some 2) None None)) = 2
  /\ List.concat
       (map (fun i =>
               data (findAll
                       (if Nat.even i then [idle; staff; boss] else admin_users)
                       (mkQueryUsersDto (Some (Z.of_nat i)) (Some 2) None
                          None)))
          (seq 1 2))
     = [idle; staff; boss].
Proof.
  split; [reflexivity|]. split; [reflexivity|]. split; [reflexivity|].
  assert (Permutation [idle; staff; boss] admin_users) as Hrev.
  { apply Permutation_sym. unfold admin_users.
    apply (Permutation_rev [boss; staff; idle]). }
  destruct (@findAll_pages admin_users 1 2 None None admin_users
              (fun i => if Nat.even i then [idle; staff; boss]
                        else admin_users)
              ltac:(lia) ltac:(lia) (Permutation_refl _)
              (fun i => match Nat.even i as b
                              return Permutation
                                       (if b then [idle; staff; boss]
                                        else admin_users) admin_users
                        with
                        | true => Hrev
                        | false => Permutation_refl _
                        end))
    as [_ [_ [_ [_ [_ [_ [_ H]]]]]]].
  apply H. simpl. repeat constructor; simpl; intuition discriminate.
Defined.

(** The hypothesis on the creation dates is needed.  Two accounts created
    at the same instant, pages of one row: a query that meets [staff] first
    and a query that meets [idle] first both return their first row, so an
    account is on both pages and the other on none. *)
Example findAll_pages_equal_dates :
  let twin := mkAdminUser "u-twin" "twin@example.com" None None ADMIN ACTIVE
                20 20 in
  data (findAll [staff; twin] (mkQueryUsersDto (Some 1) (Some 1) None None))
  = [staff]
  /\ data (findAll [twin; staff] (mkQueryUsersDto (Some 2) (Some 1) None None))
     = [staff].
Proof. split; reflexivity. Qed.

End PagesRuns.

(** ** The role in the response to an update *)

Section UpdateResponse.
Import AdminUserEntity TeamManagementService.
Import UserRoleSchema UserRoleService AssignmentStore Revocation.

Lemma first_role_single (now : Z) (roles : RoleSchema.Collection)
  (coll : Collection) (uid : string) (d2 : UserRole) :
  In d2 coll -> userId d2 = uid -> effective now d2 = true ->
  (forall x, In x coll -> userId x = uid -> effective now x = true -> x = d2) ->
  TeamManagementController.first_role (getUserRoles now roles coll uid)
  = match findById RoleSchema._id roles (roleId d2) with
    | Some r => TeamManagementController.RoleDoc (RoleSchema.unpopulated r)
    | None => TeamManagementController.RoleNull
    end.
Proof.
  intros Hin Hu He Hall. unfold getUserRoles, getActiveUserRoles.
  destruct (filter (fun d => (String.eqb (userId d) uid && effective now d)%bool)
              coll) as [|x l] eqn:Ef.
  - exfalso.
    assert (In d2 (filter (fun d => (String.eqb (userId d) uid
                                     && effective now d)%bool) coll)) as Hd.
    { apply filter_In. split; [assumption|].
      now rewrite Hu, String.eqb_refl, He. }
    rewrite Ef in Hd. destruct Hd.
  - assert (In x (filter (fun d => (String.eqb (userId d) uid
                                    && effective now d)%bool) coll)) as Hx
      by (rewrite Ef; now left).
    apply filter_In in Hx. destruct Hx as [Hx Hf].
    apply andb_prop in Hf. destruct Hf as [Hf1 Hf2].
    apply String.eqb_eq in Hf1.
    rewrite (Hall x Hx Hf1 Hf2). simpl.
    now destruct (findById RoleSchema._id roles (roleId d2)).
Qed.

Lemma first_role_none (now : Z) (roles : RoleSchema.Collection)
  (coll : Collection) (uid : string) :
  (forall x, In x coll -> userId x = uid -> effective now x = false) ->
  TeamManagementController.first_role (getUserRoles now roles coll uid)
  = TeamManagementController.RoleNull.
Proof.
  intros Hall. unfold getUserRoles, getActiveUserRoles.
  rewrite filter_nil_intro; [reflexivity|].
  intros x Hx. destruct (String.eqb (userId x) uid) eqn:E; [|reflexivity].
  apply String.eqb_eq in E. now rewrite (Hall x Hx E).
Qed.

(** X20.  The response of the controller to a successful update carries, at
    [role], the role of the first active assignment of the account after the
    update.  In a collection with one document per id, whose rows of the
    account carry no expiry and are soft-deleted whenever they are inactive:
    after an update with a non-empty role id it is the stored role of that
    id, and [null] when no role is stored under the id, although the
    assignment was made; after an update with the empty role id it is
    [null]; and a failure of the service is passed on with the stores as the
    service left them. *)
Theorem updateAdmin_response_role (now now' : Z) (newRowId : ObjectId)
  (roles : RoleSchema.Collection) (repo : Repository) (userRoles : Collection)
  (adminId : string) (dto : UpdateAdminDto)
  (Hu : unique_ids userRoles)
  (Hrows : forall d, In d userRoles -> userId d = adminId ->
             (isActive d = false -> deletedAt d <> None)
             /\ expiresAt d = None) :
  (forall stores e,
     updateAdmin now newRowId repo userRoles adminId dto = (stores, Throw e) ->
     TeamManagementController.updateAdmin now now' newRowId roles repo
       userRoles adminId dto = (stores, Throw e))
  /\ (forall repo' userRoles' admin,
        updateAdmin now newRowId repo userRoles adminId dto
        = ((repo', userRoles'), Ok admin) ->
        exists role,
          TeamManagementController.updateAdmin now now' newRowId roles repo
            userRoles adminId dto
          = ((repo', userRoles'), Ok (admin, role))
          /\ (u_roleId dto = Some "" ->
              role = TeamManagementController.RoleNull)
          /\ (forall rid, u_roleId dto = Some rid -> rid <> "" ->
                exists oid,
                  new_ObjectId rid = Ok oid
                  /\ UserRoleSchema.hasRole now' userRoles' adminId oid = true
                  /\ role
                     = match findById RoleSchema._id roles oid with
                       | Some r =>
                           TeamManagementController.RoleDoc
                             (RoleSchema.unpopulated r)
                       | None => TeamManagementController.RoleNull
                       end)).
Proof.
  split.
  - intros stores e H. unfold TeamManagementController.updateAdmin.
    now rewrite H.
  - intros repo' userRoles' admin H.
    exists (TeamManagementController.first_role
              (getUserRoles now' roles userRoles' adminId)).
    split; [unfold TeamManagementController.updateAdmin; now rewrite H|].
    split.
    + intros Hr.
      destruct (@updateAdmin_roles_shape now newRowId repo repo' userRoles
                  userRoles' adminId dto admin "" Hu Hrows Hr H)
        as [coll1 [_ [Hoff [_ [_ [He _]]]]]].
      rewrite (He eq_refl). apply first_role_none.
      intros x Hx Hux. now apply Hoff.
    + intros rid Hr Hne.
      destruct (@updateAdmin_roles_shape now newRowId repo repo' userRoles
                  userRoles' adminId dto admin rid Hu Hrows Hr H)
        as [coll1 [_ [Hoff [_ [_ [_ Hn]]]]]].
      destruct (Hn Hne) as [oid [d2 [Ho [-> [Hu2 [Hr2 [Heff _]]]]]]].
      exists oid. split; [exact Ho|]. split.
      * apply hasRole_true_iff. exists d2.
        split; [apply In_write_same|]. auto.
      * rewrite <- Hr2. apply first_role_single; auto.
        -- apply In_write_same.
        -- intros x Hx Hux Hex. apply In_write in Hx.
           destruct Hx as [->|[Hx _]]; [reflexivity|].
           rewrite (Hoff x now' Hx Hux) in Hex. discriminate.
Qed.

End UpdateResponse.

Section UpdateResponseRuns.
Import AdminUserEntity TeamManagementService Scenario.
Import UserRoleSchema UserRoleService AssignmentStore Revocation.

Lemma updateAdmin_response_role_witness :
  (exists stores admin,
     TeamManagementController.updateAdmin 400 450 "eeeeeeeeeeeeeeeeeeeeeee9"
       roles admin_users admin_roles "u-staff"
       (rename_staff (Some "CCCCCCCCCCCCCCCCCCCCCCC1"))
     = (stores,
        Ok (admin,
            TeamManagementController.RoleDoc
              (RoleSchema.unpopulated role_default))))
  /\ (exists stores admin,
        TeamManagementController.updateAdmin 400 450
          "eeeeeeeeeeeeeeeeeeeeeee9" roles admin_users admin_roles "u-staff"
          (rename_staff (Some "ffffffffffffffffffffffff"))
        = (stores, Ok (admin, TeamManagementController.RoleNull))).
Proof.
  destruct (@updateAdmin_response_role 400 450 "eeeeeeeeeeeeeeeeeeeeeee9"
              roles admin_users admin_roles "u-staff"
              (rename_staff (Some "CCCCCCCCCCCCCCCCCCCCCCC1"))
              admin_roles_unique_ids admin_roles_of_staff) as [_ H1].
  destruct (@updateAdmin_response_role 400 450 "eeeeeeeeeeeeeeeeeeeeeee9"
              roles admin_users admin_roles "u-staff"
              (rename_staff (Some "ffffffffffffffffffffffff"))
              admin_roles_unique_ids admin_roles_of_staff) as [_ H2].
  split.
  - destruct (H1 _ _ _ eq_refl) as [role [E [_ Hrole]]].
    destruct (Hrole _ eq_refl ltac:(discriminate)) as [oid [Ho [_ Er]]].
    inversion Ho; subst oid. rewrite Er in E. eexists. eexists. exact E.
  - destruct (H2 _ _ _ eq_refl) as [role [E [_ Hrole]]].
    destruct (Hrole _ eq_refl ltac:(discriminate)) as [oid [Ho [_ Er]]].
    inversion Ho; subst oid. rewrite Er in E. eexists. eexists. exact E.
Defined.

End UpdateResponseRuns.

(** ** The identifier of a permission stays taken *)

Section IdentifierTaken.
Import PermissionSchema.

Lemma pre_save_truthy (d : Permission) :
  resource d <> "" -> action d <> "" ->
  truthy (permissionIdentifier (pre_save d)) = true.
Proof.
  intros Hr Ha. unfold pre_save.
  destruct (truthy (permissionIdentifier d)) eqn:Et; simpl; [exact Et|].
  apply String.eqb_neq in Hr, Ha. rewrite Hr, Ha. simpl.
  destruct (resource d); [discriminate|reflexivity].
Qed.

Lemma pre_save_fixed (d : Permission) :
  truthy (permissionIdentifier d) = true -> pre_save d = d.
Proof. intros H. unfold pre_save. now rewrite H. Qed.

Lemma pre_save_id (d : Permission) : _id (pre_save d) = _id d.
Proof. unfold pre_save. now destruct (_ && _)%bool. Qed.

Lemma identifier_taken_intro (coll : Collection) (d r : Permission) :
  In r coll -> _id r <> _id d ->
  truthy (permissionIdentifier r) = true ->
  permissionIdentifier d = permissionIdentifier r ->
  identifier_taken coll d = true.
Proof.
  intros Hin Hne Ht E. unfold identifier_taken. apply existsb_exists.
  exists r. split; [assumption|].
  rewrite (proj2 (String.eqb_neq _ _) Hne), E. simpl.
  destruct (permissionIdentifier r); [apply String.eqb_refl|reflexivity].
Qed.

Lemma create_Ok_inv (newId : ObjectId) (coll coll1 : Collection)
  (data : CreateData) (p1 : Permission) :
  PermissionService.create newId coll data = Ok (coll1, p1) ->
  validate (construct newId data) = Ok tt
  /\ p1 = pre_save (construct newId data)
  /\ coll1 = write _id coll p1
  /\ identifier_taken coll p1 = false.
Proof.
  unfold PermissionService.create, save.
  destruct (validate (construct newId data)) as [[]|e]; [|discriminate].
  cbn [bind].
  destruct (identifier_taken coll (pre_save (construct newId data))) eqn:Ei;
    [discriminate|].
  intros H. inversion H; subst. auto.
Qed.

(** X21.  The identifier of a created permission is not empty, and it stays
    taken.  After [create] has succeeded, no [create] of a permission with
    another key succeeds that leaves the identifier out and gives the same
    resource and action up to letter case and surrounding blanks; repeating
    the request itself fails on the unique index; and it still does after
    the permission has been soft-deleted. *)
Theorem permission_identifier_stays_taken (newId : ObjectId)
  (coll coll1 : Collection) (data : CreateData) (p1 : Permission)
  (H : PermissionService.create newId coll data = Ok (coll1, p1)) :
  (exists s, permissionIdentifier p1 = Some s /\ s <> "")
  /\ (forall id2 data2,
        id2 <> newId ->
        c_permissionIdentifier data = None ->
        c_permissionIdentifier data2 = None ->
        toLowerCase (trim (c_resource data2))
        = toLowerCase (trim (c_resource data)) ->
        toLowerCase (trim (c_action data2))
        = toLowerCase (trim (c_action data)) ->
        exists e, PermissionService.create id2 coll1 data2 = Throw e)
  /\ (forall id2, id2 <> newId ->
        PermissionService.create id2 coll1 data
        = Throw (DuplicateKeyError "permissionIdentifier_1"))
  /\ (forall now coll2 p2 id2,
        softDelete now coll1 p1 = Ok (coll2, p2) -> id2 <> newId ->
        PermissionService.create id2 coll2 data
        = Throw (DuplicateKeyError "permissionIdentifier_1")).
Proof.
  apply create_Ok_inv in H. destruct H as [Hv [Hp [Hc _]]].
  pose proof (validate_Ok _ Hv) as [Hr Ha].
  assert (truthy (permissionIdentifier p1) = true) as Ht.
  { rewrite Hp. now apply pre_save_truthy. }
  assert (_id p1 = newId) as Hid by (rewrite Hp; apply pre_save_id).
  assert (In p1 coll1) as Hin by (rewrite Hc; apply In_write_same).
  assert (forall id2, validate (construct id2 data) = Ok tt) as Hv2.
  { intros id2. exact Hv. }
  assert (forall id2,
            permissionIdentifier (pre_save (construct id2 data))
            = permissionIdentifier p1) as Hsame.
  { intros id2. rewrite Hp. unfold pre_save. simpl.
    now destruct (_ && _)%bool. }
  split; [|split; [|split]].
  - destruct (permissionIdentifier p1) as [s|]; [|discriminate].
    exists s. split; [reflexivity|]. intros ->. discriminate.
  - intros id2 data2 Hne Hn Hn2 Er Ea.
    unfold PermissionService.create, save.
    destruct (validate (construct id2 data2)) as [[]|e] eqn:Hv';
      [|now exists e].
    cbn [bind]. pose proof (validate_Ok _ Hv') as [Hr2 Ha2].
    rewrite identifier_taken_intro with (r := p1); eauto.
    + rewrite pre_save_id, Hid. simpl. congruence.
    + rewrite Hp.
      rewrite !pre_save_derives by (simpl; try assumption;
                                    now (rewrite Hn || rewrite Hn2)).
      simpl. now rewrite Er, Ea.
  - intros id2 Hne. unfold PermissionService.create, save.
    rewrite Hv2. cbn [bind].
    rewrite identifier_taken_intro with (r := p1); auto.
    rewrite pre_save_id, Hid. simpl. congruence.
  - intros now coll2 p2 id2 Hs Hne. unfold softDelete, save in Hs.
    destruct (validate (with_deleted (Some now) false p1)) as [[]|e];
      [|discriminate].
    cbn [bind] in Hs.
    rewrite (pre_save_fixed (with_deleted (Some now) false p1)) in Hs
      by exact Ht.
    destruct (identifier_taken coll1 _); [discriminate|].
    inversion Hs; subst coll2 p2. clear Hs.
    unfold PermissionService.create, save. rewrite Hv2. cbn [bind].
    assert (identifier_taken
              (write _id coll1 (with_deleted (Some now) false p1))
              (pre_save (construct id2 data)) = true) as E.
    { apply identifier_taken_intro
        with (r := with_deleted (Some now) false p1).
      - apply In_write_same.
      - rewrite pre_save_id. simpl. rewrite Hid. congruence.
      - exact Ht.
      - rewrite Hsame. reflexivity. }
    rewrite E. reflexivity.
Qed.

End IdentifierTaken.

Section IdentifierTakenRuns.
Import PermissionSchema Scenario.

Lemma permission_identifier_stays_taken_witness :
  PermissionService.create "aaaaaaaaaaaaaaaaaaaaaaa1" permissions
    create_post_delete
  = Ok ([perm_user_read; perm_post_delete], perm_post_delete)
  /\ (forall id2, id2 <> "aaaaaaaaaaaaaaaaaaaaaaa1" ->
        PermissionService.create id2 [perm_user_read; perm_post_delete]
          create_post_delete
        = Throw (DuplicateKeyError "permissionIdentifier_1"))
  /\ softDelete 900 [perm_user_read; perm_post_delete] perm_post_delete
     = Ok ([perm_user_read; with_deleted (Some 900) false perm_post_delete],
           with_deleted (Some 900) false perm_post_delete)
  /\ (forall id2, id2 <> "aaaaaaaaaaaaaaaaaaaaaaa1" ->
        PermissionService.create id2
          [perm_user_read; with_deleted (Some 900) false perm_post_delete]
          create_post_delete
        = Throw (DuplicateKeyError "permissionIdentifier_1")).
Proof.
  destruct (@permission_identifier_stays_taken "aaaaaaaaaaaaaaaaaaaaaaa1"
              permissions [perm_user_read; perm_post_delete]
              create_post_delete perm_post_delete eq_refl)
    as [_ [_ [H3 H4]]].
  split; [reflexivity|]. split; [exact H3|]. split; [reflexivity|].
  intros id2 Hne. now apply (H4 900 _ _ id2 eq_refl).
Defined.

End IdentifierTakenRuns.

(** ** A derived identifier is not validated *)

Section DerivedIdentifier.
Import PermissionSchema.

Lemma split_colon_append (r a : string) :
  forallb is_lower_or_underscore (list_ascii_of_string r) = true ->
  split_colon (r ++ ":" ++ a)%string = Some (r, a).
Proof.
  change (":" ++ a)%string with (String ":" a).
  induction r as [|c r IH]; simpl; [reflexivity|].
  intros H. apply andb_prop in H. destruct H as [Hc Hr].
  destruct (Ascii.eqb c ":") eqn:E.
  - apply Ascii.eqb_eq in E. subst c. discriminate Hc.
  - now rewrite (IH Hr).
Qed.

Lemma split_colon_first (r a x y : string) :
  split_colon (r ++ ":" ++ a)%string = Some (x, y) ->
  forallb is_lower_or_underscore (list_ascii_of_string x) = true ->
  forallb is_lower_or_underscore (list_ascii_of_string y) = true ->
  x = r.
Proof.
  change (":" ++ a)%string with (String ":" a).
  revert x. induction r as [|c r IH]; simpl; intros x H Hx Hy.
  - now inversion H.
  - destruct (Ascii.eqb c ":") eqn:E.
    + inversion H; subst. exfalso. clear - Hy.
      induction r as [|c r IH]; simpl in Hy; [discriminate|].
      apply andb_prop in Hy. now apply IH.
    + destruct (split_colon (r ++ String ":" a)%string) as [[x' y']|] eqn:Es;
        [|discriminate].
      inversion H; subst. simpl in Hx. apply andb_prop in Hx.
      destruct Hx as [_ Hx]. f_equal. now apply (IH x').
Qed.

Lemma action_lower (d : Permission) :
  validate d = Ok tt -> all_lower_or_underscore (action d) = true.
Proof.
  unfold validate.
  destruct (match permissionIdentifier d with
            | Some s => (negb (String.eqb s "") && negb (match_identifier s))%bool
            | None => false
            end); [discriminate|].
  destruct (String.eqb (name d) "" || Nat.ltb (String.length (name d)) 3
            || Nat.ltb 100 (String.length (name d)))%bool; [discriminate|].
  destruct (match description d with
            | Some s => Nat.ltb 500 (String.length s)
            | None => false
            end); [discriminate|].
  destruct (String.eqb (resource d) ""); [discriminate|].
  destruct (String.eqb (action d) ""); [discriminate|].
  destruct (existsb (String.eqb (action d)) actions) eqn:Ex;
    [|discriminate].
  intros _. apply existsb_exists in Ex. destruct Ex as [a [Ha E]].
  apply String.eqb_eq in E. rewrite E. simpl in Ha.
  repeat (destruct Ha as [<-|Ha]; [reflexivity|]). destruct Ha.
Qed.

(** X22.  The identifier that [create] derives from the resource and the
    action is stored without being checked against the pattern of the
    schema.  It satisfies the pattern exactly when the stored resource
    consists of lower-case letters and underscores; when it does not, the
    permission is stored all the same, and every [create] that gives that
    identifier explicitly is refused by the validator. *)
Theorem derived_identifier_not_validated (newId : ObjectId)
  (coll coll' : Collection) (data : CreateData) (p : Permission)
  (Hn : c_permissionIdentifier data = None)
  (H : PermissionService.create newId coll data = Ok (coll', p)) :
  permissionIdentifier p = Some (resource p ++ ":" ++ action p)%string
  /\ findById _id coll' newId = Some p
  /\ (match_identifier (resource p ++ ":" ++ action p) = true
      <-> all_lower_or_underscore (resource p) = true)
  /\ (all_lower_or_underscore (resource p) = false ->
      forall id2 coll2 data2,
        option_map (fun s => toLowerCase (trim s))
          (c_permissionIdentifier data2)
        = permissionIdentifier p ->
        PermissionService.create id2 coll2 data2
        = Throw (ValidationError "permissionIdentifier")).
Proof.
  apply create_Ok_inv in H. destruct H as [Hv [Hp [Hc _]]].
  pose proof (validate_Ok _ Hv) as [Hr Ha].
  pose proof (action_lower _ Hv) as Hal.
  rewrite pre_save_derives in Hp
    by (simpl; try assumption; now rewrite Hn).
  assert (resource p = resource (construct newId data)) as Er
    by (rewrite Hp; reflexivity).
  assert (action p = action (construct newId data)) as Ea
    by (rewrite Hp; reflexivity).
  assert (permissionIdentifier p
          = Some (resource p ++ ":" ++ action p)%string) as Ei
    by (rewrite Hp; reflexivity).
  rewrite <- Er in Hr. rewrite <- Ea in Ha, Hal.
  assert (match_identifier (resource p ++ ":" ++ action p) = true
          <-> all_lower_or_underscore (resource p) = true) as Hiff.
  { unfold match_identifier. split.
    - destruct (split_colon (resource p ++ ":" ++ action p)%string)
        as [[x y]|] eqn:Es; [|discriminate].
      intros Hm. apply andb_prop in Hm. destruct Hm as [Hx Hy].
      unfold all_lower_or_underscore in Hx, Hy.
      apply andb_prop in Hx. destruct Hx as [Hx0 Hx].
      apply andb_prop in Hy. destruct Hy as [_ Hy].
      rewrite <- (split_colon_first _ _ Es Hx Hy).
      unfold all_lower_or_underscore. now rewrite Hx0, Hx.
    - intros Hl. unfold all_lower_or_underscore in Hl.
      apply andb_prop in Hl. destruct Hl as [Hl0 Hl].
      rewrite (split_colon_append _ _ Hl).
      unfold all_lower_or_underscore at 1. now rewrite Hl0, Hl, Hal. }
  split; [exact Ei|]. split; [|split; [exact Hiff|]].
  - rewrite Hc. replace newId with (_id p) by (rewrite Hp; reflexivity).
    apply findById_write_same.
  - intros Hnl id2 coll2 data2 E.
    unfold PermissionService.create, save, validate. simpl.
    rewrite E, Ei.
    assert (match_identifier (resource p ++ ":" ++ action p) = false) as Hm.
    { apply not_true_is_false. intros Hm. apply Hiff in Hm. congruence. }
    rewrite Hm.
    assert (String.eqb (resource p ++ ":" ++ action p) "" = false) as ->.
    { destruct (resource p); reflexivity. }
    reflexivity.
Qed.

End DerivedIdentifier.

Section DerivedIdentifierRuns.
Import PermissionSchema Scenario.

Lemma derived_identifier_not_validated_witness :
  PermissionService.create "aaaaaaaaaaaaaaaaaaaaaaa2" permissions
    (mkCreateData "User-Profile" "read" "Read profiles" None None None)
  = Ok ([perm_user_read;
         mkPermission "aaaaaaaaaaaaaaaaaaaaaaa2" (Some "user-profile:read")
           "Read profiles" None "user-profile" "read" true None []],
        mkPermission "aaaaaaaaaaaaaaaaaaaaaaa2" (Some "user-profile:read")
          "Read profiles" None "user-profile" "read" true None [])
  /\ forall id2 coll2,
       PermissionService.create id2 coll2
         (mkCreateData "profile" "read" "Read profiles" None
            (Some "user-profile:read") None)
       = Throw (ValidationError "permissionIdentifier").
Proof.
  split; [reflexivity|].
  destruct (@derived_identifier_not_validated "aaaaaaaaaaaaaaaaaaaaaaa2"
              permissions _
              (mkCreateData "User-Profile" "read" "Read profiles" None None
                 None) _ eq_refl eq_refl) as [_ [_ [_ H]]].
  intros id2 coll2. apply H; reflexivity.
Defined.

End DerivedIdentifierRuns.

(** ** References through the services *)

Section ReferencesById.






End ReferencesById.

Section ReferencesByIdRuns.
Import Scenario.


End ReferencesByIdRuns.

(** ** The settings of the RabbitMQ producer *)

Section CleanFacts.
Import RabbitMqProducerService.

Lemma length_append (s t : string) :
  String.length (s ++ t) = (String.length s + String.length t)%nat.
Proof. induction s as [|c s IH]; simpl; [reflexivity|now rewrite IH]. Qed.

Lemma append_empty_r (s : string) : (s ++ "")%string = s.
Proof. induction s as [|c s IH]; simpl; [reflexivity|now rewrite IH]. Qed.

Lemma substring_all (s : string) :
  String.substring 0 (String.length s) s = s.
Proof. induction s as [|c s IH]; simpl; [reflexivity|now rewrite IH]. Qed.

Lemma substring_prefix (s t : string) :
  String.substring 0 (String.length s) (s ++ t) = s.
Proof.
  induction s as [|c s IH]; simpl; [now destruct t|now rewrite IH].
Qed.

Lemma append_one_not_empty (s : string) (c : ascii) :
  (s ++ String c "")%string <> "".
Proof. destruct s; discriminate. Qed.

Lemma trimEnd_last (s : string) (c : ascii) :
  is_space c = false ->
  trimEnd (s ++ String c "") = (s ++ String c "")%string.
Proof.
  intros Hc. induction s as [|a s IH]; simpl.
  - now rewrite Hc.
  - rewrite IH. destruct (s ++ String c "")%string eqn:E; [|reflexivity].
    now apply append_one_not_empty in E.
Qed.

Lemma trim_quoted (q q' : ascii) (s : string) :
  is_space q = false -> is_space q' = false ->
  trim (String q (s ++ String q' "")) = String q (s ++ String q' "").
Proof.
  intros Hq Hq'. unfold trim. simpl trimStart. rewrite Hq.
  change (String q (s ++ String q' ""))
    with ((String q s) ++ String q' "")%string.
  now apply trimEnd_last.
Qed.

Lemma endsWith_last (s : string) (c c' : ascii) :
  endsWith (s ++ String c "") c' = Ascii.eqb c c'.
Proof.
  induction s as [|a s IH]; simpl; [reflexivity|].
  rewrite IH. destruct (s ++ String c "")%string eqn:E; [|reflexivity].
  now apply append_one_not_empty in E.
Qed.

Lemma endsWith_inv (s : string) (c : ascii) :
  endsWith s c = true -> exists r, s = (r ++ String c "")%string.
Proof.
  induction s as [|a s IH]; simpl; [discriminate|].
  destruct s as [|b s].
  - intros E. apply Ascii.eqb_eq in E. subst. now exists "".
  - intros E. destruct (IH E) as [r Hr]. exists (String a r).
    simpl. now rewrite <- Hr.
Qed.

Lemma substring_spec (s : string) (a b : Z) :
  0 <= a <= b -> b <= Z.of_nat (String.length s) ->
  substring s a b = String.substring (Z.to_nat a) (Z.to_nat (b - a)) s.
Proof.
  intros Ha Hb. unfold substring.
  replace (Z.max 0 (Z.min a (Z.of_nat (String.length s)))) with a by lia.
  replace (Z.max 0 (Z.min b (Z.of_nat (String.length s)))) with b by lia.
  replace (Z.min a b) with a by lia.
  replace (Z.max a b) with b by lia.
  reflexivity.
Qed.

Lemma substring_inner (q q' : ascii) (s : string) :
  substring (String q (s ++ String q' "")) 1
    (Z.of_nat (String.length (String q (s ++ String q' ""))) - 1)
  = s.
Proof.
  assert (String.length (String q (s ++ String q' ""))
          = S (S (String.length s))) as Hn.
  { simpl. rewrite length_append. simpl. lia. }
  rewrite substring_spec by lia. rewrite Hn.
  replace (Z.to_nat 1) with 1%nat by reflexivity.
  replace (Z.to_nat _) with (String.length s) by lia.
  simpl. apply substring_prefix.
Qed.

Lemma substring_tail (q : ascii) (s : string) :
  substring (String q s) 1 (Z.of_nat (String.length (String q s))) = s.
Proof.
  assert (String.length (String q s) = S (String.length s)) as Hn
    by reflexivity.
  rewrite substring_spec by lia. rewrite Hn.
  replace (Z.to_nat 1) with 1%nat by reflexivity.
  replace (Z.to_nat _) with (String.length s) by lia.
  simpl. apply substring_all.
Qed.

Lemma substring_init (s : string) (q : ascii) :
  substring (s ++ String q "") 0
    (Z.of_nat (String.length (s ++ String q "")) - 1)
  = s.
Proof.
  assert (String.length (s ++ String q "") = S (String.length s)) as Hn.
  { rewrite length_append. simpl. lia. }
  rewrite substring_spec by lia. rewrite Hn.
  replace (Z.to_nat 0) with 0%nat by reflexivity.
  replace (Z.to_nat _) with (String.length s) by lia.
  apply substring_prefix.
Qed.

End CleanFacts.

Section Clean.
Import RabbitMqProducerService.

Lemma quote_not_space (q : ascii) :
  q = dquote \/ q = squote -> is_space q = false.
Proof. intros [->| ->]; reflexivity. Qed.

Lemma endsWith_cons_inv (c q : ascii) (t : string) :
  endsWith (String c t) q = true ->
  (t = "" /\ c = q) \/ exists r, t = (r ++ String q "")%string.
Proof.
  destruct t as [|b t].
  - simpl. intros E. apply Ascii.eqb_eq in E. now left.
  - intros E. right. apply endsWith_inv.
    exact E.
Qed.

Lemma clean_trimmed (t : string) :
  t <> "" -> trim t = t ->
  clean (Some t)
  = if ((startsWith t dquote && endsWith t dquote)
        || (startsWith t squote && endsWith t squote))%bool
    then Some (substring t 1 (Z.of_nat (String.length t) - 1))
    else if (startsWith t dquote || startsWith t squote)%bool
    then Some (substring t 1 (Z.of_nat (String.length t)))
    else if (endsWith t dquote || endsWith t squote)%bool
    then Some (substring t 0 (Z.of_nat (String.length t) - 1))
    else Some t.
Proof.
  intros Hne Ht. unfold clean.
  rewrite (proj2 (String.eqb_neq _ _) Hne). cbv zeta. now rewrite Ht.
Qed.

(** What [clean] does to a string that is already trimmed: [r] is the string
    without at most one quote at each end. *)
Lemma clean_shape (t : string) :
  exists r pre post,
    (if ((startsWith t dquote && endsWith t dquote)
         || (startsWith t squote && endsWith t squote))%bool
     then Some (substring t 1 (Z.of_nat (String.length t) - 1))
     else if (startsWith t dquote || startsWith t squote)%bool
     then Some (substring t 1 (Z.of_nat (String.length t)))
     else if (endsWith t dquote || endsWith t squote)%bool
     then Some (substring t 0 (Z.of_nat (String.length t) - 1))
     else Some t) = Some r
    /\ t = (pre ++ r ++ post)%string
    /\ (pre = "" \/ pre = String dquote "" \/ pre = String squote "")
    /\ (post = "" \/ post = String dquote "" \/ post = String squote "").
Proof.
  assert (forall q t0,
            q = dquote \/ q = squote ->
            endsWith (String q t0) q = true ->
            exists r pre post,
              Some (substring (String q t0) 1
                      (Z.of_nat (String.length (String q t0)) - 1)) = Some r
              /\ String q t0 = (pre ++ r ++ post)%string
              /\ (pre = "" \/ pre = String dquote "" \/ pre = String squote "")
              /\ (post = "" \/ post = String dquote ""
                  \/ post = String squote "")) as Hboth.
  { intros q t0 Hqq He. apply endsWith_cons_inv in He.
    destruct He as [[-> _]|[r0 ->]].
    - exists (String q ""), "", "". split; [reflexivity|].
      split; [reflexivity|]. auto.
    - exists r0, (String q ""), (String q "").
      rewrite substring_inner. split; [reflexivity|].
      split; [reflexivity|]. destruct Hqq as [->| ->]; auto. }
  assert (forall q t0,
            q = dquote \/ q = squote ->
            exists r pre post,
              Some (substring (String q t0) 1
                      (Z.of_nat (String.length (String q t0)))) = Some r
              /\ String q t0 = (pre ++ r ++ post)%string
              /\ (pre = "" \/ pre = String dquote "" \/ pre = String squote "")
              /\ (post = "" \/ post = String dquote ""
                  \/ post = String squote "")) as Hlead.
  { intros q t0 Hqq. exists t0, (String q ""), "".
    rewrite substring_tail. split; [reflexivity|].
    split; [simpl; now rewrite append_empty_r|].
    destruct Hqq as [->| ->]; auto. }
  assert (forall q,
            q = dquote \/ q = squote ->
            endsWith t q = true ->
            exists r pre post,
              Some (substring t 0 (Z.of_nat (String.length t) - 1)) = Some r
              /\ t = (pre ++ r ++ post)%string
              /\ (pre = "" \/ pre = String dquote "" \/ pre = String squote "")
              /\ (post = "" \/ post = String dquote ""
                  \/ post = String squote "")) as Htrail.
  { intros q Hqq He. apply endsWith_inv in He. destruct He as [r0 ->].
    exists r0, "", (String q ""). rewrite substring_init.
    split; [reflexivity|]. split; [reflexivity|].
    destruct Hqq as [->| ->]; auto. }
  destruct t as [|c t0].
  - exists "", "", "". simpl. auto.
  - unfold startsWith.
    destruct (Ascii.eqb c dquote) eqn:Ed.
    + apply Ascii.eqb_eq in Ed. subst c.
      replace (Ascii.eqb dquote squote) with false by reflexivity.
      destruct (endsWith (String dquote t0) dquote) eqn:Ee; cbn [orb andb].
      * apply Hboth; auto.
      * apply Hlead; auto.
    + destruct (Ascii.eqb c squote) eqn:Es.
      * apply Ascii.eqb_eq in Es. subst c.
        destruct (endsWith (String squote t0) squote) eqn:Ee; cbn [orb andb].
        -- apply Hboth; auto.
        -- apply Hlead; auto.
      * cbn [orb andb].
        destruct (endsWith (String c t0) dquote) eqn:E1; cbn [orb andb].
        -- apply (Htrail dquote); auto.
        -- destruct (endsWith (String c t0) squote) eqn:E2; cbn [orb andb].
           ++ apply (Htrail squote); auto.
           ++ exists (String c t0), "", "". rewrite append_empty_r. auto.
Qed.

End Clean.

Section CleanQuotes.
Import RabbitMqProducerService.

Lemma endsWith_quoted (q q' c : ascii) (s : string) :
  endsWith (String q (s ++ String q' "")) c = Ascii.eqb q' c.
Proof.
  change (String q (s ++ String q' ""))
    with ((String q s) ++ String q' "")%string.
  apply endsWith_last.
Qed.

(** X24.  [clean] returns nothing for a missing value and a string for a
    string: the trimmed value without at most one quote, single or double,
    at each end.  A value between two quotes of the same kind loses both,
    and what is between them is kept as it is, blanks included.  A value
    that consists of one quote keeps it.  Of two quotes of different kinds
    only the leading one is removed. *)
Theorem clean_quotes :
  clean None = None
  /\ (forall v, exists r pre post,
        clean (Some v) = Some r
        /\ trim v = (pre ++ r ++ post)%string
        /\ (pre = "" \/ pre = String dquote "" \/ pre = String squote "")
        /\ (post = "" \/ post = String dquote "" \/ post = String squote ""))
  /\ (forall q s, q = dquote \/ q = squote ->
        clean (Some (String q (s ++ String q ""))) = Some s)
  /\ (forall q, q = dquote \/ q = squote ->
        clean (Some (String q "")) = Some (String q ""))
  /\ (forall q q' s,
        (q = dquote /\ q' = squote) \/ (q = squote /\ q' = dquote) ->
        clean (Some (String q (s ++ String q' "")))
        = Some (s ++ String q' "")%string).
Proof.
  split; [reflexivity|]. split; [|split; [|split]].
  - intros v. unfold clean. destruct (String.eqb v "") eqn:E.
    + apply String.eqb_eq in E. subst v. exists "", "", "". simpl. auto.
    + cbv zeta. apply clean_shape.
  - intros q s Hq.
    rewrite clean_trimmed;
      [|discriminate|apply trim_quoted; now apply quote_not_space].
    unfold startsWith. rewrite !endsWith_quoted.
    destruct Hq as [->| ->].
    + replace (Ascii.eqb dquote dquote) with true by reflexivity.
      cbn [orb andb]. now rewrite substring_inner.
    + replace (Ascii.eqb squote dquote) with false by reflexivity.
      replace (Ascii.eqb squote squote) with true by reflexivity.
      cbn [orb andb]. now rewrite substring_inner.
  - intros q [->| ->]; reflexivity.
  - intros q q' s Hq.
    rewrite clean_trimmed;
      [|discriminate
       |apply trim_quoted; apply quote_not_space; tauto].
    unfold startsWith. rewrite !endsWith_quoted.
    destruct Hq as [[-> ->]|[-> ->]].
    + replace (Ascii.eqb dquote dquote) with true by reflexivity.
      replace (Ascii.eqb squote dquote) with false by reflexivity.
      replace (Ascii.eqb dquote squote) with false by reflexivity.
      cbn [orb andb]. now rewrite substring_tail.
    + replace (Ascii.eqb squote squote) with true by reflexivity.
      replace (Ascii.eqb squote dquote) with false by reflexivity.
      replace (Ascii.eqb dquote squote) with false by reflexivity.
      cbn [orb andb]. now rewrite substring_tail.
Qed.

End CleanQuotes.

Section ExtractUrls.
Import RabbitMqProducerService.

Lemma trimEnd_idem (s : string) : trimEnd (trimEnd s) = trimEnd s.
Proof.
  induction s as [|c s IH]; simpl; [reflexivity|].
  destruct (trimEnd s) as [|b r] eqn:E.
  - destruct (is_space c) eqn:Ec; simpl; [reflexivity|now rewrite Ec].
  - change (trimEnd (String c (String b r)) = String c (String b r)).
    simpl trimEnd at 1. simpl in IH. 
    destruct (match trimEnd r with
              | "" => if is_space b then "" else String b ""
              | String a s0 => String b (String a s0)
              end) eqn:E'; [discriminate IH|].
    now rewrite IH.
Qed.

Lemma trimStart_first (s : string) :
  match trimStart s with
  | String c _ => is_space c = false
  | EmptyString => True
  end.
Proof.
  induction s as [|c s IH]; simpl; [exact I|].
  destruct (is_space c) eqn:E; [exact IH|exact E].
Qed.

Lemma trimEnd_keeps_first (s : string) (c : ascii) :
  is_space c = false ->
  exists r, trimEnd (String c s) = String c r.
Proof.
  intros Hc. simpl. destruct (trimEnd s); [|eauto].
  rewrite Hc. eauto.
Qed.

Lemma trim_trimStart (s : string) : trimStart (trim s) = trim s.
Proof.
  unfold trim. pose proof (trimStart_first s) as H.
  destruct (trimStart s) as [|c r]; [reflexivity|].
  destruct (@trimEnd_keeps_first r c H) as [r' E]. rewrite E. simpl.
  now rewrite H.
Qed.

Lemma trim_trimEnd (s : string) : trimEnd (trim s) = trim s.
Proof. unfold trim. apply trimEnd_idem. Qed.

Lemma forallb_trimStart (P : ascii -> bool) (s : string) :
  forallb P (list_ascii_of_string s) = true ->
  forallb P (list_ascii_of_string (trimStart s)) = true.
Proof.
  induction s as [|c s IH]; simpl; [auto|].
  intros H. apply andb_prop in H. destruct H as [Hc Hs].
  destruct (is_space c); [now apply IH|]. simpl. now rewrite Hc, Hs.
Qed.

Lemma forallb_trimEnd (P : ascii -> bool) (s : string) :
  forallb P (list_ascii_of_string s) = true ->
  forallb P (list_ascii_of_string (trimEnd s)) = true.
Proof.
  induction s as [|c s IH]; simpl; [auto|].
  intros H. apply andb_prop in H. destruct H as [Hc Hs].
  specialize (IH Hs). destruct (trimEnd s).
  - destruct (is_space c); simpl; [reflexivity|now rewrite Hc].
  - simpl in *. now rewrite Hc, IH.
Qed.

Lemma split_on_pieces (sep : ascii) (s : string) (p : string) :
  In p (split_on sep s) ->
  forallb (fun c => negb (Ascii.eqb c sep)) (list_ascii_of_string p) = true.
Proof.
  revert p. induction s as [|c s IH]; simpl; intros p.
  - intros [<-|[]]. reflexivity.
  - destruct (Ascii.eqb c sep) eqn:E.
    + intros [<-|H]; [reflexivity|now apply IH].
    + destruct (split_on sep s) as [|x l].
      * intros [<-|[]]. simpl. now rewrite E.
      * intros [<-|H].
        -- simpl. rewrite E. simpl. apply IH. now left.
        -- apply IH. now right.
Qed.

Lemma split_on_plain (sep : ascii) (u : string) :
  forallb (fun c => negb (Ascii.eqb c sep)) (list_ascii_of_string u) = true ->
  split_on sep u = [u].
Proof.
  induction u as [|c u IH]; simpl; [reflexivity|].
  intros H. apply andb_prop in H. destruct H as [Hc Hu].
  apply negb_true_iff in Hc. rewrite Hc. now rewrite (IH Hu).
Qed.

Lemma split_on_cons (sep : ascii) (u rest : string) :
  forallb (fun c => negb (Ascii.eqb c sep)) (list_ascii_of_string u) = true ->
  split_on sep (u ++ String sep rest) = u :: split_on sep rest.
Proof.
  induction u as [|c u IH]; simpl; [now rewrite Ascii.eqb_refl|].
  intros H. apply andb_prop in H. destruct H as [Hc Hu].
  apply negb_true_iff in Hc. rewrite Hc. now rewrite (IH Hu).
Qed.

End ExtractUrls.

Section ExtractUrlsEntries.
Import RabbitMqProducerService.

Lemma forallb_append (P : ascii -> bool) (s t : string) :
  forallb P (list_ascii_of_string (s ++ t))
  = (forallb P (list_ascii_of_string s)
     && forallb P (list_ascii_of_string t))%bool.
Proof.
  induction s as [|c s IH]; simpl; [reflexivity|].
  now rewrite IH, andb_assoc.
Qed.

Lemma forallb_weaken (P Q : ascii -> bool) (s : string) :
  (forall c, P c = true -> Q c = true) ->
  forallb P (list_ascii_of_string s) = true ->
  forallb Q (list_ascii_of_string s) = true.
Proof.
  intros HPQ. induction s as [|c s IH]; simpl; [auto|].
  intros H. apply andb_prop in H. destruct H as [Hc Hs].
  now rewrite (HPQ c Hc), (IH Hs).
Qed.

Lemma nospace_trim (s : string) :
  forallb (fun c => negb (is_space c)) (list_ascii_of_string s) = true ->
  trim s = s.
Proof.
  intros H. unfold trim.
  assert (trimStart s = s) as ->.
  { destruct s as [|c s]; [reflexivity|]. simpl in *.
    apply andb_prop in H. destruct H as [Hc _].
    apply negb_true_iff in Hc. now rewrite Hc. }
  induction s as [|c s IH]; simpl; [reflexivity|].
  simpl in H. apply andb_prop in H. destruct H as [Hc Hs].
  apply negb_true_iff in Hc. rewrite (IH Hs).
  destruct s; [now rewrite Hc|reflexivity].
Qed.

Lemma nochar_ends (q : ascii) (s : string) :
  forallb (fun c => negb (Ascii.eqb c q)) (list_ascii_of_string s) = true ->
  startsWith s q = false /\ endsWith s q = false.
Proof.
  intros H. split.
  - destruct s as [|c s]; [reflexivity|]. simpl in *.
    apply andb_prop in H. destruct H as [Hc _]. now apply negb_true_iff.
  - induction s as [|c s IH]; [reflexivity|]. simpl in H.
    apply andb_prop in H. destruct H as [Hc Hs].
    apply negb_true_iff in Hc. simpl. destruct s; [exact Hc|now apply IH].
Qed.

Lemma join_chars (P : ascii -> bool) (urls : list string) :
  P comma = true ->
  Forall (fun u => forallb P (list_ascii_of_string u) = true) urls ->
  forallb P (list_ascii_of_string (join "," urls)) = true.
Proof.
  intros Hc H. unfold join. induction H as [|u l Hu Hl IH]; [reflexivity|].
  destruct l as [|v l]; [exact Hu|].
  change (String.concat "," (u :: v :: l))
    with (u ++ "," ++ String.concat "," (v :: l))%string.
  rewrite !forallb_append, Hu, IH. simpl. unfold comma in Hc.
  now rewrite Hc.
Qed.

Lemma join_split (urls : list string) :
  urls <> [] ->
  Forall (fun u => forallb (fun c => negb (Ascii.eqb c comma))
                     (list_ascii_of_string u) = true) urls ->
  split_on comma (join "," urls) = urls.
Proof.
  intros Hne H. unfold join. induction H as [|u l Hu Hl IH]; [congruence|].
  destruct l as [|v l].
  - now apply split_on_plain.
  - change (String.concat "," (u :: v :: l))
      with (u ++ String comma (String.concat "," (v :: l)))%string.
    rewrite split_on_cons by exact Hu. f_equal. apply IH. discriminate.
Qed.

Lemma plain_spec (u : string) :
  plain u = true ->
  u <> ""
  /\ forallb (fun c => negb (is_space c)) (list_ascii_of_string u) = true
  /\ forallb (fun c => negb (Ascii.eqb c comma)) (list_ascii_of_string u)
     = true
  /\ forallb (fun c => negb (Ascii.eqb c dquote)) (list_ascii_of_string u)
     = true
  /\ forallb (fun c => negb (Ascii.eqb c squote)) (list_ascii_of_string u)
     = true.
Proof.
  unfold plain, plain_char. intros H. apply andb_prop in H.
  destruct H as [Hn H]. split.
  - intros ->. discriminate Hn.
  - repeat split; revert H; apply forallb_weaken; intros c Hc;
      apply andb_prop in Hc; destruct Hc as [Hc H4];
      apply andb_prop in Hc; destruct Hc as [Hc H3];
      apply andb_prop in Hc; destruct Hc as [Hc H2];
      apply andb_prop in Hc; destruct Hc as [_ H1]; assumption.
Qed.

(** X25.  Every entry that [extractUrls] returns is non-empty, has neither a
    leading nor a trailing blank and holds no comma; a missing or empty
    value gives no entry.  A list of URLs that are not empty, of ASCII
    characters, and hold no blank, comma or quote, joined by commas, is read
    back as that list. *)
Theorem extractUrls_entries :
  (forall value u, In u (extractUrls value) ->
     u <> "" /\ trimStart u = u /\ trimEnd u = u
     /\ forallb (fun c => negb (Ascii.eqb c comma)) (list_ascii_of_string u)
        = true)
  /\ extractUrls None = []
  /\ extractUrls (Some "") = []
  /\ (forall urls, urls <> [] -> Forall (fun u => plain u = true) urls ->
        extractUrls (Some (join "," urls)) = urls).
Proof.
  split; [|split; [reflexivity|split; [reflexivity|]]].
  - intros value u. unfold extractUrls.
    destruct (clean value) as [cleaned|]; [|intros []].
    destruct (String.eqb cleaned ""); [intros []|].
    intros H. apply filter_In in H. destruct H as [H Hne].
    apply in_map_iff in H. destruct H as [p [<- Hp]].
    split; [|split; [|split]].
    + intros E. rewrite E in Hne. discriminate.
    + apply trim_trimStart.
    + apply trim_trimEnd.
    + unfold trim. apply forallb_trimEnd, forallb_trimStart.
      now apply split_on_pieces with (s := cleaned).
  - intros urls Hne Hall.
    assert (Forall (fun u => u <> "") urls) as H0.
    { eapply Forall_impl; [|exact Hall]. intros u Hu.
      now apply plain_spec in Hu. }
    assert (Forall (fun u => forallb (fun c => negb (is_space c))
                               (list_ascii_of_string u) = true) urls) as H1.
    { eapply Forall_impl; [|exact Hall]. intros u Hu.
      now apply plain_spec in Hu. }
    assert (Forall (fun u => forallb (fun c => negb (Ascii.eqb c comma))
                               (list_ascii_of_string u) = true) urls) as H2.
    { eapply Forall_impl; [|exact Hall]. intros u Hu.
      now apply plain_spec in Hu. }
    assert (Forall (fun u => forallb (fun c => negb (Ascii.eqb c dquote))
                               (list_ascii_of_string u) = true) urls) as H3.
    { eapply Forall_impl; [|exact Hall]. intros u Hu.
      now apply plain_spec in Hu. }
    assert (Forall (fun u => forallb (fun c => negb (Ascii.eqb c squote))
                               (list_ascii_of_string u) = true) urls) as H4.
    { eapply Forall_impl; [|exact Hall]. intros u Hu.
      now apply plain_spec in Hu. }
    assert (join "," urls <> "") as Hj.
    { destruct urls as [|u l]; [congruence|].
      inversion H0 as [|u' l' Hu _]; subst. unfold join. simpl.
      destruct l; [exact Hu|]. destruct u; [congruence|discriminate]. }
    assert (trim (join "," urls) = join "," urls) as Ht.
    { apply nospace_trim. now apply join_chars. }
    destruct (nochar_ends dquote (join "," urls)) as [Sd Ed];
      [now apply join_chars|].
    destruct (nochar_ends squote (join "," urls)) as [Ss Es];
      [now apply join_chars|].
    unfold extractUrls. rewrite (clean_trimmed Hj Ht), Sd, Ed, Ss, Es.
    cbn [orb andb]. rewrite (proj2 (String.eqb_neq _ _) Hj).
    rewrite (join_split Hne H2).
    clear - H0 H1. induction urls as [|u l IH]; [reflexivity|].
    inversion H0; inversion H1; subst. simpl.
    rewrite nospace_trim by assumption.
    rewrite (proj2 (String.eqb_neq u "")) by assumption. simpl.
    f_equal. now apply IH.
Qed.

End ExtractUrlsEntries.

(** ** Updates of policies and roles *)

Section Updates.

Lemma map_ObjectId_Throw (l1 l2 : list string) (s : string) :
  (forall x, In x l1 -> ObjectId_isValid x = true) ->
  ObjectId_isValid s = false ->
  PolicyService.map_ObjectId (l1 ++ s :: l2)
  = Throw invalid_ObjectId.
Proof.
  intros H1 Hs. induction l1 as [|x l1 IH]; simpl.
  - unfold new_ObjectId. now rewrite Hs.
  - unfold new_ObjectId at 1. rewrite (H1 x) by now left. cbn [bind].
    rewrite IH; [reflexivity|]. intros y Hy. apply H1. now right.
Qed.


(** X27.  [updateRole] of the controller stores a non-empty [label] as the
    name of the role, trimmed, and an empty or missing one not at all; the
    [icon] is not stored.  It makes any stored role inactive on request,
    the default role included, which [softDelete] refuses: afterwards
    [getDefaultRole] returns no role of that id, and no role at all when no
    other role is default, active and not soft-deleted. *)
Theorem role_update_deactivates_default (perms : PermissionSchema.Collection)
  (pols : PolicySchema.Collection) (roles : RoleSchema.Collection)
  (roleId : string) (oid : ObjectId) (r : RoleSchema.Role)
  (dto : RbacController.UpdateRoleDto)
  (Hc : cast_ObjectId "_id" roleId = Ok oid)
  (Hf : findById RoleSchema._id roles oid = Some r) :
  exists roles' r',
    RbacController.updateRole perms pols roles roleId dto
    = Ok (roles', Some (RoleSchema.populate_policies perms pols r'))
    /\ findById RoleSchema._id roles' oid = Some r'
    /\ RoleSchema.name r'
       = (if truthy (RbacController.label dto)
          then trim (str_or (RbacController.label dto) "")
          else RoleSchema.name r)
    /\ RoleSchema.isDefault r' = RoleSchema.isDefault r
    /\ RoleSchema.isSystem r' = RoleSchema.isSystem r
    /\ RoleSchema.deletedAt r' = RoleSchema.deletedAt r
    /\ (forall icon,
          RbacController.updateRole perms pols roles roleId
            (RbacController.mkUpdateRoleDto (RbacController.label dto)
               (RbacController.description dto) icon
               (RbacController.isActive dto))
          = RbacController.updateRole perms pols roles roleId dto)
    /\ (RbacController.isActive dto = Some false ->
        RoleSchema.isActive r' = false
        /\ (forall x, RoleSchema.getDefaultRole roles' = Some x ->
              RoleSchema._id x <> oid
              /\ In x roles /\ RoleSchema.isDefault x = true)
        /\ ((forall x, In x roles -> RoleSchema.isDefault x = true ->
               RoleSchema._id x = oid) ->
            RoleSchema.getDefaultRole roles' = None)
        /\ (RoleSchema.isDefault r = true ->
            forall now, exists m,
              RoleSchema.softDelete now roles r = Throw (Error m))).
Proof.
  pose proof (findById_key RoleSchema._id _ _ Hf) as [Hid Hin].
  set (data := RoleService.mkUpdateData
                 (if truthy (RbacController.label dto)
                  then RbacController.label dto else None)
                 (RbacController.description dto)
                 (RbacController.isActive dto)).
  exists (write RoleSchema._id roles (RoleService.apply_update data r)),
         (RoleService.apply_update data r).
  assert (forall x,
            In x (write RoleSchema._id roles (RoleService.apply_update data r))
            -> x = RoleService.apply_update data r
               \/ (In x roles /\ RoleSchema._id x <> oid)) as Hw.
  { intros x Hx. apply In_write in Hx. destruct Hx as [->|[Hx Hne]];
      [now left|right]. split; [assumption|]. simpl in Hne. congruence. }
  split; [|split; [|split; [|split; [|split; [|split; [|split]]]]]].
  - unfold RbacController.updateRole, RoleService.update.
    rewrite Hc. cbn [bind]. now rewrite Hf.
  - rewrite <- Hid.
    change (RoleSchema._id r)
      with (RoleSchema._id (RoleService.apply_update data r)).
    apply findById_write_same.
  - simpl. destruct (RbacController.label dto) as [s|]; simpl; [|reflexivity].
    destruct (String.eqb s ""); reflexivity.
  - reflexivity.
  - reflexivity.
  - reflexivity.
  - intros icon. reflexivity.
  - intros Ha.
    assert (RoleSchema.isActive (RoleService.apply_update data r) = false)
      as Hoff by (simpl; now rewrite Ha).
    split; [exact Hoff|]. split; [|split].
    + intros x Hx. unfold RoleSchema.getDefaultRole in Hx.
      apply find_some in Hx. destruct Hx as [Hx Hp].
      apply andb_prop in Hp. destruct Hp as [Hp _].
      apply andb_prop in Hp. destruct Hp as [Hd Hact].
      destruct (Hw x Hx) as [->|[Hx' Hne]]; [congruence|]. auto.
    + intros Honly.
      destruct (RoleSchema.getDefaultRole _) as [x|] eqn:E; [|reflexivity].
      unfold RoleSchema.getDefaultRole in E. apply find_some in E.
      destruct E as [Hx Hp].
      apply andb_prop in Hp. destruct Hp as [Hp _].
      apply andb_prop in Hp. destruct Hp as [Hd Hact].
      destruct (Hw x Hx) as [->|[Hx' Hne]]; [congruence|].
      exfalso. apply Hne. now apply Honly.
    + intros Hd now. unfold RoleSchema.softDelete. rewrite Hd.
      destruct (RoleSchema.isSystem r); eauto.
Qed.

End Updates.

Section UpdatesRuns.
Import Scenario.


Lemma role_update_deactivates_default_witness :
  RoleSchema.getDefaultRole roles = Some role_default
  /\ (exists m, RoleSchema.softDelete 900 roles role_default = Throw (Error m))
  /\ exists roles' r',
       RbacController.updateRole permissions policies roles
         "CCCCCCCCCCCCCCCCCCCCCCC1"
         (RbacController.mkUpdateRoleDto (Some "") None (Some "star")
            (Some false))
       = Ok (roles',
             Some (RoleSchema.populate_policies permissions policies r'))
       /\ RoleSchema.name r' = "Member"
       /\ RoleSchema.isActive r' = false
       /\ RoleSchema.getDefaultRole roles' = None.
Proof.
  split; [reflexivity|].
  destruct (@role_update_deactivates_default permissions policies roles
              "CCCCCCCCCCCCCCCCCCCCCCC1" "ccccccccccccccccccccccc1"
              role_default
              (RbacController.mkUpdateRoleDto (Some "") None (Some "star")
                 (Some false)) eq_refl eq_refl)
    as [roles' [r' [H1 [_ [H3 [_ [_ [_ [_ H8]]]]]]]]].
  destruct (H8 eq_refl) as [Hoff [_ [Hnone Hsd]]].
  split; [exact (Hsd eq_refl 900)|].
  exists roles', r'. split; [exact H1|]. split; [exact H3|].
  split; [exact Hoff|]. apply Hnone.
  simpl. intros x [<-|[<-|[<-|[]]]]; simpl; intros E;
    try discriminate; reflexivity.
Defined.

End UpdatesRuns.

(** ** Creation of a policy *)

Section PolicyCreation.
Import PolicySchema.

Lemma policy_validate_Ok (d : Policy) :
  validate d = Ok tt ->
  match_identifier (policyIdentifier d) = true
  /\ (3 <= String.length (name d) <= 100)%nat
  /\ 0 <= priority d <= 100
  /\ In (category d) categories.
Proof.
  unfold validate.
  destruct (String.eqb (policyIdentifier d) ""); [discriminate|].
  destruct (match_identifier (policyIdentifier d)) eqn:Em; [|discriminate].
  destruct (String.eqb (name d) ""); [discriminate|].
  destruct (Nat.ltb (String.length (name d)) 3) eqn:E3; [discriminate|].
  destruct (Nat.ltb 100 (String.length (name d))) eqn:E100; [discriminate|].
  destruct (match description d with
            | Some s => Nat.ltb 1000 (String.length s)
            | None => false
            end); [discriminate|].
  destruct (priority d <? 0) eqn:P0; [discriminate|].
  destruct (100 <? priority d) eqn:P100; [discriminate|].
  destruct (existsb (String.eqb (category d)) categories) eqn:Ec;
    [|discriminate].
  intros _. apply Nat.ltb_ge in E3, E100. apply Z.ltb_ge in P0, P100.
  split; [reflexivity|]. split; [lia|]. split; [lia|].
  apply existsb_exists in Ec. destruct Ec as [c [Hc E]].
  apply String.eqb_eq in E. now rewrite E.
Qed.

(** X28.  [create] of the policy service converts the permission ids of the
    request first: one id that is no ObjectId fails the call before the
    policy is validated or stored.  A policy that it stores has the
    identifier of the request trimmed and in lower case, made of lower-case
    letters, digits, hyphens and underscores; a name of 3 to 100 characters;
    a priority from 0 to 100; a category of the schema; it is not a system
    policy and not soft-deleted; its permissions are the ids of the request
    in their order, each as often as given; it is found under its key and
    listed by [findAll].  No later [create] with that identifier, in any
    letter case, succeeds under another key. *)
Theorem policy_create (newId : ObjectId) (coll : Collection)
  (data : PolicyService.CreateData) :
  (forall l1 s l2,
     PolicyService.c_permissions data = Some (l1 ++ s :: l2) ->
     (forall x, In x l1 -> ObjectId_isValid x = true) ->
     ObjectId_isValid s = false ->
     PolicyService.create newId coll data
     = Throw invalid_ObjectId)
  /\ (forall coll' p,
        PolicyService.create newId coll data = Ok (coll', p) ->
        _id p = newId
        /\ policyIdentifier p
           = toLowerCase (trim (PolicyService.c_policyIdentifier data))
        /\ match_identifier (policyIdentifier p) = true
        /\ (3 <= String.length (name p) <= 100)%nat
        /\ 0 <= priority p <= 100
        /\ In (category p) categories
        /\ isSystem p = false /\ deletedAt p = None
        /\ (forall l, PolicyService.c_permissions data = Some l ->
              PolicyService.map_ObjectId l = Ok (permissions p))
        /\ (PolicyService.c_permissions data = None -> permissions p = [])
        /\ findById _id coll' newId = Some p
        /\ (forall perms,
              In (populate_permissions perms p)
                (PolicyService.findAll perms coll'))
        /\ (forall id2 data2,
              id2 <> newId ->
              toLowerCase (trim (PolicyService.c_policyIdentifier data2))
              = policyIdentifier p ->
              exists e, PolicyService.create id2 coll' data2 = Throw e)).
Proof.
  split.
  - intros l1 s l2 Hp H1 Hs. unfold PolicyService.create. rewrite Hp.
    now rewrite (@map_ObjectId_Throw l1 l2 s H1 Hs).
  - intros coll' p. unfold PolicyService.create.
    destruct (match PolicyService.c_permissions data with
              | Some l => PolicyService.map_ObjectId l
              | None => Ok []
              end) as [ids|e] eqn:Eids; [|discriminate].
    cbn [bind]. unfold save_new.
    destruct (validate (PolicyService.construct newId ids data))
      as [[]|e] eqn:Hv; [|discriminate].
    cbn [bind].
    destruct (identifier_taken coll _); [discriminate|].
    intros H. inversion H; subst coll' p. clear H.
    pose proof (policy_validate_Ok _ Hv) as [Hm [Hn [Hp Hc]]].
    repeat (split; [assumption || reflexivity|]).
    split; [|split; [|split; [|split]]].
    + intros l Hl. rewrite Hl in Eids. exact Eids.
    + intros Hl. rewrite Hl in Eids. now inversion Eids.
    + apply (findById_write_same _id coll
               (PolicyService.construct newId ids data)).
    + intros perms. apply policy_findAll_In.
      exists (PolicyService.construct newId ids data).
      split; [reflexivity|]. split; [apply In_write_same|reflexivity].
    + intros id2 data2 Hne E. unfold PolicyService.create.
      destruct (match PolicyService.c_permissions data2 with
                | Some l => PolicyService.map_ObjectId l
                | None => Ok []
                end) as [ids2|e]; [|now exists e].
      cbn [bind]. unfold save_new.
      destruct (validate (PolicyService.construct id2 ids2 data2))
        as [[]|e]; [|now exists e].
      cbn [bind].
      assert (identifier_taken
                (write _id coll (PolicyService.construct newId ids data))
                (PolicyService.construct id2 ids2 data2) = true) as ->.
      { unfold identifier_taken. apply existsb_exists.
        exists (PolicyService.construct newId ids data).
        split; [apply In_write_same|]. simpl.
        rewrite (proj2 (String.eqb_neq newId id2)) by congruence.
        simpl. simpl in E. rewrite E. apply String.eqb_refl. }
      eauto.
Qed.

End PolicyCreation.

Section PolicyCreationRuns.
Import PolicySchema Scenario.

Lemma policy_create_witness :
  PolicyService.create "bbbbbbbbbbbbbbbbbbbbbbb2" policies
    (PolicyService.mkCreateData " Content-Moderator " "Moderator" None
       (Some ["AAAAAAAAAAAAAAAAAAAAAAAA"; "aaaaaaaaaaaaaaaaaaaaaaaa"])
       (Some 50) None None)
  = Ok ([pol_viewer; pol_system;
         mkPolicy "bbbbbbbbbbbbbbbbbbbbbbb2" "content-moderator" "Moderator"
           None ["aaaaaaaaaaaaaaaaaaaaaaaa"; "aaaaaaaaaaaaaaaaaaaaaaaa"] 50
           true false None "custom" []],
        mkPolicy "bbbbbbbbbbbbbbbbbbbbbbb2" "content-moderator" "Moderator"
          None ["aaaaaaaaaaaaaaaaaaaaaaaa"; "aaaaaaaaaaaaaaaaaaaaaaaa"] 50
          true false None "custom" [])
  /\ (forall id2 data2,
        id2 <> "bbbbbbbbbbbbbbbbbbbbbbb2" ->
        toLowerCase (trim (PolicyService.c_policyIdentifier data2))
        = "content-moderator" ->
        exists e,
          PolicyService.create id2
            [pol_viewer; pol_system;
             mkPolicy "bbbbbbbbbbbbbbbbbbbbbbb2" "content-moderator"
               "Moderator" None
               ["aaaaaaaaaaaaaaaaaaaaaaaa"; "aaaaaaaaaaaaaaaaaaaaaaaa"] 50
               true false None "custom" []] data2
          = Throw e).
Proof.
  split; [reflexivity|].
  destruct (@policy_create "bbbbbbbbbbbbbbbbbbbbbbb2" policies
              (PolicyService.mkCreateData " Content-Moderator " "Moderator"
                 None
                 (Some ["AAAAAAAAAAAAAAAAAAAAAAAA"; "aaaaaaaaaaaaaaaaaaaaaaaa"])
                 (Some 50) None None)) as [_ H].
  destruct (H _ _ eq_refl) as [_ [_ [_ [_ [_ [_ [_ [_ [_ [_ [_ [_ H13]]]]]]]]]]]].
  exact H13.
Defined.

End PolicyCreationRuns.

(** ** Log levels *)

Section LogLevels.
Import PinoConfig.

Lemma lower_ascii_idem (c : ascii) :
  lower_ascii (lower_ascii c) = lower_ascii c.
Proof.
  destruct c as [[] [] [] [] [] [] [] []]; reflexivity.
Qed.

Lemma toLowerCase_idem (s : string) :
  toLowerCase (toLowerCase s) = toLowerCase s.
Proof.
  induction s as [|c s IH]; simpl; [reflexivity|].
  now rewrite lower_ascii_idem, IH.
Qed.

Lemma valid_level_lower (v : string) :
  includes VALID_LEVELS v = true -> toLowerCase v = v.
Proof.
  unfold includes. intros H. apply existsb_exists in H.
  destruct H as [x [Hx E]]. apply String.eqb_eq in E. subst x.
  simpl in Hx. repeat (destruct Hx as [<-|Hx]; [reflexivity|]). destruct Hx.
Qed.

(** X29.  [normalizeLevel] returns the given level in lower case when that
    is one of the six levels, and the fallback ([info] when none is given)
    in every other case, a missing or empty level included; the letter case
    of the given level makes no difference.  With a fallback that is a
    level the result is a level, and normalising it again returns it; so
    the level configured from [LOG_LEVEL] is always one of the six.
    [customLogLevel] never lowers the severity when the status grows or an
    error is added. *)
Theorem normalizeLevel_valid :
  (forall raw fallback,
     (includes VALID_LEVELS (toLowerCase (str_or raw "")) = true
      /\ normalizeLevel raw fallback = toLowerCase (str_or raw ""))
     \/ (includes VALID_LEVELS (toLowerCase (str_or raw "")) = false
         /\ normalizeLevel raw fallback
            = match fallback with Some f => f | None => "info" end))
  /\ (forall fallback,
        normalizeLevel None fallback = normalizeLevel (Some "") fallback
        /\ normalizeLevel None fallback
           = match fallback with Some f => f | None => "info" end)
  /\ (forall s fallback,
        normalizeLevel (Some (toLowerCase s)) fallback
        = normalizeLevel (Some s) fallback)
  /\ (forall raw fallback,
        includes VALID_LEVELS fallback = true ->
        includes VALID_LEVELS (normalizeLevel raw (Some fallback)) = true
        /\ normalizeLevel (Some (normalizeLevel raw (Some fallback)))
             (Some fallback)
           = normalizeLevel raw (Some fallback))
  /\ (forall raw, includes VALID_LEVELS (normalizeLevel raw None) = true)
  /\ (forall LOG_LEVEL,
        includes VALID_LEVELS (configured_level LOG_LEVEL) = true)
  /\ (forall s s' e e',
        s <= s' -> (e = true -> e' = true) ->
        customLogLevel s e = "error" -> customLogLevel s' e' = "error")
  /\ (forall s s' e e',
        s <= s' -> (e = true -> e' = true) ->
        customLogLevel s e = "warn" -> customLogLevel s' e' <> "info").
Proof.
  assert (forall raw fallback,
            includes VALID_LEVELS fallback = true ->
            includes VALID_LEVELS (normalizeLevel raw (Some fallback)) = true)
    as Hvalid.
  { intros raw fallback Hf. unfold normalizeLevel.
    destruct (includes VALID_LEVELS (toLowerCase (str_or raw ""))) eqn:E;
      assumption. }
  assert (forall s, str_or (Some (toLowerCase s)) ""
                    = toLowerCase (str_or (Some s) "")) as Hstr.
  { intros s. simpl. destruct s as [|c s]; reflexivity. }
  split; [|split; [|split; [|split; [|split; [|split; [|split]]]]]].
  - intros raw fallback. unfold normalizeLevel.
    destruct (includes VALID_LEVELS (toLowerCase (str_or raw ""))); auto.
  - intros fallback. split; reflexivity.
  - intros s fallback. unfold normalizeLevel.
    now rewrite Hstr, toLowerCase_idem.
  - intros raw fallback Hf. split; [now apply Hvalid|].
    pose proof (Hvalid raw fallback Hf) as Hv.
    unfold normalizeLevel at 1.
    assert (str_or (Some (normalizeLevel raw (Some fallback))) ""
            = normalizeLevel raw (Some fallback)) as ->.
    { simpl. destruct (String.eqb _ "") eqn:E; [|reflexivity].
      apply String.eqb_eq in E. rewrite E in Hv. discriminate. }
    now rewrite (valid_level_lower _ Hv), Hv.
  - intros raw.
    change (normalizeLevel raw None) with (normalizeLevel raw (Some "info")).
    now apply Hvalid.
  - intros LOG_LEVEL. now apply Hvalid.
  - intros s s' e e' Hs He. unfold customLogLevel.
    destruct e; [rewrite (He eq_refl); reflexivity|].
    destruct (500 <=? s) eqn:E5; simpl.
    + apply Z.leb_le in E5.
      assert ((500 <=? s') = true) as -> by (apply Z.leb_le; lia).
      now rewrite orb_true_r.
    + destruct (400 <=? s); discriminate.
  - intros s s' e e' Hs He. unfold customLogLevel.
    destruct e; [discriminate|]. simpl.
    destruct (500 <=? s) eqn:E5; [discriminate|].
    destruct (400 <=? s) eqn:E4; [|discriminate].
    intros _. apply Z.leb_le in E4.
    assert ((400 <=? s') = true) as -> by (apply Z.leb_le; lia).
    destruct (e' || (500 <=? s'))%bool; discriminate.
Qed.

End LogLevels.

(** ** The token of a request *)

Section Tokens.

Lemma prefix_inv (p h : string) :
  String.prefix p h = true -> exists r, h = (p ++ r)%string.
Proof.
  revert h. induction p as [|a p IH]; intros h.
  - intros _. now exists h.
  - destruct h as [|b h]; simpl; [discriminate|].
    destruct (ascii_dec a b) as [->|]; [|discriminate].
    intros H. destruct (IH h H) as [r ->]. now exists r.
Qed.

Lemma prefix_append (p r : string) : String.prefix p (p ++ r) = true.
Proof.
  induction p as [|a p IH]; [now destruct r|]. simpl.
  destruct (ascii_dec a a); [exact IH|congruence].
Qed.

Lemma substring_skip (p r : string) :
  String.substring (String.length p) (String.length r) (p ++ r) = r.
Proof.
  induction p as [|a p IH]; simpl; [apply substring_all|exact IH].
Qed.

Lemma substring_drop (p r : string) :
  substring (p ++ r) (Z.of_nat (String.length p))
    (Z.of_nat (String.length (p ++ r)))
  = r.
Proof.
  rewrite substring_spec by (rewrite length_append; lia).
  rewrite length_append.
  replace (Z.to_nat (Z.of_nat (String.length p))) with (String.length p)
    by lia.
  replace (Z.to_nat _) with (String.length r) by lia.
  apply substring_skip.
Qed.

Lemma str_or_Some (h : string) : str_or (Some h) "" = h.
Proof.
  simpl. destruct (String.eqb h "") eqn:E; [|reflexivity].
  apply String.eqb_eq in E. now subst.
Qed.

Lemma bearer_token_prefixed (r : string) :
  TeamManagementController.bearer_token (Some ("Bearer " ++ r)%string) = r.
Proof.
  unfold TeamManagementController.bearer_token. rewrite str_or_Some.
  rewrite prefix_append.
  exact (substring_drop "Bearer " r).
Qed.

(** X30.  The token that the middleware verifies is the second of the parts
    of the [Authorization] header between blanks; it is not empty and holds
    no blank.  The controller passes on the header without a leading
    ['Bearer '], or the whole header when it does not begin so.  The token
    passed on is the verified one exactly when the header is ['Bearer ']
    followed by the token; and the service sends the header of the request
    unchanged to the auth service exactly when it begins with ['Bearer '],
    and ['Bearer '] followed by the whole header otherwise. *)
Theorem verified_and_forwarded_token (h t : string)
  (H : AdminAuthMiddleware.provided (Some h) = Some t) :
  t <> ""
  /\ forallb (fun c => negb (Ascii.eqb c " ")) (list_ascii_of_string t) = true
  /\ (TeamManagementController.bearer_token (Some h) = t
      <-> h = ("Bearer " ++ t)%string)
  /\ (String.prefix "Bearer " h = true ->
      TeamManagementService.authorization_header
        (Some (TeamManagementController.bearer_token (Some h)))
      = Some h)
  /\ (String.prefix "Bearer " h = false ->
      TeamManagementService.authorization_header
        (Some (TeamManagementController.bearer_token (Some h)))
      = Some ("Bearer " ++ h)%string).
Proof.
  unfold AdminAuthMiddleware.provided, AdminAuthMiddleware.token in H.
  destruct (nth_error (split_on " " h) 1) as [t'|] eqn:En; [|discriminate].
  destruct (String.eqb t' "") eqn:Et; [discriminate|].
  inversion H; subst t'. clear H. apply String.eqb_neq in Et.
  assert (forallb (fun c => negb (Ascii.eqb c " ")) (list_ascii_of_string t)
          = true) as Hns.
  { apply split_on_pieces with (s := h). eapply nth_error_In. exact En. }
  assert (h <> "") as Hh.
  { intros ->. discriminate En. }
  split; [exact Et|]. split; [exact Hns|]. split; [|split].
  - split.
    + intros Hb. unfold TeamManagementController.bearer_token in Hb.
      rewrite str_or_Some in Hb.
      destruct (String.prefix "Bearer " h) eqn:Ep.
      * apply prefix_inv in Ep. destruct Ep as [r ->].
        pose proof (substring_drop "Bearer " r) as E.
        change (Z.of_nat (String.length "Bearer ")) with 7 in E.
        rewrite E in Hb. now subst.
      * subst h. rewrite (split_on_plain " " t Hns) in En. discriminate En.
    + intros ->. apply bearer_token_prefixed.
  - intros Ep. apply prefix_inv in Ep. destruct Ep as [r ->].
    rewrite bearer_token_prefixed.
    unfold TeamManagementService.authorization_header.
    assert (r <> "") as Hr.
    { intros ->. simpl in En. inversion En; subst. now apply Et. }
    simpl truthy. rewrite (proj2 (String.eqb_neq _ _) Hr). simpl negb.
    cbv iota. now rewrite str_or_Some.
  - intros Ep. unfold TeamManagementController.bearer_token.
    rewrite str_or_Some, Ep.
    unfold TeamManagementService.authorization_header.
    simpl truthy. rewrite (proj2 (String.eqb_neq _ _) Hh). simpl negb.
    cbv iota. now rewrite str_or_Some.
Qed.

End Tokens.

Section TokensRuns.

Lemma verified_and_forwarded_token_witness :
  AdminAuthMiddleware.provided (Some "bearer abc.def") = Some "abc.def"
  /\ TeamManagementController.bearer_token (Some "bearer abc.def")
     = "bearer abc.def"
  /\ TeamManagementService.authorization_header
       (Some (TeamManagementController.bearer_token (Some "bearer abc.def")))
     = Some "Bearer bearer abc.def"
  /\ (TeamManagementController.bearer_token (Some "Bearer abc.def")
      = "abc.def"
      <-> "Bearer abc.def" = ("Bearer " ++ "abc.def")%string).
Proof.
  destruct (@verified_and_forwarded_token "bearer abc.def" "abc.def" eq_refl)
    as [_ [_ [_ [_ H]]]].
  destruct (@verified_and_forwarded_token "Bearer abc.def" "abc.def" eq_refl)
    as [_ [_ [H' _]]].
  split; [reflexivity|]. split; [reflexivity|].
  split; [apply H; reflexivity|exact H'].
Defined.

End TokensRuns.
